(** * india-toolkit: the RTI generator and tracker, embedded and verified

    A shallow embedding of [india/rti/rti_generator.py] and
    [india/rti/rti_tracker.py].  Python values are modelled as follows.

    - [str] is [string]: the octets of the UTF-8 encoding.  A character
      is an ASCII octet, or a lead octet with its continuation octets;
      [str.strip], [str.isspace], [str.isdigit] and slices count and
      classify characters, with the white space and the digits of
      Unicode 14.0, the database of CPython 3.11.  [str.lower] is
      modelled on the letters A..Z and on KELVIN SIGN: it is applied to
      state names only, to look them up in a table whose keys are
      ASCII, and no other character has an ASCII lower case.
    - [datetime] is a proleptic Gregorian day number ([toordinal]) together
      with the microseconds elapsed since midnight; [timedelta(days=n)] is
      the integer [n].  Arithmetic that leaves years 1..9999 raises
      [OverflowError], as in Python.
    - exceptions are values of [result]; the wall clock ([datetime.now],
      [datetime.utcnow]) is an explicit argument of every operation that
      reads it.  An operation that reads the clock more than once, as a
      query does for its filter and again for every dict it builds, is
      modelled as reading one value throughout.
    - the SQLite table behind the tracker is a finite map from the primary
      key to the row; integers bound to a statement have to fit 64 bits. *)

From Stdlib Require Import ZArith Lia Bool Ascii.
From stdpp Require Import base option list gmap fin_maps strings pretty.
From stdpp Require Import sorting.

Local Open Scope Z_scope.

(** ** Exceptions *)

Inductive exn : Type :=
  | OverflowError
  | IndexError
  | KeyError
  | FileNotFoundError
  | IntegrityError.

Inductive result (A : Type) : Type :=
  | Ok (a : A)
  | Raise (e : exn).

Arguments Ok {A} a.
Arguments Raise {A} e.

Definition rbind {A B : Type} (m : result A) (k : A → result B) : result B :=
  match m with
  | Ok a => k a
  | Raise e => Raise e
  end.

#[global] Instance result_bind : MBind result := λ A B k m, rbind m k.
#[global] Instance result_ret : MRet result := @Ok.

Definition returns {A : Type} (m : result A) : Prop := ∃ a, m = Ok a.

(** ** Python string primitives *)

Module Py.

(** Truth value of a [str]: the empty string is false. *)
Definition truthy (s : string) : bool :=
  match s with
  | EmptyString => false
  | String _ _ => true
  end.

(** Truth value of an [Optional[str]]: [None] and [""] are false. *)
Definition otruthy (o : option string) : bool :=
  match o with
  | Some s => truthy s
  | None => false
  end.

(** [o or dflt] for an [Optional[str]] on the left. *)
Definition or_else (o : option string) (dflt : string) : string :=
  match o with
  | Some s => if truthy s then s else dflt
  | None => dflt
  end.

Definition code (c : ascii) : Z := Z.of_N (N_of_ascii c).

(** *** Characters

    A text is held as the octets of its UTF-8 encoding.  A character of
    the text is an ASCII octet by itself, or any other octet together
    with the continuation octets (10xxxxxx) that follow it; on
    well-formed UTF-8 these are the code points of the [str]. *)

Definition is_ascii (c : ascii) : bool := code c <? 128.

Definition is_cont (c : ascii) : bool := (128 <=? code c) && (code c <? 192).

(** Whether a text starts with a continuation octet. *)
Definition cont_head (t : string) : bool :=
  match t with
  | String c _ => is_cont c
  | EmptyString => false
  end.

(** The characters of a text, in order. *)
Fixpoint chars (s : string) : list string :=
  match s with
  | EmptyString => []
  | String c s' =>
      match chars s' with
      | t :: ts =>
          if cont_head t && negb (is_ascii c) then String c t :: ts
          else String c EmptyString :: t :: ts
      | [] => [String c EmptyString]
      end
  end.

(** The text made of the characters [cs]. *)
Definition text (cs : list string) : string :=
  foldr String.append EmptyString cs.

(** The code point a character encodes; -1 for octets that are no
    well-formed encoding of a code point. *)
Definition code_point (t : string) : Z :=
  match t with
  | String a EmptyString => if is_ascii a then code a else -1
  | String a (String b EmptyString) =>
      if (194 <=? code a) && (code a <? 224) && is_cont b
      then (code a - 192) * 64 + (code b - 128)
      else -1
  | String a (String b (String c EmptyString)) =>
      let v := (code a - 224) * 4096 + (code b - 128) * 64 + (code c - 128) in
      if (224 <=? code a) && (code a <? 240) && is_cont b && is_cont c
         && (2048 <=? v) && negb ((55296 <=? v) && (v <? 57344))
      then v
      else -1
  | String a (String b (String c (String d EmptyString))) =>
      let v := (code a - 240) * 262144 + (code b - 128) * 4096
               + (code c - 128) * 64 + (code d - 128) in
      if (240 <=? code a) && (code a <? 245) && is_cont b && is_cont c
         && is_cont d && (65536 <=? v) && (v <? 1114112)
      then v
      else -1
  | _ => -1
  end.

(** Membership in a list of closed ranges. *)
Definition in_ranges (ranges : list (Z * Z)) (n : Z) : bool :=
  existsb (λ r, (r.1 <=? n) && (n <=? r.2)) ranges.

(** The white space of [str.isspace] and [str.strip]: TAB..CR, FS..US,
    SPACE, NEL, NO-BREAK SPACE, OGHAM SPACE MARK, EN QUAD..HAIR SPACE,
    LINE and PARAGRAPH SEPARATOR, NARROW NO-BREAK SPACE, MEDIUM
    MATHEMATICAL SPACE, IDEOGRAPHIC SPACE. *)
Definition SPACES : list (Z * Z) :=
  [ (9, 13); (28, 32); (133, 133); (160, 160); (5760, 5760);
    (8192, 8202); (8232, 8233); (8239, 8239); (8287, 8287);
    (12288, 12288) ].

(** The code points [str.isdigit] accepts (Numeric_Type Decimal or
    Digit), as Unicode 14.0 lists them. *)
Definition DIGITS : list (Z * Z) :=
  [
    (48, 57); (178, 179); (185, 185); (1632, 1641); (1776, 1785);
    (1984, 1993); (2406, 2415); (2534, 2543); (2662, 2671); (2790, 2799);
    (2918, 2927); (3046, 3055); (3174, 3183); (3302, 3311); (3430, 3439);
    (3558, 3567); (3664, 3673); (3792, 3801); (3872, 3881); (4160, 4169);
    (4240, 4249); (4969, 4977); (6112, 6121); (6160, 6169); (6470, 6479);
    (6608, 6618); (6784, 6793); (6800, 6809); (6992, 7001); (7088, 7097);
    (7232, 7241); (7248, 7257); (8304, 8304); (8308, 8313); (8320, 8329);
    (9312, 9320); (9332, 9340); (9352, 9360); (9450, 9450); (9461, 9469);
    (9471, 9471); (10102, 10110); (10112, 10120); (10122, 10130);
    (42528, 42537); (43216, 43225); (43264, 43273); (43472, 43481);
    (43504, 43513); (43600, 43609); (44016, 44025); (65296, 65305);
    (66720, 66729); (68160, 68163); (68912, 68921); (69216, 69224);
    (69714, 69722); (69734, 69743); (69872, 69881); (69942, 69951);
    (70096, 70105); (70384, 70393); (70736, 70745); (70864, 70873);
    (71248, 71257); (71360, 71369); (71472, 71481); (71904, 71913);
    (72016, 72025); (72784, 72793); (73040, 73049); (73120, 73129);
    (92768, 92777); (92864, 92873); (93008, 93017); (120782, 120831);
    (123200, 123209); (123632, 123641); (125264, 125273); (127232, 127242);
    (130032, 130041)
  ].

(** [c.isspace()] for a character [c]. *)
Definition isspace (c : string) : bool := in_ranges SPACES (code_point c).

(** [c.isdigit()] for a character [c]. *)
Definition isdigit (c : string) : bool := in_ranges DIGITS (code_point c).

Definition lower_char (c : ascii) : ascii :=
  if (65 <=? code c) && (code c <=? 90)
  then ascii_of_N (Z.to_N (code c + 32))
  else c.

Fixpoint map_chars (f : ascii → ascii) (s : string) : string :=
  match s with
  | EmptyString => EmptyString
  | String c s' => String (f c) (map_chars f s')
  end.

(** The octets of KELVIN SIGN (U+212A). *)
Definition kelvin (a b c : ascii) : bool :=
  (code a =? 226) && (code b =? 132) && (code c =? 170).

(** [s.lower()], on the letters A..Z and on KELVIN SIGN, the one
    character outside ASCII whose lower case is an ASCII letter.  The
    lower case of every other character lies outside ASCII, as the
    character does, and the model leaves the character as it is. *)
Fixpoint lower (s : string) : string :=
  match s with
  | EmptyString => EmptyString
  | String a s1 =>
      match s1 with
      | String b (String c s3) =>
          if kelvin a b c then String "k" (lower s3)
          else String (lower_char a) (lower s1)
      | _ => String (lower_char a) (lower s1)
      end
  end.

(** [s.replace(a, b)] for one-character ASCII [a] and [b]. *)
Definition replace_char (a b : ascii) (s : string) : string :=
  map_chars (λ c, if Ascii.eqb c a then b else c) s.

(** The characters left when the white space at the front is dropped. *)
Fixpoint lstrip_chars (cs : list string) : list string :=
  match cs with
  | [] => []
  | c :: cs' => if isspace c then lstrip_chars cs' else cs
  end.

(** The characters left when the white space at the end is dropped: a
    character stays when it is not white space or when something stays
    behind it. *)
Fixpoint rstrip_chars (cs : list string) : list string :=
  match cs with
  | [] => []
  | c :: cs' =>
      match rstrip_chars cs' with
      | [] => if isspace c then [] else [c]
      | r => c :: r
      end
  end.

(** [s.strip()] *)
Definition strip (s : string) : string :=
  text (rstrip_chars (lstrip_chars (chars s))).

(** [s.split(sep)] for a one-character ASCII [sep]: never empty. *)
Fixpoint split (sep : ascii) (s : string) : list string :=
  match s with
  | EmptyString => [EmptyString]
  | String c s' =>
      if Ascii.eqb c sep then EmptyString :: split sep s'
      else match split sep s' with
           | l :: ls => String c l :: ls
           | [] => [String c EmptyString]
           end
  end.

(** [s.split(sep, 1)]: cut at the first [sep] only. *)
Fixpoint split1 (sep : ascii) (s : string) : list string :=
  match s with
  | EmptyString => [EmptyString]
  | String c s' =>
      if Ascii.eqb c sep then [EmptyString; s']
      else match split1 sep s' with
           | l :: ls => String c l :: ls
           | [] => [String c EmptyString]
           end
  end.

(** [xs[i]], raising [IndexError] out of range. *)
Definition index {A : Type} (xs : list A) (i : nat) : result A :=
  match xs !! i with
  | Some x => Ok x
  | None => Raise IndexError
  end.

(** [s[:n]]: the first [n] characters. *)
Definition first_chars (n : nat) (s : string) : string :=
  text (take n (chars s)).

(** The first [n] octets of [s]. *)
Fixpoint prefix (n : nat) (s : string) : string :=
  match n, s with
  | S n', String c s' => String c (prefix n' s')
  | _, _ => EmptyString
  end.

(** [c in s] for a one-character ASCII [c]. *)
Fixpoint contains (c : ascii) (s : string) : bool :=
  match s with
  | EmptyString => false
  | String a s' => Ascii.eqb a c || contains c s'
  end.

(** [s * n] *)
Fixpoint repeat (s : string) (n : nat) : string :=
  match n with
  | O => EmptyString
  | S n' => s +:+ repeat s n'
  end.

(** [sep.join(xs)] *)
Fixpoint join (sep : string) (xs : list string) : string :=
  match xs with
  | [] => EmptyString
  | [x] => x
  | x :: rest => x +:+ sep +:+ join sep rest
  end.

(** [str(n)] for an [int]. *)
Definition str (n : Z) : string := pretty n.

(** [n] printed in at least [w] digits, zero filled (a [%02d] field). *)
Definition zfill (w : nat) (n : Z) : string :=
  let s := pretty n in
  repeat "0" (w - String.length s) +:+ s.

Definition LF : ascii := ascii_of_N 10.
Definition nl : string := String LF EmptyString.

#[global] Arguments SPACES : simpl never.
#[global] Arguments DIGITS : simpl never.

End Py.

(** ** Python's [datetime] *)

Module DateTime.

(** A naive [datetime]: the day number of [toordinal()] (day 1 is
    0001-01-01) and the microseconds since midnight. *)
Record datetime : Type := mk_datetime {
  ordinal : Z;
  micros : Z
}.

#[global] Instance datetime_eq_dec : EqDecision datetime.
Proof. solve_decision. Defined.

Definition MAXORDINAL : Z := 3652059.
Definition DAY_MICROS : Z := 86400000000.

(** The values a [datetime] object can hold. *)
Definition valid (d : datetime) : Prop :=
  1 ≤ ordinal d ≤ MAXORDINAL ∧ 0 ≤ micros d < DAY_MICROS.

(** Truth value of a [datetime]: the class defines neither [__bool__]
    nor [__len__], so every instance is true. *)
Definition truthy (d : datetime) : bool := true.

(** *** The calendar ([_ymd2ord] and [_ord2ymd] of the datetime module) *)

Definition is_leap (year : Z) : bool :=
  (year mod 4 =? 0) && (negb (year mod 100 =? 0) || (year mod 400 =? 0)).

Definition days_before_year (year : Z) : Z :=
  let y := year - 1 in
  y * 365 + y / 4 - y / 100 + y / 400.

Definition DAYS_IN_MONTH : list Z :=
  [-1; 31; 28; 31; 30; 31; 30; 31; 31; 30; 31; 30; 31].

Definition DAYS_BEFORE_MONTH : list Z :=
  [-1; 0; 31; 59; 90; 120; 151; 181; 212; 243; 273; 304; 334].

Definition table (t : list Z) (month : Z) : Z :=
  default 0 (t !! Z.to_nat month).

Definition days_before_month (year month : Z) : Z :=
  table DAYS_BEFORE_MONTH month
  + (if (2 <? month) && is_leap year then 1 else 0).

Definition ymd2ord (year month day : Z) : Z :=
  days_before_year year + days_before_month year month + day.

Definition DI400Y : Z := 146097.
Definition DI100Y : Z := 36524.
Definition DI4Y : Z := 1461.

Definition ord2ymd (n : Z) : Z * Z * Z :=
  let n := n - 1 in
  let n400 := n / DI400Y in
  let n := n mod DI400Y in
  let year := n400 * 400 + 1 in
  let n100 := n / DI100Y in
  let n := n mod DI100Y in
  let n4 := n / DI4Y in
  let n := n mod DI4Y in
  let n1 := n / 365 in
  let n := n mod 365 in
  let year := year + n100 * 100 + n4 * 4 + n1 in
  if (n1 =? 4) || (n100 =? 4) then (year - 1, 12, 31)
  else
    let leapyear := (n1 =? 3) && (negb (n4 =? 24) || (n100 =? 3)) in
    let month := Z.shiftr (n + 50) 5 in
    let preceding :=
      table DAYS_BEFORE_MONTH month
      + (if (2 <? month) && leapyear then 1 else 0) in
    if n <? preceding then
      let month := month - 1 in
      let preceding :=
        preceding
        - (table DAYS_IN_MONTH month
           + (if (month =? 2) && leapyear then 1 else 0)) in
      (year, month, n - preceding + 1)
    else (year, month, n - preceding + 1).

(** [datetime(year, month, day)], at midnight. *)
Definition of_ymd (year month day : Z) : datetime :=
  mk_datetime (ymd2ord year month day) 0.

Definition year (d : datetime) : Z := (ord2ymd (ordinal d)).1.1.
Definition month (d : datetime) : Z := (ord2ymd (ordinal d)).1.2.
Definition day (d : datetime) : Z := (ord2ymd (ordinal d)).2.
Definition hour (d : datetime) : Z := micros d / 3600000000.
Definition minute (d : datetime) : Z := (micros d / 60000000) mod 60.
Definition second (d : datetime) : Z := (micros d / 1000000) mod 60.
Definition microsecond (d : datetime) : Z := micros d mod 1000000.

(** *** Arithmetic and order *)

(** [d + timedelta(days=n)]: the time of day is kept, the day number
    moves by [n], and a day outside 1..MAXORDINAL raises. *)
Definition add_days (d : datetime) (n : Z) : result datetime :=
  let o := ordinal d + n in
  if (0 <? o) && (o <=? MAXORDINAL) then Ok (mk_datetime o (micros d))
  else Raise OverflowError.

(** [d - timedelta(days=n)] is [d + (-timedelta(days=n))]. *)
Definition sub_days (d : datetime) (n : Z) : result datetime :=
  add_days d (- n).

Definition stamp (d : datetime) : Z := ordinal d * DAY_MICROS + micros d.

(** [a < b] and [a <= b] *)
Definition ltb (a b : datetime) : bool := stamp a <? stamp b.
Definition leb (a b : datetime) : bool := stamp a <=? stamp b.

(** [(a - b).days]: a [timedelta] is normalised with a floor. *)
Definition days_between (a b : datetime) : Z :=
  (stamp a - stamp b) / DAY_MICROS.

(** *** Formatting *)

(** [d.strftime("%d/%m/%Y")]; the C library prints [%Y] without
    padding. *)
Definition strftime_dmy (d : datetime) : string :=
  Py.zfill 2 (day d) +:+ "/" +:+ Py.zfill 2 (month d) +:+ "/"
  +:+ Py.str (year d).

(** [d.strftime("%Y-%m-%d %H:%M")] *)
Definition strftime_minute (d : datetime) : string :=
  Py.str (year d) +:+ "-" +:+ Py.zfill 2 (month d) +:+ "-"
  +:+ Py.zfill 2 (day d) +:+ " " +:+ Py.zfill 2 (hour d) +:+ ":"
  +:+ Py.zfill 2 (minute d).

(** [d.isoformat()]: the fraction is printed only when it is not zero. *)
Definition isoformat (d : datetime) : string :=
  Py.zfill 4 (year d) +:+ "-" +:+ Py.zfill 2 (month d) +:+ "-"
  +:+ Py.zfill 2 (day d) +:+ "T" +:+ Py.zfill 2 (hour d) +:+ ":"
  +:+ Py.zfill 2 (minute d) +:+ ":" +:+ Py.zfill 2 (second d)
  +:+ (if microsecond d =? 0 then ""
       else "." +:+ Py.zfill 6 (microsecond d)).

End DateTime.

Export DateTime (datetime).

(** The two clocks an operation reads: [datetime.now()] (local time) and
    [datetime.utcnow()].  The readings one call makes are taken at one
    instant; two calls have a clock value each. *)
Record clock : Type := mk_clock {
  now : datetime;
  utcnow : datetime
}.

(** ** [rti_generator.py] *)

Module Generator.
Import DateTime.

(** Standard RTI fee structure. *)
Definition FEES : gmap string Z :=
  list_to_map [
    ("central", 10);
    ("andhra_pradesh", 10);
    ("bihar", 10);
    ("chhattisgarh", 10);
    ("delhi", 10);
    ("goa", 10);
    ("gujarat", 20);
    ("haryana", 10);
    ("himachal_pradesh", 10);
    ("jharkhand", 10);
    ("karnataka", 10);
    ("kerala", 10);
    ("madhya_pradesh", 10);
    ("maharashtra", 10);
    ("odisha", 10);
    ("punjab", 10);
    ("rajasthan", 10);
    ("tamil_nadu", 10);
    ("telangana", 10);
    ("uttar_pradesh", 10);
    ("uttarakhand", 10);
    ("west_bengal", 10)
  ].

(** One entry of the PIO directory.  Every entry of the source carries
    all eight keys. *)
Record Agency : Type := mk_Agency {
  name : string;
  name_hi : string;
  pio_designation : string;
  address : string;
  parent_ministry : string;
  fee_category : string;
  appellate_authority : string;
  second_appeal : string
}.

Definition AGENCY_ITEMS : list (string * Agency) := [
  ("awbi", {|
    name := "Animal Welfare Board of India";
    name_hi := "भारतीय पशु कल्याण बोर्ड";
    pio_designation := "Public Information Officer";
    address := "13/1, Third Seaward Road, Valmiki Nagar, Thiruvanmiyur, Chennai - 600041";
    parent_ministry := "Ministry of Fisheries, Animal Husbandry and Dairying";
    fee_category := "central";
    appellate_authority := "First Appellate Authority, AWBI";
    second_appeal := "Central Information Commission, New Delhi" |});
  ("fssai", {|
    name := "Food Safety and Standards Authority of India";
    name_hi := "भारतीय खाद्य सुरक्षा और मानक प्राधिकरण";
    pio_designation := "Central Public Information Officer";
    address := "FDA Bhawan, Kotla Road, New Delhi - 110002";
    parent_ministry := "Ministry of Health and Family Welfare";
    fee_category := "central";
    appellate_authority := "First Appellate Authority, FSSAI";
    second_appeal := "Central Information Commission, New Delhi" |});
  ("cpcb", {|
    name := "Central Pollution Control Board";
    name_hi := "केंद्रीय प्रदूषण नियंत्रण बोर्ड";
    pio_designation := "Central Public Information Officer";
    address := "Parivesh Bhawan, East Arjun Nagar, Delhi - 110032";
    parent_ministry := "Ministry of Environment, Forest and Climate Change";
    fee_category := "central";
    appellate_authority := "First Appellate Authority, CPCB";
    second_appeal := "Central Information Commission, New Delhi" |});
  ("dahd", {|
    name := "Department of Animal Husbandry and Dairying";
    name_hi := "पशुपालन और डेयरी विभाग";
    pio_designation := "Central Public Information Officer";
    address := "Krishi Bhawan, Dr. Rajendra Prasad Road, New Delhi - 110001";
    parent_ministry := "Ministry of Fisheries, Animal Husbandry and Dairying";
    fee_category := "central";
    appellate_authority := "First Appellate Authority, DAHD";
    second_appeal := "Central Information Commission, New Delhi" |});
  ("nlm", {|
    name := "National Livestock Mission";
    name_hi := "राष्ट्रीय पशुधन मिशन";
    pio_designation := "Central Public Information Officer";
    address := "Department of Animal Husbandry and Dairying, Krishi Bhawan, New Delhi - 110001";
    parent_ministry := "Ministry of Fisheries, Animal Husbandry and Dairying";
    fee_category := "central";
    appellate_authority := "First Appellate Authority, DAHD";
    second_appeal := "Central Information Commission, New Delhi" |});
  ("rgm", {|
    name := "Rashtriya Gokul Mission";
    name_hi := "राष्ट्रीय गोकुल मिशन";
    pio_designation := "Central Public Information Officer";
    address := "Department of Animal Husbandry and Dairying, Krishi Bhawan, New Delhi - 110001";
    parent_ministry := "Ministry of Fisheries, Animal Husbandry and Dairying";
    fee_category := "central";
    appellate_authority := "First Appellate Authority, DAHD";
    second_appeal := "Central Information Commission, New Delhi" |})
].

(** PIO directory for key agencies. *)
Definition AGENCY_DIRECTORY : gmap string Agency := list_to_map AGENCY_ITEMS.

(** [agency.get(key, dflt)] on the result of
    [AGENCY_DIRECTORY.get(code, {})]: the empty dict answers [dflt]. *)
Definition agency_get (agency : option Agency) (key : Agency → string)
    (dflt : string) : string :=
  match agency with
  | Some a => key a
  | None => dflt
  end.

(** A single RTI application, as [__post_init__] leaves it: the filing
    date is set. *)
Record RTIApplication : Type := mk_RTIApplication {
  agency_code : string;
  questions : list string;
  applicant_name : string;
  applicant_address : string;
  applicant_phone : option string;
  applicant_email : option string;
  is_bpl : bool;
  bpl_certificate_number : option string;
  language : string;
  state : option string;
  district : option string;
  subject : string;
  filing_date : datetime;
  custom_pio_name : option string;
  custom_pio_address : option string;
  generated_text : string
}.

(** [__post_init__]: a missing filing date becomes the current time. *)
Definition post_init (c : clock) (filing_date : option datetime) : datetime :=
  match filing_date with
  | None => now c
  | Some d => d
  end.

(** [state.lower().replace(" ", "_")] *)
Definition state_key (state : string) : string :=
  Py.replace_char " " "_" (Py.lower state).

(** The last two lines of [fee_amount]: the fee of the agency's
    category, [central] for an unknown agency, 10 for an unknown
    category. *)
Definition category_fee (self : RTIApplication) : Z :=
  let agency := AGENCY_DIRECTORY !! agency_code self in
  default 10 (FEES !! agency_get agency fee_category "central").

(** The [fee_amount] property.  The membership test and the subscript
    of the state branch are one lookup. *)
Definition fee_amount (self : RTIApplication) : Z :=
  if is_bpl self then 0
  else
    match state self with
    | Some st =>
        if Py.truthy st then
          match FEES !! state_key st with
          | Some fee => fee
          | None => category_fee self
          end
        else category_fee self
    | None => category_fee self
    end.

(** 30 days from filing under Section 7(1). *)
Definition response_deadline (self : RTIApplication) : result datetime :=
  add_days (filing_date self) 30.

(** 30 days after response deadline under Section 19(1). *)
Definition first_appeal_deadline (self : RTIApplication) : result datetime :=
  d ← response_deadline self; add_days d 30.

(** 90 days after first appeal decision under Section 19(3). *)
Definition second_appeal_deadline (self : RTIApplication) : result datetime :=
  d ← first_appeal_deadline self; add_days d 90.

(** *** [RTIGenerator] *)

(** [_format_date_hindi]: [months_hi[dt.month]] raises [KeyError]
    outside 1..12. *)
Definition months_hi : gmap Z string :=
  list_to_map [
    (1, "जनवरी"); (2, "फरवरी"); (3, "मार्च"); (4, "अप्रैल");
    (5, "मई"); (6, "जून"); (7, "जुलाई"); (8, "अगस्त");
    (9, "सितंबर"); (10, "अक्टूबर"); (11, "नवंबर"); (12, "दिसंबर")
  ].

Definition format_date_hindi (dt : datetime) : result string :=
  match months_hi !! month dt with
  | Some m => Ok (Py.str (day dt) +:+ " " +:+ m +:+ " " +:+ Py.str (year dt))
  | None => Raise KeyError
  end.

(** [_number_to_words]: [words.get(n, str(n))]. *)
Definition number_to_words (n : Z) : string :=
  let words : gmap Z string :=
    list_to_map [
      (0, "Zero"); (2, "Two"); (5, "Five"); (10, "Ten");
      (20, "Twenty"); (50, "Fifty"); (100, "One Hundred")
    ] in
  default (Py.str n) (words !! n).

(** The [context] dict that [generate] hands to the renderers. *)
Record Context : Type := mk_Context {
  ctx_app : RTIApplication;
  ctx_agency : option Agency;
  ctx_fee : Z;
  ctx_date : string;
  ctx_date_hi : string;
  ctx_response_deadline : string;
  ctx_first_appeal_deadline : string
}.

(** The dict display of [generate], evaluated entry by entry. *)
Definition make_context (application : RTIApplication) : result Context :=
  let agency := AGENCY_DIRECTORY !! agency_code application in
  let fee := fee_amount application in
  let date := strftime_dmy (filing_date application) in
  date_hi ← format_date_hindi (filing_date application);
  rd ← response_deadline application;
  fad ← first_appeal_deadline application;
  Ok {| ctx_app := application;
        ctx_agency := agency;
        ctx_fee := fee;
        ctx_date := date;
        ctx_date_hi := date_hi;
        ctx_response_deadline := strftime_dmy rd;
        ctx_first_appeal_deadline := strftime_dmy fad |}.

(** [for i, question in enumerate(app.questions, 1)]: each question
    appends its numbered line and an empty line. *)
Fixpoint numbered (i : Z) (qs : list string) : list string :=
  match qs with
  | [] => []
  | question :: rest =>
      (Py.str i +:+ ". " +:+ question) :: "" :: numbered (i + 1) rest
  end.

(** [lines.append(label + value)] under [if value:]. *)
Definition optional_line (label : string) (value : option string) : list string :=
  if Py.otruthy value then [label +:+ default "" value] else [].

(** [_generate_english] *)
Definition generate_english (context : Context) : string :=
  let app := ctx_app context in
  let agency := ctx_agency context in
  let pio_address :=
    Py.or_else (custom_pio_address app) (agency_get agency address "[ADDRESS]") in
  let pio_designation :=
    agency_get agency pio_designation "Public Information Officer" in
  let lines := [
    "APPLICATION UNDER SECTION 6(1) OF THE RIGHT TO INFORMATION ACT, 2005";
    "";
    "Date: " +:+ ctx_date context;
    "";
    "To,";
    "The " +:+ pio_designation +:+ ",";
    agency_get agency name "[AGENCY NAME]" +:+ ",";
    pio_address;
    "";
    "Subject: " +:+ (if Py.truthy (subject app) then subject app
                     else "Request for Information under RTI Act, 2005");
    "";
    "Respected Sir/Madam,";
    "";
    "I, the undersigned, am a citizen of India and wish to seek information";
    "under Section 6(1) of the Right to Information Act, 2005. The details";
    "of the information sought are as follows:";
    ""
  ] in
  let lines := lines ++ numbered 1 (questions app) in
  let fee_text :=
    "I am enclosing an Indian Postal Order / Demand Draft / Court Fee Stamp "
    +:+ "of Rs. " +:+ Py.str (ctx_fee context) +:+ "/- (Rupees "
    +:+ number_to_words (ctx_fee context) +:+ " only) "
    +:+ "as the prescribed fee under the RTI Act, 2005." in
  let fee_text :=
    if is_bpl app then
      "I belong to Below Poverty Line (BPL) category and am exempt from "
      +:+ "payment of fee under Section 7(5) of the RTI Act, 2005. "
      +:+ "My BPL Certificate Number is: "
      +:+ Py.or_else (bpl_certificate_number app) "[BPL NUMBER]" +:+ "."
    else fee_text in
  let lines := lines ++ [
    fee_text;
    "";
    "I request that the above information be provided within 30 days as";
    "stipulated under Section 7(1) of the RTI Act, 2005.";
    "";
    "If the information sought or any part thereof concerns the life or";
    "liberty of a person, it shall be provided within 48 hours of receipt";
    "of this request as per Section 7(1) of the Act.";
    "";
    "If this application is transferred to another public authority under";
    "Section 6(3), I request to be informed of the same.";
    "";
    "Yours faithfully,";
    "";
    "Name: " +:+ applicant_name app;
    "Address: " +:+ applicant_address app
  ] in
  let lines := lines ++ optional_line "Phone: " (applicant_phone app) in
  let lines := lines ++ optional_line "Email: " (applicant_email app) in
  let lines := lines ++ [
    "";
    "---";
    "NOTE: Response deadline under Section 7(1): "
      +:+ ctx_response_deadline context;
    "First Appeal deadline under Section 19(1): "
      +:+ ctx_first_appeal_deadline context;
    "Appellate Authority: "
      +:+ agency_get agency appellate_authority "First Appellate Authority";
    "Second Appeal: "
      +:+ agency_get agency second_appeal "Central/State Information Commission"
  ] in
  Py.join Py.nl lines.

(** [_generate_hindi] *)
Definition generate_hindi (context : Context) : string :=
  let app := ctx_app context in
  let agency := ctx_agency context in
  let pio_address :=
    Py.or_else (custom_pio_address app) (agency_get agency address "[पता]") in
  let agency_name_hi :=
    agency_get agency name_hi (agency_get agency name "[विभाग का नाम]") in
  let lines := [
    "सूचना का अधिकार अधिनियम, 2005 की धारा 6(1) के तहत आवेदन";
    "";
    "दिनांक: " +:+ ctx_date_hi context;
    "";
    "सेवा में,";
    "जन सूचना अधिकारी,";
    agency_name_hi +:+ ",";
    pio_address;
    "";
    "विषय: " +:+ (if Py.truthy (subject app) then subject app
                  else "सूचना का अधिकार अधिनियम, 2005 के तहत सूचना प्राप्त करने का आवेदन");
    "";
    "महोदय/महोदया,";
    "";
    "मैं, नीचे हस्ताक्षरकर्ता, भारत का नागरिक हूं और सूचना का अधिकार";
    "अधिनियम, 2005 की धारा 6(1) के तहत निम्नलिखित सूचना प्राप्त करना चाहता/चाहती हूं:";
    ""
  ] in
  let lines := lines ++ numbered 1 (questions app) in
  let lines :=
    if is_bpl app then
      lines ++ [
        "मैं गरीबी रेखा से नीचे (BPL) की श्रेणी में आता/आती हूं और RTI अधिनियम, 2005";
        "की धारा 7(5) के तहत शुल्क से मुक्त हूं।";
        "BPL प्रमाणपत्र संख्या: "
          +:+ Py.or_else (bpl_certificate_number app) "[BPL संख्या]"
      ]
    else
      lines ++ [
        "मैं RTI अधिनियम, 2005 के तहत निर्धारित शुल्क के रूप में";
        "₹" +:+ Py.str (ctx_fee context)
          +:+ "/- का भारतीय पोस्टल ऑर्डर / डिमांड ड्राफ्ट संलग्न कर रहा/रही हूं।"
      ] in
  let lines := lines ++ [
    "";
    "कृपया उपरोक्त सूचना RTI अधिनियम, 2005 की धारा 7(1) के तहत";
    "निर्धारित 30 दिनों के भीतर उपलब्ध कराएं।";
    "";
    "भवदीय/भवदीया,";
    "";
    "नाम: " +:+ applicant_name app;
    "पता: " +:+ applicant_address app
  ] in
  let lines := lines ++ optional_line "फोन: " (applicant_phone app) in
  let lines := lines ++ optional_line "ईमेल: " (applicant_email app) in
  Py.join Py.nl lines.

(** [_generate_bilingual] *)
Definition generate_bilingual (context : Context) : string :=
  let english := generate_english context in
  let hindi := generate_hindi context in
  Py.repeat "=" 70 +:+ (Py.nl +:+ "ENGLISH VERSION / अंग्रेज़ी संस्करण" +:+ Py.nl)
  +:+ Py.repeat "=" 70 +:+ (Py.nl +:+ Py.nl)
  +:+ english +:+ (Py.nl +:+ Py.nl)
  +:+ Py.repeat "=" 70 +:+ (Py.nl +:+ "हिंदी संस्करण / HINDI VERSION" +:+ Py.nl)
  +:+ Py.repeat "=" 70 +:+ (Py.nl +:+ Py.nl)
  +:+ hindi.

Definition set_generated_text (text : string) (a : RTIApplication) : RTIApplication :=
  {| agency_code := agency_code a;
     questions := questions a;
     applicant_name := applicant_name a;
     applicant_address := applicant_address a;
     applicant_phone := applicant_phone a;
     applicant_email := applicant_email a;
     is_bpl := is_bpl a;
     bpl_certificate_number := bpl_certificate_number a;
     language := language a;
     state := state a;
     district := district a;
     subject := subject a;
     filing_date := filing_date a;
     custom_pio_name := custom_pio_name a;
     custom_pio_address := custom_pio_address a;
     generated_text := text |}.

Definition set_questions (qs : list string) (a : RTIApplication) : RTIApplication :=
  {| agency_code := agency_code a;
     questions := qs;
     applicant_name := applicant_name a;
     applicant_address := applicant_address a;
     applicant_phone := applicant_phone a;
     applicant_email := applicant_email a;
     is_bpl := is_bpl a;
     bpl_certificate_number := bpl_certificate_number a;
     language := language a;
     state := state a;
     district := district a;
     subject := subject a;
     filing_date := filing_date a;
     custom_pio_name := custom_pio_name a;
     custom_pio_address := custom_pio_address a;
     generated_text := generated_text a |}.

Definition set_language (lang : string) (a : RTIApplication) : RTIApplication :=
  {| agency_code := agency_code a;
     questions := questions a;
     applicant_name := applicant_name a;
     applicant_address := applicant_address a;
     applicant_phone := applicant_phone a;
     applicant_email := applicant_email a;
     is_bpl := is_bpl a;
     bpl_certificate_number := bpl_certificate_number a;
     language := lang;
     state := state a;
     district := district a;
     subject := subject a;
     filing_date := filing_date a;
     custom_pio_name := custom_pio_name a;
     custom_pio_address := custom_pio_address a;
     generated_text := generated_text a |}.

Definition set_state (st : option string) (a : RTIApplication) : RTIApplication :=
  {| agency_code := agency_code a;
     questions := questions a;
     applicant_name := applicant_name a;
     applicant_address := applicant_address a;
     applicant_phone := applicant_phone a;
     applicant_email := applicant_email a;
     is_bpl := is_bpl a;
     bpl_certificate_number := bpl_certificate_number a;
     language := language a;
     state := st;
     district := district a;
     subject := subject a;
     filing_date := filing_date a;
     custom_pio_name := custom_pio_name a;
     custom_pio_address := custom_pio_address a;
     generated_text := generated_text a |}.

(** [generate]: the text, and the application with the text cached in
    [generated_text]. *)
Definition generate (application : RTIApplication) : result (string * RTIApplication) :=
  context ← make_context application;
  let text :=
    if String.eqb (language application) "hindi" then generate_hindi context
    else if String.eqb (language application) "bilingual" then generate_bilingual context
    else generate_english context in
  Ok (text, set_generated_text text application).

(** [_extract_template_questions]: the body of the loop, on the lines
    still to read and the questions found so far. *)
Fixpoint extract_lines (lines questions : list string) : result (list string) :=
  match lines with
  | [] => Ok questions
  | line :: rest =>
      let line := Py.strip line in
      let numbered_line :=
        match Py.chars line with
        | [] => false
        | c0 :: _ => Py.isdigit c0 && Py.contains "." (Py.first_chars 4 line)
        end in
      if numbered_line then
        tail ← Py.index (Py.split1 "." line) 1;
        let question := Py.strip tail in
        if Py.truthy question then extract_lines rest (questions ++ [question])
        else extract_lines rest questions
      else extract_lines rest questions
  end.

Definition extract_template_questions (template_text : string) : result (list string) :=
  extract_lines (Py.split Py.LF (Py.strip template_text)) [].

(** [generate_from_template], on the text of the template file, [None]
    when the file does not exist. *)
Definition generate_from_template (template : option string)
    (application : RTIApplication) : result (string * RTIApplication) :=
  match template with
  | None => Raise FileNotFoundError
  | Some template_text =>
      qs ← extract_template_questions template_text;
      let application :=
        match qs with
        | [] => application
        | _ :: _ => set_questions qs application
        end in
      generate application
  end.

#[global] Arguments FEES : simpl never.
#[global] Arguments AGENCY_DIRECTORY : simpl never.
#[global] Arguments months_hi : simpl never.
#[global] Arguments number_to_words : simpl never.

(** The value [generate] returns. *)
Definition rendered (application : RTIApplication) : result string :=
  p ← generate application; Ok p.1.

(** [list_agencies] *)
Definition list_agencies : list string := AGENCY_ITEMS.*1.

(** [get_agency_info]: the entry of the directory, [None] for the empty
    dict an unknown code gets. *)
Definition get_agency_info (agency_code : string) : option Agency :=
  AGENCY_DIRECTORY !! agency_code.

(** The fields of [RTIApplication] the factory methods leave to their
    [**kwargs]; [None] leaves a field to the default of the dataclass. *)
Record AppKwargs : Type := mk_AppKwargs {
  akw_applicant_phone : option string;
  akw_applicant_email : option string;
  akw_is_bpl : option bool;
  akw_bpl_certificate_number : option string;
  akw_language : option string;
  akw_filing_date : option datetime;
  akw_custom_pio_name : option string;
  akw_custom_pio_address : option string;
  akw_generated_text : option string
}.

Definition no_app_kwargs : AppKwargs :=
  mk_AppKwargs None None None None None None None None None.

(** [RTIApplication(...)]: the generated [__init__] with the defaults of
    the dataclass, then [__post_init__]. *)
Definition init (c : clock) (agency_code : string) (questions : list string)
    (applicant_name applicant_address subject : string)
    (state district : option string) (kwargs : AppKwargs) : RTIApplication :=
  {| agency_code := agency_code;
     questions := questions;
     applicant_name := applicant_name;
     applicant_address := applicant_address;
     applicant_phone := akw_applicant_phone kwargs;
     applicant_email := akw_applicant_email kwargs;
     is_bpl := default false (akw_is_bpl kwargs);
     bpl_certificate_number := akw_bpl_certificate_number kwargs;
     language := default "english" (akw_language kwargs);
     state := state;
     district := district;
     subject := subject;
     filing_date := post_init c (akw_filing_date kwargs);
     custom_pio_name := akw_custom_pio_name kwargs;
     custom_pio_address := akw_custom_pio_address kwargs;
     generated_text := default "" (akw_generated_text kwargs) |}.

(** [awbi_inspection_request]: RTI for AWBI inspection reports on a
    specific facility.  [state] and [district] can only come from the
    [**kwargs]. *)
Definition awbi_inspection_request (c : clock)
    (facility_name facility_location applicant_name applicant_address : string)
    (state district : option string) (kwargs : AppKwargs) : RTIApplication :=
  let questions := [
    "Please provide copies of all inspection reports for "
      +:+ facility_name
      +:+ " located at "
      +:+ facility_location
      +:+ " conducted by AWBI or its representatives in the last 3 years.";
    "What is the current registration/recognition status of "
      +:+ facility_name
      +:+ " under the Prevention of Cruelty to Animals Act, 1960?";
    "How many complaints have been received against the said facility in the last 3 years, and what action was taken on each complaint?";
    "Please provide the latest compliance report for the facility with respect to the Animal Welfare Board of India guidelines.";
    "What is the animal capacity approved for this facility, and what is the current animal population as per the last inspection?"
  ] in
  init c "awbi" questions applicant_name applicant_address
    ("Inspection reports and compliance status of "
      +:+ facility_name)
    state district kwargs.

(** [fssai_violations_request]: RTI for FSSAI food safety violations in
    meat/dairy. *)
Definition fssai_violations_request (c : clock)
    (state district applicant_name applicant_address : string) (year : Z)
    (kwargs : AppKwargs) : RTIApplication :=
  let questions := [
    "How many food safety inspections were conducted at slaughterhouses, meat processing plants, and dairy processing units in "
      +:+ district
      +:+ " district, "
      +:+ state
      +:+ " during the year "
      +:+ Py.str year
      +:+ "?";
    "How many violations of the Food Safety and Standards (Licensing and Registration of Food Businesses) Regulations, 2011 were detected at meat and dairy establishments in "
      +:+ district
      +:+ ", "
      +:+ state
      +:+ " during "
      +:+ Py.str year
      +:+ "?";
    "Please provide details of all penalties, fines, and license suspensions imposed on meat and dairy establishments in "
      +:+ district
      +:+ " during "
      +:+ Py.str year
      +:+ ".";
    "How many meat and dairy establishments in the district currently hold valid FSSAI licenses, and how many are operating without licenses?";
    "What testing has been done for antibiotic residues, aflatoxin M1, adulterants (urea, detergent, starch), and pesticide residues in milk and dairy products in "
      +:+ district
      +:+ " during "
      +:+ Py.str year
      +:+ "?"
  ] in
  init c "fssai" questions applicant_name applicant_address
    ("Food safety violations at meat/dairy units in "
      +:+ district
      +:+ ", "
      +:+ state)
    (Some state) (Some district) kwargs.

(** [pollution_board_request]: RTI for state PCB pollution data from
    animal agriculture. *)
Definition pollution_board_request (c : clock)
    (state district applicant_name applicant_address : string)
    (kwargs : AppKwargs) : RTIApplication :=
  let questions := [
    "How many poultry farms, dairy farms, piggeries, and slaughterhouses in "
      +:+ district
      +:+ " district, "
      +:+ state
      +:+ " hold valid Consent to Operate (CTO) from the State Pollution Control Board?";
    "Please provide data on effluent discharge, BOD levels, COD levels, and solid waste generation from all animal agriculture operations in "
      +:+ district
      +:+ " for the last 2 years.";
    "How many complaints regarding pollution from poultry farms, dairy farms, piggeries, and slaughterhouses have been received in "
      +:+ district
      +:+ " in the last 3 years? What action was taken?";
    "Please provide details of all Consent to Operate applications received from animal agriculture operations in "
      +:+ district
      +:+ ", and how many were approved, rejected, or are pending.";
    "What is the groundwater quality data for areas within 1 km of large poultry and dairy operations in "
      +:+ district
      +:+ "? Please provide nitrate, ammonia, and coliform levels."
  ] in
  init c "cpcb" questions applicant_name applicant_address
    ("Pollution data from animal agriculture in "
      +:+ district
      +:+ ", "
      +:+ state)
    (Some state) (Some district) kwargs.

(** [subsidy_data_request]: RTI for NLM/Rashtriya Gokul Mission spending
    data.  [district] can only come from the [**kwargs]. *)
Definition subsidy_data_request (c : clock)
    (state applicant_name applicant_address scheme : string)
    (district : option string) (kwargs : AppKwargs) : RTIApplication :=
  let agency :=
    if String.eqb scheme "nlm" then "nlm"
    else if String.eqb scheme "rgm" then "rgm"
    else "dahd" in
  let questions := [] in
  let questions :=
    if String.eqb scheme "nlm" || String.eqb scheme "both" then
      questions ++ [
    "What is the total funds allocated and disbursed under the National Livestock Mission (NLM) to "
      +:+ state
      +:+ " for each year from 2019-20 to 2024-25? Please provide scheme-wise and component-wise breakup.";
    "How many beneficiaries have received subsidies under NLM in "
      +:+ state
      +:+ " for poultry, dairy, piggery, and goat rearing? Provide year-wise data.";
    "What is the total subsidy amount disbursed for establishment of new commercial poultry farms and dairy units in "
      +:+ state
      +:+ " under NLM?"
  ]
    else questions in
  let questions :=
    if String.eqb scheme "rgm" || String.eqb scheme "both" then
      questions ++ [
    "What is the total expenditure under the Rashtriya Gokul Mission (RGM) in "
      +:+ state
      +:+ " from 2019-20 to 2024-25? Provide component-wise breakup including Gokul Grams, IVF centres, and AI coverage.";
    "How many Gokul Grams have been established in "
      +:+ state
      +:+ " and what is the animal housing capacity and current occupancy of each?";
    "What is the total expenditure on artificial insemination under RGM in "
      +:+ state
      +:+ ", and what are the conception success rates reported?"
  ]
    else questions in
  let questions :=
    questions ++ [
    "Please provide copies of any audit reports, utilization certificates, or evaluation studies for the above schemes in "
      +:+ state
      +:+ "."
  ] in
  init c agency questions applicant_name applicant_address
    ("Expenditure and outcomes under NLM/RGM in "
      +:+ state)
    (Some state) district kwargs.

(** [slaughterhouse_license_request]: RTI for district slaughterhouse
    licensing data. *)
Definition slaughterhouse_license_request (c : clock)
    (district state applicant_name applicant_address : string)
    (kwargs : AppKwargs) : RTIApplication :=
  let questions := [
    "How many slaughterhouses are licensed/registered in "
      +:+ district
      +:+ " district, "
      +:+ state
      +:+ " as of date? Provide name, location, and license validity.";
    "How many slaughterhouses in "
      +:+ district
      +:+ " comply with the Slaughter House and Meat Inspection Rules (Food Safety and Standards Authority of India), and the Slaughtering Rules, 2001?";
    "How many unlicensed/unregistered slaughterhouses have been identified in "
      +:+ district
      +:+ " in the last 3 years, and what action was taken?";
    "What is the approved daily slaughter capacity of each licensed slaughterhouse in "
      +:+ district
      +:+ ", and what are the actual daily slaughter numbers?";
    "Please provide inspection reports for all slaughterhouses in "
      +:+ district
      +:+ " for the last 2 years, including veterinary inspection records.";
    "Do the slaughterhouses in "
      +:+ district
      +:+ " have operational effluent treatment plants as required under environmental regulations? Provide status."
  ] in
  init c "fssai" questions applicant_name applicant_address
    ("Slaughterhouse licensing and compliance in "
      +:+ district
      +:+ ", "
      +:+ state)
    (Some state) (Some district) kwargs.

End Generator.

(** ** [rti_tracker.py] *)

Module Tracker.
Import DateTime.

Inductive RTIStatus : Type :=
  | DRAFTED
  | FILED
  | ACKNOWLEDGED
  | TRANSFERRED
  | RESPONSE_RECEIVED
  | PARTIAL_RESPONSE
  | DENIED
  | NO_RESPONSE
  | FIRST_APPEAL_FILED
  | FIRST_APPEAL_DECIDED
  | SECOND_APPEAL_FILED
  | SECOND_APPEAL_DECIDED
  | COMPLAINT_FILED
  | CLOSED.

#[global] Instance RTIStatus_eq_dec : EqDecision RTIStatus.
Proof. solve_decision. Defined.

(** [status.value] *)
Definition status_value (s : RTIStatus) : string :=
  match s with
  | DRAFTED => "drafted"
  | FILED => "filed"
  | ACKNOWLEDGED => "acknowledged"
  | TRANSFERRED => "transferred"
  | RESPONSE_RECEIVED => "response_received"
  | PARTIAL_RESPONSE => "partial_response"
  | DENIED => "denied"
  | NO_RESPONSE => "no_response"
  | FIRST_APPEAL_FILED => "first_appeal_filed"
  | FIRST_APPEAL_DECIDED => "first_appeal_decided"
  | SECOND_APPEAL_FILED => "second_appeal_filed"
  | SECOND_APPEAL_DECIDED => "second_appeal_decided"
  | COMPLAINT_FILED => "complaint_filed"
  | CLOSED => "closed"
  end.

(** A row of [rti_records] without its primary key, which is the key of
    the table.  A nullable column is an [option]; the two JSON columns
    hold the list their text encodes. *)
Record RTIRecord : Type := mk_RTIRecord {
  reference_number : option string;
  agency_code : string;
  agency_name : string;
  pio_name : option string;
  pio_address : option string;
  applicant_name : string;
  subject : string;
  questions_json : list string;
  full_text : option string;
  state : option string;
  district : option string;
  filing_date : datetime;
  fee_amount : Z;
  fee_mode : option string;
  fee_receipt : option string;
  status : RTIStatus;
  is_bpl : bool;
  acknowledgment_date : option datetime;
  response_date : option datetime;
  transfer_date : option datetime;
  transferred_to : option string;
  response_deadline : datetime;
  first_appeal_deadline : option datetime;
  second_appeal_deadline : option datetime;
  first_appeal_date : option datetime;
  first_appeal_authority : option string;
  first_appeal_decision_date : option datetime;
  first_appeal_outcome : option string;
  second_appeal_date : option datetime;
  second_appeal_authority : option string;
  second_appeal_decision_date : option datetime;
  second_appeal_outcome : option string;
  notes : option string;
  response_summary : option string;
  documents_received : option (list string);
  created_at : datetime;
  updated_at : datetime
}.

(** [record.status = v] *)
Definition set_status (v : RTIStatus) (r : RTIRecord) : RTIRecord :=
  {| reference_number := reference_number r;
     agency_code := agency_code r;
     agency_name := agency_name r;
     pio_name := pio_name r;
     pio_address := pio_address r;
     applicant_name := applicant_name r;
     subject := subject r;
     questions_json := questions_json r;
     full_text := full_text r;
     state := state r;
     district := district r;
     filing_date := filing_date r;
     fee_amount := fee_amount r;
     fee_mode := fee_mode r;
     fee_receipt := fee_receipt r;
     status := v;
     is_bpl := is_bpl r;
     acknowledgment_date := acknowledgment_date r;
     response_date := response_date r;
     transfer_date := transfer_date r;
     transferred_to := transferred_to r;
     response_deadline := response_deadline r;
     first_appeal_deadline := first_appeal_deadline r;
     second_appeal_deadline := second_appeal_deadline r;
     first_appeal_date := first_appeal_date r;
     first_appeal_authority := first_appeal_authority r;
     first_appeal_decision_date := first_appeal_decision_date r;
     first_appeal_outcome := first_appeal_outcome r;
     second_appeal_date := second_appeal_date r;
     second_appeal_authority := second_appeal_authority r;
     second_appeal_decision_date := second_appeal_decision_date r;
     second_appeal_outcome := second_appeal_outcome r;
     notes := notes r;
     response_summary := response_summary r;
     documents_received := documents_received r;
     created_at := created_at r;
     updated_at := updated_at r |}.

(** [record.updated_at = v] *)
Definition set_updated_at (v : datetime) (r : RTIRecord) : RTIRecord :=
  {| reference_number := reference_number r;
     agency_code := agency_code r;
     agency_name := agency_name r;
     pio_name := pio_name r;
     pio_address := pio_address r;
     applicant_name := applicant_name r;
     subject := subject r;
     questions_json := questions_json r;
     full_text := full_text r;
     state := state r;
     district := district r;
     filing_date := filing_date r;
     fee_amount := fee_amount r;
     fee_mode := fee_mode r;
     fee_receipt := fee_receipt r;
     status := status r;
     is_bpl := is_bpl r;
     acknowledgment_date := acknowledgment_date r;
     response_date := response_date r;
     transfer_date := transfer_date r;
     transferred_to := transferred_to r;
     response_deadline := response_deadline r;
     first_appeal_deadline := first_appeal_deadline r;
     second_appeal_deadline := second_appeal_deadline r;
     first_appeal_date := first_appeal_date r;
     first_appeal_authority := first_appeal_authority r;
     first_appeal_decision_date := first_appeal_decision_date r;
     first_appeal_outcome := first_appeal_outcome r;
     second_appeal_date := second_appeal_date r;
     second_appeal_authority := second_appeal_authority r;
     second_appeal_decision_date := second_appeal_decision_date r;
     second_appeal_outcome := second_appeal_outcome r;
     notes := notes r;
     response_summary := response_summary r;
     documents_received := documents_received r;
     created_at := created_at r;
     updated_at := v |}.

(** [record.notes = v] *)
Definition set_notes (v : option string) (r : RTIRecord) : RTIRecord :=
  {| reference_number := reference_number r;
     agency_code := agency_code r;
     agency_name := agency_name r;
     pio_name := pio_name r;
     pio_address := pio_address r;
     applicant_name := applicant_name r;
     subject := subject r;
     questions_json := questions_json r;
     full_text := full_text r;
     state := state r;
     district := district r;
     filing_date := filing_date r;
     fee_amount := fee_amount r;
     fee_mode := fee_mode r;
     fee_receipt := fee_receipt r;
     status := status r;
     is_bpl := is_bpl r;
     acknowledgment_date := acknowledgment_date r;
     response_date := response_date r;
     transfer_date := transfer_date r;
     transferred_to := transferred_to r;
     response_deadline := response_deadline r;
     first_appeal_deadline := first_appeal_deadline r;
     second_appeal_deadline := second_appeal_deadline r;
     first_appeal_date := first_appeal_date r;
     first_appeal_authority := first_appeal_authority r;
     first_appeal_decision_date := first_appeal_decision_date r;
     first_appeal_outcome := first_appeal_outcome r;
     second_appeal_date := second_appeal_date r;
     second_appeal_authority := second_appeal_authority r;
     second_appeal_decision_date := second_appeal_decision_date r;
     second_appeal_outcome := second_appeal_outcome r;
     notes := v;
     response_summary := response_summary r;
     documents_received := documents_received r;
     created_at := created_at r;
     updated_at := updated_at r |}.

(** [record.response_summary = v] *)
Definition set_response_summary (v : option string) (r : RTIRecord) : RTIRecord :=
  {| reference_number := reference_number r;
     agency_code := agency_code r;
     agency_name := agency_name r;
     pio_name := pio_name r;
     pio_address := pio_address r;
     applicant_name := applicant_name r;
     subject := subject r;
     questions_json := questions_json r;
     full_text := full_text r;
     state := state r;
     district := district r;
     filing_date := filing_date r;
     fee_amount := fee_amount r;
     fee_mode := fee_mode r;
     fee_receipt := fee_receipt r;
     status := status r;
     is_bpl := is_bpl r;
     acknowledgment_date := acknowledgment_date r;
     response_date := response_date r;
     transfer_date := transfer_date r;
     transferred_to := transferred_to r;
     response_deadline := response_deadline r;
     first_appeal_deadline := first_appeal_deadline r;
     second_appeal_deadline := second_appeal_deadline r;
     first_appeal_date := first_appeal_date r;
     first_appeal_authority := first_appeal_authority r;
     first_appeal_decision_date := first_appeal_decision_date r;
     first_appeal_outcome := first_appeal_outcome r;
     second_appeal_date := second_appeal_date r;
     second_appeal_authority := second_appeal_authority r;
     second_appeal_decision_date := second_appeal_decision_date r;
     second_appeal_outcome := second_appeal_outcome r;
     notes := notes r;
     response_summary := v;
     documents_received := documents_received r;
     created_at := created_at r;
     updated_at := updated_at r |}.

(** [record.response_date = v] *)
Definition set_response_date (v : option datetime) (r : RTIRecord) : RTIRecord :=
  {| reference_number := reference_number r;
     agency_code := agency_code r;
     agency_name := agency_name r;
     pio_name := pio_name r;
     pio_address := pio_address r;
     applicant_name := applicant_name r;
     subject := subject r;
     questions_json := questions_json r;
     full_text := full_text r;
     state := state r;
     district := district r;
     filing_date := filing_date r;
     fee_amount := fee_amount r;
     fee_mode := fee_mode r;
     fee_receipt := fee_receipt r;
     status := status r;
     is_bpl := is_bpl r;
     acknowledgment_date := acknowledgment_date r;
     response_date := v;
     transfer_date := transfer_date r;
     transferred_to := transferred_to r;
     response_deadline := response_deadline r;
     first_appeal_deadline := first_appeal_deadline r;
     second_appeal_deadline := second_appeal_deadline r;
     first_appeal_date := first_appeal_date r;
     first_appeal_authority := first_appeal_authority r;
     first_appeal_decision_date := first_appeal_decision_date r;
     first_appeal_outcome := first_appeal_outcome r;
     second_appeal_date := second_appeal_date r;
     second_appeal_authority := second_appeal_authority r;
     second_appeal_decision_date := second_appeal_decision_date r;
     second_appeal_outcome := second_appeal_outcome r;
     notes := notes r;
     response_summary := response_summary r;
     documents_received := documents_received r;
     created_at := created_at r;
     updated_at := updated_at r |}.

(** [record.documents_received = v] *)
Definition set_documents_received (v : option (list string)) (r : RTIRecord) : RTIRecord :=
  {| reference_number := reference_number r;
     agency_code := agency_code r;
     agency_name := agency_name r;
     pio_name := pio_name r;
     pio_address := pio_address r;
     applicant_name := applicant_name r;
     subject := subject r;
     questions_json := questions_json r;
     full_text := full_text r;
     state := state r;
     district := district r;
     filing_date := filing_date r;
     fee_amount := fee_amount r;
     fee_mode := fee_mode r;
     fee_receipt := fee_receipt r;
     status := status r;
     is_bpl := is_bpl r;
     acknowledgment_date := acknowledgment_date r;
     response_date := response_date r;
     transfer_date := transfer_date r;
     transferred_to := transferred_to r;
     response_deadline := response_deadline r;
     first_appeal_deadline := first_appeal_deadline r;
     second_appeal_deadline := second_appeal_deadline r;
     first_appeal_date := first_appeal_date r;
     first_appeal_authority := first_appeal_authority r;
     first_appeal_decision_date := first_appeal_decision_date r;
     first_appeal_outcome := first_appeal_outcome r;
     second_appeal_date := second_appeal_date r;
     second_appeal_authority := second_appeal_authority r;
     second_appeal_decision_date := second_appeal_decision_date r;
     second_appeal_outcome := second_appeal_outcome r;
     notes := notes r;
     response_summary := response_summary r;
     documents_received := v;
     created_at := created_at r;
     updated_at := updated_at r |}.

(** [record.first_appeal_date = v] *)
Definition set_first_appeal_date (v : option datetime) (r : RTIRecord) : RTIRecord :=
  {| reference_number := reference_number r;
     agency_code := agency_code r;
     agency_name := agency_name r;
     pio_name := pio_name r;
     pio_address := pio_address r;
     applicant_name := applicant_name r;
     subject := subject r;
     questions_json := questions_json r;
     full_text := full_text r;
     state := state r;
     district := district r;
     filing_date := filing_date r;
     fee_amount := fee_amount r;
     fee_mode := fee_mode r;
     fee_receipt := fee_receipt r;
     status := status r;
     is_bpl := is_bpl r;
     acknowledgment_date := acknowledgment_date r;
     response_date := response_date r;
     transfer_date := transfer_date r;
     transferred_to := transferred_to r;
     response_deadline := response_deadline r;
     first_appeal_deadline := first_appeal_deadline r;
     second_appeal_deadline := second_appeal_deadline r;
     first_appeal_date := v;
     first_appeal_authority := first_appeal_authority r;
     first_appeal_decision_date := first_appeal_decision_date r;
     first_appeal_outcome := first_appeal_outcome r;
     second_appeal_date := second_appeal_date r;
     second_appeal_authority := second_appeal_authority r;
     second_appeal_decision_date := second_appeal_decision_date r;
     second_appeal_outcome := second_appeal_outcome r;
     notes := notes r;
     response_summary := response_summary r;
     documents_received := documents_received r;
     created_at := created_at r;
     updated_at := updated_at r |}.

(** [record.first_appeal_authority = v] *)
Definition set_first_appeal_authority (v : option string) (r : RTIRecord) : RTIRecord :=
  {| reference_number := reference_number r;
     agency_code := agency_code r;
     agency_name := agency_name r;
     pio_name := pio_name r;
     pio_address := pio_address r;
     applicant_name := applicant_name r;
     subject := subject r;
     questions_json := questions_json r;
     full_text := full_text r;
     state := state r;
     district := district r;
     filing_date := filing_date r;
     fee_amount := fee_amount r;
     fee_mode := fee_mode r;
     fee_receipt := fee_receipt r;
     status := status r;
     is_bpl := is_bpl r;
     acknowledgment_date := acknowledgment_date r;
     response_date := response_date r;
     transfer_date := transfer_date r;
     transferred_to := transferred_to r;
     response_deadline := response_deadline r;
     first_appeal_deadline := first_appeal_deadline r;
     second_appeal_deadline := second_appeal_deadline r;
     first_appeal_date := first_appeal_date r;
     first_appeal_authority := v;
     first_appeal_decision_date := first_appeal_decision_date r;
     first_appeal_outcome := first_appeal_outcome r;
     second_appeal_date := second_appeal_date r;
     second_appeal_authority := second_appeal_authority r;
     second_appeal_decision_date := second_appeal_decision_date r;
     second_appeal_outcome := second_appeal_outcome r;
     notes := notes r;
     response_summary := response_summary r;
     documents_received := documents_received r;
     created_at := created_at r;
     updated_at := updated_at r |}.

(** [record.first_appeal_deadline = v] *)
Definition set_first_appeal_deadline (v : option datetime) (r : RTIRecord) : RTIRecord :=
  {| reference_number := reference_number r;
     agency_code := agency_code r;
     agency_name := agency_name r;
     pio_name := pio_name r;
     pio_address := pio_address r;
     applicant_name := applicant_name r;
     subject := subject r;
     questions_json := questions_json r;
     full_text := full_text r;
     state := state r;
     district := district r;
     filing_date := filing_date r;
     fee_amount := fee_amount r;
     fee_mode := fee_mode r;
     fee_receipt := fee_receipt r;
     status := status r;
     is_bpl := is_bpl r;
     acknowledgment_date := acknowledgment_date r;
     response_date := response_date r;
     transfer_date := transfer_date r;
     transferred_to := transferred_to r;
     response_deadline := response_deadline r;
     first_appeal_deadline := v;
     second_appeal_deadline := second_appeal_deadline r;
     first_appeal_date := first_appeal_date r;
     first_appeal_authority := first_appeal_authority r;
     first_appeal_decision_date := first_appeal_decision_date r;
     first_appeal_outcome := first_appeal_outcome r;
     second_appeal_date := second_appeal_date r;
     second_appeal_authority := second_appeal_authority r;
     second_appeal_decision_date := second_appeal_decision_date r;
     second_appeal_outcome := second_appeal_outcome r;
     notes := notes r;
     response_summary := response_summary r;
     documents_received := documents_received r;
     created_at := created_at r;
     updated_at := updated_at r |}.

(** [record.second_appeal_date = v] *)
Definition set_second_appeal_date (v : option datetime) (r : RTIRecord) : RTIRecord :=
  {| reference_number := reference_number r;
     agency_code := agency_code r;
     agency_name := agency_name r;
     pio_name := pio_name r;
     pio_address := pio_address r;
     applicant_name := applicant_name r;
     subject := subject r;
     questions_json := questions_json r;
     full_text := full_text r;
     state := state r;
     district := district r;
     filing_date := filing_date r;
     fee_amount := fee_amount r;
     fee_mode := fee_mode r;
     fee_receipt := fee_receipt r;
     status := status r;
     is_bpl := is_bpl r;
     acknowledgment_date := acknowledgment_date r;
     response_date := response_date r;
     transfer_date := transfer_date r;
     transferred_to := transferred_to r;
     response_deadline := response_deadline r;
     first_appeal_deadline := first_appeal_deadline r;
     second_appeal_deadline := second_appeal_deadline r;
     first_appeal_date := first_appeal_date r;
     first_appeal_authority := first_appeal_authority r;
     first_appeal_decision_date := first_appeal_decision_date r;
     first_appeal_outcome := first_appeal_outcome r;
     second_appeal_date := v;
     second_appeal_authority := second_appeal_authority r;
     second_appeal_decision_date := second_appeal_decision_date r;
     second_appeal_outcome := second_appeal_outcome r;
     notes := notes r;
     response_summary := response_summary r;
     documents_received := documents_received r;
     created_at := created_at r;
     updated_at := updated_at r |}.

(** [record.second_appeal_authority = v] *)
Definition set_second_appeal_authority (v : option string) (r : RTIRecord) : RTIRecord :=
  {| reference_number := reference_number r;
     agency_code := agency_code r;
     agency_name := agency_name r;
     pio_name := pio_name r;
     pio_address := pio_address r;
     applicant_name := applicant_name r;
     subject := subject r;
     questions_json := questions_json r;
     full_text := full_text r;
     state := state r;
     district := district r;
     filing_date := filing_date r;
     fee_amount := fee_amount r;
     fee_mode := fee_mode r;
     fee_receipt := fee_receipt r;
     status := status r;
     is_bpl := is_bpl r;
     acknowledgment_date := acknowledgment_date r;
     response_date := response_date r;
     transfer_date := transfer_date r;
     transferred_to := transferred_to r;
     response_deadline := response_deadline r;
     first_appeal_deadline := first_appeal_deadline r;
     second_appeal_deadline := second_appeal_deadline r;
     first_appeal_date := first_appeal_date r;
     first_appeal_authority := first_appeal_authority r;
     first_appeal_decision_date := first_appeal_decision_date r;
     first_appeal_outcome := first_appeal_outcome r;
     second_appeal_date := second_appeal_date r;
     second_appeal_authority := v;
     second_appeal_decision_date := second_appeal_decision_date r;
     second_appeal_outcome := second_appeal_outcome r;
     notes := notes r;
     response_summary := response_summary r;
     documents_received := documents_received r;
     created_at := created_at r;
     updated_at := updated_at r |}.

(** [record.second_appeal_deadline = v] *)
Definition set_second_appeal_deadline (v : option datetime) (r : RTIRecord) : RTIRecord :=
  {| reference_number := reference_number r;
     agency_code := agency_code r;
     agency_name := agency_name r;
     pio_name := pio_name r;
     pio_address := pio_address r;
     applicant_name := applicant_name r;
     subject := subject r;
     questions_json := questions_json r;
     full_text := full_text r;
     state := state r;
     district := district r;
     filing_date := filing_date r;
     fee_amount := fee_amount r;
     fee_mode := fee_mode r;
     fee_receipt := fee_receipt r;
     status := status r;
     is_bpl := is_bpl r;
     acknowledgment_date := acknowledgment_date r;
     response_date := response_date r;
     transfer_date := transfer_date r;
     transferred_to := transferred_to r;
     response_deadline := response_deadline r;
     first_appeal_deadline := first_appeal_deadline r;
     second_appeal_deadline := v;
     first_appeal_date := first_appeal_date r;
     first_appeal_authority := first_appeal_authority r;
     first_appeal_decision_date := first_appeal_decision_date r;
     first_appeal_outcome := first_appeal_outcome r;
     second_appeal_date := second_appeal_date r;
     second_appeal_authority := second_appeal_authority r;
     second_appeal_decision_date := second_appeal_decision_date r;
     second_appeal_outcome := second_appeal_outcome r;
     notes := notes r;
     response_summary := response_summary r;
     documents_received := documents_received r;
     created_at := created_at r;
     updated_at := updated_at r |}.

(** The table [rti_records], keyed by [id]. *)
Abbreviation store := (gmap Z RTIRecord).

(** The columns [add_rti] does not name, as its [**kwargs] can pass
    them on to the row; [None] leaves the column to its default. *)
Record Kwargs : Type := mk_Kwargs {
  kw_id : option Z;
  kw_pio_name : option string;
  kw_pio_address : option string;
  kw_fee_mode : option string;
  kw_fee_receipt : option string;
  kw_is_bpl : option bool;
  kw_acknowledgment_date : option datetime;
  kw_response_date : option datetime;
  kw_transfer_date : option datetime;
  kw_transferred_to : option string;
  kw_first_appeal_deadline : option datetime;
  kw_second_appeal_deadline : option datetime;
  kw_first_appeal_date : option datetime;
  kw_first_appeal_authority : option string;
  kw_first_appeal_decision_date : option datetime;
  kw_first_appeal_outcome : option string;
  kw_second_appeal_date : option datetime;
  kw_second_appeal_authority : option string;
  kw_second_appeal_decision_date : option datetime;
  kw_second_appeal_outcome : option string;
  kw_notes : option string;
  kw_response_summary : option string;
  kw_documents_received : option (list string);
  kw_created_at : option datetime;
  kw_updated_at : option datetime
}.

Definition no_kwargs : Kwargs :=
  mk_Kwargs None None None None None None None None None None None None None
    None None None None None None None None None None None None.

(** *** The session: primary key and constraints *)

(** SQLite stores integers in 64 bits: binding a Python [int] outside
    this range to a statement raises [OverflowError]. *)
Definition sqlite_int (n : Z) : bool := (- 2 ^ 63 <=? n) && (n <? 2 ^ 63).

(** The outcome of a statement that found no row for [record_id]:
    [session.get] binds the id before it looks for the row, and every
    row has a 64-bit id, so the call fails on an id outside this range
    and answers [dflt] on any other. *)
Definition missing {A : Type} (record_id : Z) (dflt : A) : result A :=
  if sqlite_int record_id then Ok dflt else Raise OverflowError.

Definition max_key (st : store) : option Z :=
  map_fold (λ k _ acc,
    match acc with
    | None => Some k
    | Some m => Some (Z.max k m)
    end) None st.

(** The key SQLite gives a row inserted without one: 1 in an empty
    table, else one more than the largest key.  This is what SQLite does
    while the largest key is below [2 ^ 63 - 1]; at that key it draws an
    unused key at random, which the model does not follow. *)
Definition next_id (st : store) : Z :=
  match max_key st with
  | None => 1
  | Some m => m + 1
  end.

(** The [unique] constraint on [reference_number]; NULLs never clash. *)
Definition reference_taken (st : store) (ref : option string) : bool :=
  match ref with
  | None => false
  | Some x => bool_decide (map_Exists (λ _ r, reference_number r = Some x) st)
  end.

(** [session.add(record); session.commit(); return record.id].  The
    integers of the row, [fee_amount] and an explicit [id], are bound to
    the [INSERT] before the database sees it and checks its keys. *)
Definition insert_row (st : store) (id : option Z) (record : RTIRecord)
    : result (Z * store) :=
  if negb (sqlite_int (fee_amount record) && sqlite_int (default 0 id))
  then Raise OverflowError
  else if reference_taken st (reference_number record) then Raise IntegrityError
  else
    match id with
    | None => Ok (next_id st, <[next_id st := record]> st)
    | Some i =>
        match st !! i with
        | Some _ => Raise IntegrityError
        | None => Ok (i, <[i := record]> st)
        end
    end.

(** *** [RTITracker] *)

(** [add_rti]: add a new RTI to the tracker and return the record ID. *)
Definition add_rti (c : clock) (st : store)
    (agency_code agency_name applicant_name subject : string)
    (questions : list string) (filing_date : option datetime)
    (fee_amount : Z) (state district full_text reference_number : option string)
    (kwargs : Kwargs) : result (Z * store) :=
  let filing_date :=
    match filing_date with
    | None => now c
    | Some d => d
    end in
  response_deadline ← add_days filing_date 30;
  let record := {|
    reference_number := reference_number;
    agency_code := agency_code;
    agency_name := agency_name;
    pio_name := kw_pio_name kwargs;
    pio_address := kw_pio_address kwargs;
    applicant_name := applicant_name;
    subject := subject;
    questions_json := questions;
    full_text := full_text;
    state := state;
    district := district;
    filing_date := filing_date;
    fee_amount := fee_amount;
    fee_mode := kw_fee_mode kwargs;
    fee_receipt := kw_fee_receipt kwargs;
    status := if DateTime.truthy filing_date then FILED else DRAFTED;
    is_bpl := default false (kw_is_bpl kwargs);
    acknowledgment_date := kw_acknowledgment_date kwargs;
    response_date := kw_response_date kwargs;
    transfer_date := kw_transfer_date kwargs;
    transferred_to := kw_transferred_to kwargs;
    response_deadline := response_deadline;
    first_appeal_deadline := kw_first_appeal_deadline kwargs;
    second_appeal_deadline := kw_second_appeal_deadline kwargs;
    first_appeal_date := kw_first_appeal_date kwargs;
    first_appeal_authority := kw_first_appeal_authority kwargs;
    first_appeal_decision_date := kw_first_appeal_decision_date kwargs;
    first_appeal_outcome := kw_first_appeal_outcome kwargs;
    second_appeal_date := kw_second_appeal_date kwargs;
    second_appeal_authority := kw_second_appeal_authority kwargs;
    second_appeal_decision_date := kw_second_appeal_decision_date kwargs;
    second_appeal_outcome := kw_second_appeal_outcome kwargs;
    notes := kw_notes kwargs;
    response_summary := kw_response_summary kwargs;
    documents_received := kw_documents_received kwargs;
    created_at := default (utcnow c) (kw_created_at kwargs);
    updated_at := default (utcnow c) (kw_updated_at kwargs)
  |} in
  insert_row st (kw_id kwargs) record.

(** The three lines under [if notes:], with the label the two appeal
    mutators put before the note. *)
Definition append_note (c : clock) (label notes : string) (record : RTIRecord)
    : RTIRecord :=
  let existing := Py.or_else (Tracker.notes record) "" in
  let timestamp := strftime_minute (now c) in
  set_notes
    (Some (Py.strip (existing +:+ Py.nl +:+ "[" +:+ timestamp +:+ "] "
                     +:+ label +:+ notes)))
    record.

(** [update_status] *)
Definition update_status (c : clock) (st : store) (record_id : Z)
    (status : RTIStatus) (notes response_summary : option string)
    : result (bool * store) :=
  match st !! record_id with
  | None => missing record_id (false, st)
  | Some record =>
      let record := set_status status record in
      let record := set_updated_at (utcnow c) record in
      let record :=
        if Py.otruthy notes then append_note c "" (default "" notes) record
        else record in
      let record :=
        if Py.otruthy response_summary
        then set_response_summary response_summary record
        else record in
      let record :=
        if decide (status = RESPONSE_RECEIVED)
        then set_response_date (Some (now c)) record
        else record in
      Ok (true, <[record_id := record]> st)
  end.

(** [mark_response_received] *)
Definition mark_response_received (c : clock) (st : store) (record_id : Z)
    (response_summary : string) (documents : option (list string))
    (response_date : option datetime) : result (bool * store) :=
  match st !! record_id with
  | None => missing record_id (false, st)
  | Some record =>
      let record := set_status RESPONSE_RECEIVED record in
      let record :=
        set_response_date
          (Some (match response_date with
                 | Some d => d
                 | None => now c
                 end)) record in
      let record := set_response_summary (Some response_summary) record in
      let record :=
        match documents with
        | Some (doc :: docs) => set_documents_received (Some (doc :: docs)) record
        | Some [] | None => record
        end in
      let record := set_updated_at (utcnow c) record in
      Ok (true, <[record_id := record]> st)
  end.

(** [file_first_appeal]: record filing of first appeal under Section
    19(1).  An exception leaves the session uncommitted. *)
Definition file_first_appeal (c : clock) (st : store) (record_id : Z)
    (appeal_authority : string) (appeal_date : option datetime)
    (notes : option string) : result (bool * store) :=
  match st !! record_id with
  | None => missing record_id (false, st)
  | Some record =>
      let record := set_status FIRST_APPEAL_FILED record in
      let date :=
        match appeal_date with
        | Some d => d
        | None => now c
        end in
      let record := set_first_appeal_date (Some date) record in
      let record := set_first_appeal_authority (Some appeal_authority) record in
      deadline ← add_days date 30;
      let record := set_first_appeal_deadline (Some deadline) record in
      let record :=
        if Py.otruthy notes
        then append_note c "First appeal: " (default "" notes) record
        else record in
      let record := set_updated_at (utcnow c) record in
      Ok (true, <[record_id := record]> st)
  end.

(** [file_second_appeal]: record filing of second appeal under Section
    19(3) to CIC/SIC. *)
Definition file_second_appeal (c : clock) (st : store) (record_id : Z)
    (appeal_date : option datetime) (commission : string)
    (notes : option string) : result (bool * store) :=
  match st !! record_id with
  | None => missing record_id (false, st)
  | Some record =>
      let record := set_status SECOND_APPEAL_FILED record in
      let date :=
        match appeal_date with
        | Some d => d
        | None => now c
        end in
      let record := set_second_appeal_date (Some date) record in
      let record := set_second_appeal_authority (Some commission) record in
      deadline ← add_days date 90;
      let record := set_second_appeal_deadline (Some deadline) record in
      let record :=
        if Py.otruthy notes
        then append_note c "Second appeal: " (default "" notes) record
        else record in
      let record := set_updated_at (utcnow c) record in
      Ok (true, <[record_id := record]> st)
  end.

(** The dict [_record_to_dict] builds. *)
Record RTIDict : Type := mk_RTIDict {
  d_id : Z;
  d_reference_number : option string;
  d_agency_code : string;
  d_agency_name : string;
  d_applicant_name : string;
  d_subject : string;
  d_questions : list string;
  d_state : option string;
  d_district : option string;
  d_filing_date : option string;
  d_fee_amount : Z;
  d_status : option string;
  d_response_deadline : option string;
  d_response_date : option string;
  d_response_summary : option string;
  d_first_appeal_date : option string;
  d_first_appeal_deadline : option string;
  d_second_appeal_date : option string;
  d_notes : option string;
  d_days_since_filing : option Z;
  d_is_overdue : bool
}.

(** [status in (FILED, ACKNOWLEDGED)] *)
Definition awaiting (s : RTIStatus) : bool :=
  bool_decide (s = FILED) || bool_decide (s = ACKNOWLEDGED).

(** [_record_to_dict] *)
Definition record_to_dict (c : clock) (id : Z) (record : RTIRecord) : RTIDict :=
  {| d_id := id;
     d_reference_number := reference_number record;
     d_agency_code := agency_code record;
     d_agency_name := agency_name record;
     d_applicant_name := applicant_name record;
     d_subject := subject record;
     d_questions := questions_json record;
     d_state := state record;
     d_district := district record;
     d_filing_date := Some (isoformat (filing_date record));
     d_fee_amount := fee_amount record;
     d_status := Some (status_value (status record));
     d_response_deadline := Some (isoformat (response_deadline record));
     d_response_date := isoformat <$> response_date record;
     d_response_summary := response_summary record;
     d_first_appeal_date := isoformat <$> first_appeal_date record;
     d_first_appeal_deadline := isoformat <$> first_appeal_deadline record;
     d_second_appeal_date := isoformat <$> second_appeal_date record;
     d_notes := notes record;
     d_days_since_filing := Some (days_between (now c) (filing_date record));
     d_is_overdue :=
       ltb (response_deadline record) (now c) && awaiting (status record) |}.

(** The [filter] of [get_overdue]. *)
Definition overdue_row (c : clock) (record : RTIRecord) : bool :=
  ltb (response_deadline record) (now c) && awaiting (status record).

(** The [filter] of [get_upcoming_deadlines]. *)
Definition upcoming_row (c : clock) (cutoff : datetime) (record : RTIRecord) : bool :=
  leb (now c) (response_deadline record)
  && leb (response_deadline record) cutoff
  && awaiting (status record).

(** The rows a query selects, as dicts.  SQL promises no order without
    [ORDER BY]; the rows come in the order of the map's listing. *)
Definition select (c : clock) (st : store) (p : RTIRecord → bool) : list RTIDict :=
  (λ row, record_to_dict c row.1 row.2)
    <$> filter (λ row, p row.2 = true) (map_to_list st).

(** [get_overdue]: all RTIs past their response deadline without
    response. *)
Definition get_overdue (c : clock) (st : store) : list RTIDict :=
  select c st (overdue_row c).

(** [get_upcoming_deadlines] *)
Definition get_upcoming_deadlines (c : clock) (st : store) (days : Z)
    : result (list RTIDict) :=
  cutoff ← add_days (now c) days;
  Ok (select c st (upcoming_row c cutoff)).

(** [get_by_id] *)
Definition get_by_id (c : clock) (st : store) (record_id : Z)
    : result (option RTIDict) :=
  match st !! record_id with
  | Some record => Ok (Some (record_to_dict c record_id record))
  | None => missing record_id None
  end.

(** [order_by(RTIRecord.filing_date.desc())]: a row may stand before
    another when it was not filed earlier.  SQL leaves the order of rows
    with one filing date open; here it is the order of the merge. *)
Definition newer_first (a b : Z * RTIRecord) : Prop :=
  stamp (filing_date b.2) ≤ stamp (filing_date a.2).

#[global] Instance newer_first_dec (a b : Z * RTIRecord) :
  Decision (newer_first a b).
Proof. unfold newer_first. apply _. Defined.

(** The rows an ordered query selects, as dicts. *)
Definition select_ordered (c : clock) (st : store) (p : RTIRecord → bool)
    : list RTIDict :=
  (λ row, record_to_dict c row.1 row.2)
    <$> merge_sort newer_first
          (filter (λ row, p row.2 = true) (map_to_list st)).

(** [get_all]: all RTIs, optionally filtered by status.  Every member of
    [RTIStatus] is a non-empty [str], so [if status:] only tests for
    [None]. *)
Definition get_all (c : clock) (st : store) (status : option RTIStatus)
    : list RTIDict :=
  select_ordered c st
    (λ r, match status with
          | Some s => bool_decide (Tracker.status r = s)
          | None => true
          end).

(** [get_by_agency]: all RTIs for a specific agency. *)
Definition get_by_agency (c : clock) (st : store) (code : string)
    : list RTIDict :=
  select_ordered c st (λ r, bool_decide (agency_code r = code)).

(** [for status in RTIStatus]: the members in the order of the class. *)
Definition ALL_STATUSES : list RTIStatus :=
  [DRAFTED; FILED; ACKNOWLEDGED; TRANSFERRED; RESPONSE_RECEIVED;
   PARTIAL_RESPONSE; DENIED; NO_RESPONSE; FIRST_APPEAL_FILED;
   FIRST_APPEAL_DECIDED; SECOND_APPEAL_FILED; SECOND_APPEAL_DECIDED;
   COMPLAINT_FILED; CLOSED].

(** [session.query(RTIRecord).filter(RTIRecord.status == status).count()] *)
Definition count_status (st : store) (s : RTIStatus) : Z :=
  Z.of_nat (length (filter (λ row : Z * RTIRecord, status row.2 = s)
                           (map_to_list st))).

(** The dict [get_stats] returns; [by_status] keeps the order in which
    its keys were set. *)
Record Stats : Type := mk_Stats {
  s_total : Z;
  s_by_status : list (string * Z);
  s_overdue : Z;
  s_upcoming_deadlines_7d : Z
}.

(** [get_stats]: summary statistics. *)
Definition get_stats (c : clock) (st : store) : result Stats :=
  let total := Z.of_nat (size st) in
  let by_status :=
    omap (λ s, let count := count_status st s in
               if 0 <? count then Some (status_value s, count) else None)
         ALL_STATUSES in
  let overdue := Z.of_nat (length (get_overdue c st)) in
  upcoming ← get_upcoming_deadlines c st 7;
  Ok {| s_total := total;
        s_by_status := by_status;
        s_overdue := overdue;
        s_upcoming_deadlines_7d := Z.of_nat (length upcoming) |}.

End Tracker.

(** ** Sample values *)

Module Sample.
Import DateTime.

(** 2026-03-01, 10:00 local time and 04:30 UTC, and a reading 95 days
    later. *)
Definition clock1 : clock :=
  mk_clock (mk_datetime (ymd2ord 2026 3 1) 36000000000)
           (mk_datetime (ymd2ord 2026 3 1) 16200000000).

Definition clock2 : clock :=
  mk_clock (mk_datetime (ymd2ord 2026 6 4) 36000000000)
           (mk_datetime (ymd2ord 2026 6 4) 16200000000).

Definition application : Generator.RTIApplication :=
  {| Generator.agency_code := "awbi";
     Generator.questions := ["Test"];
     Generator.applicant_name := "Test";
     Generator.applicant_address := "Test";
     Generator.applicant_phone := None;
     Generator.applicant_email := None;
     Generator.is_bpl := false;
     Generator.bpl_certificate_number := None;
     Generator.language := "english";
     Generator.state := None;
     Generator.district := None;
     Generator.subject := "";
     Generator.filing_date := of_ymd 2026 1 1;
     Generator.custom_pio_name := None;
     Generator.custom_pio_address := None;
     Generator.generated_text := "" |}.

(** The same application filed on 9999-12-01. *)
Definition late_application : Generator.RTIApplication :=
  {| Generator.agency_code := "awbi";
     Generator.questions := ["Test"];
     Generator.applicant_name := "Test";
     Generator.applicant_address := "Test";
     Generator.applicant_phone := None;
     Generator.applicant_email := None;
     Generator.is_bpl := false;
     Generator.bpl_certificate_number := None;
     Generator.language := "english";
     Generator.state := None;
     Generator.district := None;
     Generator.subject := "";
     Generator.filing_date := of_ymd 9999 12 1;
     Generator.custom_pio_name := None;
     Generator.custom_pio_address := None;
     Generator.generated_text := "" |}.

(** The application with the fields no renderer reads filled in. *)
Definition annotated_application : Generator.RTIApplication :=
  {| Generator.agency_code := "awbi";
     Generator.questions := ["Test"];
     Generator.applicant_name := "Test";
     Generator.applicant_address := "Test";
     Generator.applicant_phone := None;
     Generator.applicant_email := None;
     Generator.is_bpl := false;
     Generator.bpl_certificate_number := None;
     Generator.language := "english";
     Generator.state := None;
     Generator.district := Some "Chennai";
     Generator.subject := "";
     Generator.filing_date := of_ymd 2026 1 1;
     Generator.custom_pio_name := Some "The Secretary";
     Generator.custom_pio_address := None;
     Generator.generated_text := "an earlier draft" |}.

(** The row [add_rti] makes of a request filed on 2026-01-01. *)
Definition record : Tracker.RTIRecord :=
  {| Tracker.reference_number := None;
     Tracker.agency_code := "awbi";
     Tracker.agency_name := "AWBI";
     Tracker.pio_name := None;
     Tracker.pio_address := None;
     Tracker.applicant_name := "Test";
     Tracker.subject := "Test";
     Tracker.questions_json := ["Q1"];
     Tracker.full_text := None;
     Tracker.state := None;
     Tracker.district := None;
     Tracker.filing_date := of_ymd 2026 1 1;
     Tracker.fee_amount := 10;
     Tracker.fee_mode := None;
     Tracker.fee_receipt := None;
     Tracker.status := Tracker.FILED;
     Tracker.is_bpl := false;
     Tracker.acknowledgment_date := None;
     Tracker.response_date := None;
     Tracker.transfer_date := None;
     Tracker.transferred_to := None;
     Tracker.response_deadline := of_ymd 2026 1 31;
     Tracker.first_appeal_deadline := None;
     Tracker.second_appeal_deadline := None;
     Tracker.first_appeal_date := None;
     Tracker.first_appeal_authority := None;
     Tracker.first_appeal_decision_date := None;
     Tracker.first_appeal_outcome := None;
     Tracker.second_appeal_date := None;
     Tracker.second_appeal_authority := None;
     Tracker.second_appeal_decision_date := None;
     Tracker.second_appeal_outcome := None;
     Tracker.notes := None;
     Tracker.response_summary := None;
     Tracker.documents_received := None;
     Tracker.created_at := of_ymd 2026 1 1;
     Tracker.updated_at := of_ymd 2026 1 1 |}.

Definition table : Tracker.store := {[ 1 := record ]}.

(** The row and the table after an acknowledgment logged at [clock1]. *)
Definition acknowledged : Tracker.RTIRecord :=
  Tracker.set_notes (Some "[2026-03-01 10:00] Received acknowledgment letter")
    (Tracker.set_updated_at (utcnow clock1)
       (Tracker.set_status Tracker.ACKNOWLEDGED record)).

Definition table_acknowledged : Tracker.store := <[ 1 := acknowledged ]> table.

(** The keyword arguments that make [add_rti] at [clock1] store [record]
    under id 2. *)
Definition kwargs_created : Tracker.Kwargs :=
  {| Tracker.kw_id := Some 2;
     Tracker.kw_pio_name := None;
     Tracker.kw_pio_address := None;
     Tracker.kw_fee_mode := None;
     Tracker.kw_fee_receipt := None;
     Tracker.kw_is_bpl := None;
     Tracker.kw_acknowledgment_date := None;
     Tracker.kw_response_date := None;
     Tracker.kw_transfer_date := None;
     Tracker.kw_transferred_to := None;
     Tracker.kw_first_appeal_deadline := None;
     Tracker.kw_second_appeal_deadline := None;
     Tracker.kw_first_appeal_date := None;
     Tracker.kw_first_appeal_authority := None;
     Tracker.kw_first_appeal_decision_date := None;
     Tracker.kw_first_appeal_outcome := None;
     Tracker.kw_second_appeal_date := None;
     Tracker.kw_second_appeal_authority := None;
     Tracker.kw_second_appeal_decision_date := None;
     Tracker.kw_second_appeal_outcome := None;
     Tracker.kw_notes := None;
     Tracker.kw_response_summary := None;
     Tracker.kw_documents_received := None;
     Tracker.kw_created_at := Some (of_ymd 2026 1 1);
     Tracker.kw_updated_at := Some (of_ymd 2026 1 1) |}.

(** The row and the table after a response logged at [clock1]. *)
Definition responded : Tracker.RTIRecord :=
  Tracker.set_updated_at (utcnow clock1)
    (Tracker.set_response_summary (Some "Received partial data")
       (Tracker.set_response_date (Some (now clock1))
          (Tracker.set_status Tracker.RESPONSE_RECEIVED record))).

Definition table_responded : Tracker.store := <[ 1 := responded ]> table.

(** A request filed 25 days before [clock1], and the table holding it. *)
Definition recent : Tracker.RTIRecord :=
  {| Tracker.reference_number := None;
     Tracker.agency_code := "awbi";
     Tracker.agency_name := "AWBI";
     Tracker.pio_name := None;
     Tracker.pio_address := None;
     Tracker.applicant_name := "Test";
     Tracker.subject := "Upcoming deadline";
     Tracker.questions_json := ["Q1"];
     Tracker.full_text := None;
     Tracker.state := None;
     Tracker.district := None;
     Tracker.filing_date := mk_datetime (ymd2ord 2026 2 4) 36000000000;
     Tracker.fee_amount := 10;
     Tracker.fee_mode := None;
     Tracker.fee_receipt := None;
     Tracker.status := Tracker.FILED;
     Tracker.is_bpl := false;
     Tracker.acknowledgment_date := None;
     Tracker.response_date := None;
     Tracker.transfer_date := None;
     Tracker.transferred_to := None;
     Tracker.response_deadline := mk_datetime (ymd2ord 2026 3 6) 36000000000;
     Tracker.first_appeal_deadline := None;
     Tracker.second_appeal_deadline := None;
     Tracker.first_appeal_date := None;
     Tracker.first_appeal_authority := None;
     Tracker.first_appeal_decision_date := None;
     Tracker.first_appeal_outcome := None;
     Tracker.second_appeal_date := None;
     Tracker.second_appeal_authority := None;
     Tracker.second_appeal_decision_date := None;
     Tracker.second_appeal_outcome := None;
     Tracker.notes := None;
     Tracker.response_summary := None;
     Tracker.documents_received := None;
     Tracker.created_at := utcnow clock1;
     Tracker.updated_at := utcnow clock1 |}.

Definition table_recent : Tracker.store := {[ 1 := recent ]}.

(** The same with id 1, which makes of the empty table [table]. *)
Definition kwargs_first : Tracker.Kwargs :=
  {| Tracker.kw_id := Some 1;
     Tracker.kw_pio_name := None;
     Tracker.kw_pio_address := None;
     Tracker.kw_fee_mode := None;
     Tracker.kw_fee_receipt := None;
     Tracker.kw_is_bpl := None;
     Tracker.kw_acknowledgment_date := None;
     Tracker.kw_response_date := None;
     Tracker.kw_transfer_date := None;
     Tracker.kw_transferred_to := None;
     Tracker.kw_first_appeal_deadline := None;
     Tracker.kw_second_appeal_deadline := None;
     Tracker.kw_first_appeal_date := None;
     Tracker.kw_first_appeal_authority := None;
     Tracker.kw_first_appeal_decision_date := None;
     Tracker.kw_first_appeal_outcome := None;
     Tracker.kw_second_appeal_date := None;
     Tracker.kw_second_appeal_authority := None;
     Tracker.kw_second_appeal_decision_date := None;
     Tracker.kw_second_appeal_outcome := None;
     Tracker.kw_notes := None;
     Tracker.kw_response_summary := None;
     Tracker.kw_documents_received := None;
     Tracker.kw_created_at := Some (of_ymd 2026 1 1);
     Tracker.kw_updated_at := Some (of_ymd 2026 1 1) |}.


End Sample.

(** ** The vocabulary of the specification *)

Module Spec.
Import DateTime.


(** The call [res] succeeded and left row [r] under key [id]. *)
Definition row_after (res : result (bool * Tracker.store)) (id : Z)
    (r : Tracker.RTIRecord) : Prop :=
  ∃ st', res = Ok (true, st') ∧ st' !! id = Some r.

(** Two rows agree on every column but [notes]. *)
Definition same_but_notes (r1 r2 : Tracker.RTIRecord) : Prop :=
  Tracker.set_notes (Tracker.notes r1) r2 = r1.

(** Two rows agree on every column but [notes] and [updated_at]. *)
Definition same_but_notes_and_update (r1 r2 : Tracker.RTIRecord) : Prop :=
  Tracker.set_updated_at (Tracker.updated_at r1)
    (Tracker.set_notes (Tracker.notes r1) r2) = r1.

(** The columns a mutator can fill from the clock. *)
Definition stamps (r : Tracker.RTIRecord)
    : datetime * option datetime
      * (option datetime * option datetime)
      * (option datetime * option datetime) :=
  (Tracker.updated_at r, Tracker.response_date r,
   (Tracker.first_appeal_date r, Tracker.first_appeal_deadline r),
   (Tracker.second_appeal_date r, Tracker.second_appeal_deadline r)).

(** Two rows agree on every column but [notes] and the [stamps]. *)
Definition same_but_stamps (r1 r2 : Tracker.RTIRecord) : Prop :=
  Tracker.set_notes (Tracker.notes r1)
    (Tracker.set_updated_at (Tracker.updated_at r1)
       (Tracker.set_response_date (Tracker.response_date r1)
          (Tracker.set_first_appeal_date (Tracker.first_appeal_date r1)
             (Tracker.set_first_appeal_deadline (Tracker.first_appeal_deadline r1)
                (Tracker.set_second_appeal_date (Tracker.second_appeal_date r1)
                   (Tracker.set_second_appeal_deadline
                      (Tracker.second_appeal_deadline r1) r2))))))
  = r1.

(** The notes log of row [r] after one more invocation at [c] with note
    [note] under label [label]: a missing or empty note adds nothing,
    any other adds one entry with the minute of the call. *)
Definition notes_after (c : clock) (label : string) (note : option string)
    (r : Tracker.RTIRecord) : option string :=
  if Py.otruthy note then
    Some (Py.strip (Py.or_else (Tracker.notes r) "" +:+ Py.nl
                    +:+ "[" +:+ strftime_minute (now c) +:+ "] "
                    +:+ label +:+ default "" note))
  else Tracker.notes r.

(** [s] without its first [n] octets. *)
Fixpoint drop_chars (n : nat) (s : string) : string :=
  match n, s with
  | S n', String _ s' => drop_chars n' s'
  | _, _ => s
  end.

(** [s] without the [n] octets from octet [i] on. *)
Definition cut (i n : nat) (s : string) : string :=
  Py.prefix i s +:+ drop_chars (i + n) s.

Definition rule : string := Py.repeat "=" 70.

(** The text [_generate_bilingual] puts before the English rendering. *)
Definition english_banner : string :=
  rule +:+ Py.nl +:+ "ENGLISH VERSION / अंग्रेज़ी संस्करण" +:+ Py.nl
  +:+ rule +:+ Py.nl +:+ Py.nl.

(** The text it puts between the English and the Hindi rendering: an
    empty line, then the banner. *)
Definition hindi_banner : string :=
  Py.nl +:+ Py.nl
  +:+ rule +:+ Py.nl +:+ "हिंदी संस्करण / HINDI VERSION" +:+ Py.nl
  +:+ rule +:+ Py.nl +:+ Py.nl.

(** The test of the extraction on a stripped line: its first character
    is a digit and a dot is among its first four characters. *)
Definition numbered_line (line : string) : bool :=
  match Py.chars line with
  | [] => false
  | c0 :: _ => Py.isdigit c0 && Py.contains "." (Py.first_chars 4 line)
  end.

(** One of the digits 0..9. *)
Definition ascii_digit (c : ascii) : bool :=
  (48 <=? Py.code c) && (Py.code c <=? 57).

(** What follows the digits 0..9 at the front of [s]. *)
Fixpoint after_digits (s : string) : string :=
  match s with
  | EmptyString => EmptyString
  | String c s' => if ascii_digit c then after_digits s' else s
  end.

(** A digit-dot prefix, in the words of the specification: the number
    of an item, one or more of the digits 0..9, and a dot right behind
    it. *)
Definition digit_dot_prefix (line : string) : bool :=
  match line with
  | EmptyString => false
  | String c _ =>
      ascii_digit c
      && match after_digits line with
         | String d _ => Ascii.eqb d "."
         | EmptyString => false
         end
  end.

(** What follows the first [sep] of [s]. *)
Fixpoint after_first (sep : ascii) (s : string) : string :=
  match s with
  | EmptyString => EmptyString
  | String c s' => if Ascii.eqb c sep then s' else after_first sep s'
  end.

(** The text of a numbered line after its first dot, stripped. *)
Definition text_after_dot (line : string) : string :=
  Py.strip (after_first "." line).

(** The stripped lines of a template that are numbered. *)
Definition numbered_lines (template_text : string) : list string :=
  filter (λ line, numbered_line line = true)
         (Py.strip <$> Py.split Py.LF template_text).

(** The questions in the words of the specification: the lines without
    a digit-dot prefix skipped, blank ones among them, and of every
    other line the text after its first dot, in the order of the
    lines. *)
Definition questions_as_stated (template_text : string) : list string :=
  text_after_dot
    <$> filter (λ line, digit_dot_prefix line = true)
          (Py.strip <$> Py.split Py.LF template_text).

(** A line the extraction has to skip: blank, or not numbered. *)
Definition skipped_line (line : string) : Prop :=
  Py.contains Py.LF line = false
  ∧ (Py.strip line = EmptyString ∨ numbered_line (Py.strip line) = false).

(** The question a stripped line contributes, if any. *)
Definition question_in (line : string) : option string :=
  if numbered_line line then
    let question := text_after_dot line in
    if Py.truthy question then Some question else None
  else None.

(** The question one line of the template contributes, if any. *)
Definition question_of (line : string) : option string :=
  question_in (Py.strip line).

End Spec.

(** ** The tracker as a state machine *)

Module Store.
Import DateTime Tracker.

(** A call of one of the four mutators, without the record id. *)
Inductive call : Type :=
  | UpdateStatus (status : RTIStatus) (notes response_summary : option string)
  | MarkResponseReceived (response_summary : string)
      (documents : option (list string)) (response_date : option datetime)
  | FileFirstAppeal (appeal_authority : string) (appeal_date : option datetime)
      (notes : option string)
  | FileSecondAppeal (appeal_date : option datetime) (commission : string)
      (notes : option string).

Definition run (c : clock) (st : store) (id : Z) (k : call)
    : result (bool * store) :=
  match k with
  | UpdateStatus s n rs => update_status c st id s n rs
  | MarkResponseReceived su docs rd => mark_response_received c st id su docs rd
  | FileFirstAppeal au d n => file_first_appeal c st id au d n
  | FileSecondAppeal d co n => file_second_appeal c st id d co n
  end.

(** The status a call writes. *)
Definition target (k : call) : RTIStatus :=
  match k with
  | UpdateStatus s _ _ => s
  | MarkResponseReceived _ _ _ => RESPONSE_RECEIVED
  | FileFirstAppeal _ _ _ => FIRST_APPEAL_FILED
  | FileSecondAppeal _ _ _ => SECOND_APPEAL_FILED
  end.

(** The stores the tracker can hold: the empty table, and what [add_rti]
    and the mutators make of such a store when they return. *)
Inductive reachable : store → Prop :=
  | reach_empty : reachable ∅
  | reach_add (c : clock) (st st' : store) (ac an ap su : string)
      (qs : list string) (fd : option datetime) (fee : Z)
      (sta dis ft ref : option string) (kw : Kwargs) (id : Z) :
      reachable st →
      add_rti c st ac an ap su qs fd fee sta dis ft ref kw = Ok (id, st') →
      reachable st'
  | reach_run (c : clock) (st st' : store) (id : Z) (k : call) (b : bool) :
      reachable st →
      run c st id k = Ok (b, st') →
      reachable st'.

(** Every row's response deadline is its filing date plus 30 days. *)
Definition deadlines_kept (st : store) : Prop :=
  ∀ id r, st !! id = Some r →
    add_days (filing_date r) 30 = Ok (response_deadline r).

(** No two rows carry the same reference number. *)
Definition references_unique (st : store) : Prop :=
  ∀ i j r r' x, st !! i = Some r → st !! j = Some r' →
    reference_number r = Some x → reference_number r' = Some x → i = j.

(** The columns that describe the filing, as [add_rti] writes them. *)
Definition filing (r : RTIRecord)
    : option string * string * string * string * string * list string
      * (option string * option string * option string)
      * (datetime * datetime * Z * datetime) :=
  (reference_number r, agency_code r, agency_name r, applicant_name r,
   subject r, questions_json r,
   (full_text r, state r, district r),
   (filing_date r, response_deadline r, fee_amount r, created_at r)).

(** The age of a record in whole days, as its dict reports it. *)
Definition days_since (d : RTIDict) : Z := default 0 (d_days_since_filing d).

(** The counts of a [by_status] dict, added up. *)
Definition total_of (by_status : list (string * Z)) : Z :=
  foldr Z.add 0 by_status.*2.

End Store.

(** ** The factory methods as one family *)

Module Requests.
Import DateTime Generator.

(** A call of one of the five factory methods, without the applicant
    and the remaining keyword arguments. *)
Inductive request : Type :=
  | AwbiInspection (facility_name facility_location : string)
      (state district : option string)
  | FssaiViolations (state district : string) (year : Z)
  | PollutionBoard (state district : string)
  | SubsidyData (state scheme : string) (district : option string)
  | SlaughterhouseLicense (district state : string).

Definition build (c : clock) (q : request)
    (applicant_name applicant_address : string) (kwargs : AppKwargs)
    : RTIApplication :=
  match q with
  | AwbiInspection fname floc st di =>
      awbi_inspection_request c fname floc applicant_name applicant_address
        st di kwargs
  | FssaiViolations st di year =>
      fssai_violations_request c st di applicant_name applicant_address year
        kwargs
  | PollutionBoard st di =>
      pollution_board_request c st di applicant_name applicant_address kwargs
  | SubsidyData st scheme di =>
      subsidy_data_request c st applicant_name applicant_address scheme di
        kwargs
  | SlaughterhouseLicense di st =>
      slaughterhouse_license_request c di st applicant_name applicant_address
        kwargs
  end.

(** The state a call names. *)
Definition state_of (q : request) : option string :=
  match q with
  | AwbiInspection _ _ st _ => st
  | FssaiViolations st _ _ => Some st
  | PollutionBoard st _ => Some st
  | SubsidyData st _ _ => Some st
  | SlaughterhouseLicense _ st => Some st
  end.

(** The fields of an application other than [district],
    [custom_pio_name] and [generated_text]. *)
Definition letter_fields (a : RTIApplication)
    : string * list string * string * string
      * (option string * option string * bool * option string)
      * (string * option string * string * datetime * option string) :=
  (agency_code a, questions a, applicant_name a, applicant_address a,
   (applicant_phone a, applicant_email a, is_bpl a, bpl_certificate_number a),
   (language a, state a, subject a, filing_date a, custom_pio_address a)).

(** The text [generate_from_template] returns. *)
Definition rendered_from_template (template : option string)
    (a : RTIApplication) : result string :=
  p ← generate_from_template template a; Ok p.1.

End Requests.

(** ** Numbered lines *)

Module Numbering.

Fixpoint ascii_digits (s : string) : bool :=
  match s with
  | EmptyString => true
  | String c s' => Spec.ascii_digit c && ascii_digits s'
  end.

(** A numeral that a numbered line can start with: one to three of the
    digits 0..9. *)
Definition short_numeral (s : string) : bool :=
  Py.truthy s && ascii_digits s && (String.length s <=? 3)%nat.

(** A question that is one stripped, non-empty line. *)
Definition one_line (q : string) : Prop :=
  q ≠ "" ∧ Py.strip q = q ∧ Py.contains Py.LF q = false.

End Numbering.

(** ** Texts as lists of characters *)

Module Chars.

(** A text of continuation octets only. *)
Fixpoint all_cont (u : string) : bool :=
  match u with
  | EmptyString => true
  | String c u' => Py.is_cont c && all_cont u'
  end.

(** One character: an ASCII octet, or another octet and continuation
    octets. *)
Definition is_char (t : string) : bool :=
  match t with
  | EmptyString => false
  | String c u => all_cont u && (negb (Py.is_ascii c) || negb (Py.truthy u))
  end.

Definition ascii_head (t : string) : bool :=
  match t with
  | String c _ => Py.is_ascii c
  | EmptyString => false
  end.

(** The lists of characters that [Py.chars] yields: a character that
    starts with a continuation octet stands first or behind an ASCII
    octet. *)
Fixpoint well_formed (cs : list string) : Prop :=
  match cs with
  | [] => True
  | t :: r =>
      is_char t = true
      ∧ match r with
        | [] => True
        | t' :: _ => Py.cont_head t' = true → ascii_head t = true
        end
      ∧ well_formed r
  end.

(** The line-break character. *)
Definition is_LF (t : string) : bool := String.eqb t Py.nl.

(** The lines of a list of characters. *)
Fixpoint lines (cs : list string) : list (list string) :=
  match cs with
  | [] => [[]]
  | t :: r =>
      if is_LF t then [] :: lines r
      else match lines r with
           | l :: ls => (t :: l) :: ls
           | [] => [[t]]
           end
  end.

Definition strip_chars (cs : list string) : list string :=
  Py.rstrip_chars (Py.lstrip_chars cs).

(** The question of a line of characters. *)
Definition chars_question (l : list string) : option string :=
  Spec.question_in (Py.text (strip_chars l)).

End Chars.

(** * Properties *)

(** ** Date arithmetic *)

Section DateArithmetic.
Import DateTime.

Lemma add_days_ok (d : datetime) (n : Z) :
  0 < ordinal d + n ≤ MAXORDINAL →
  add_days d n = Ok (mk_datetime (ordinal d + n) (micros d)).
Proof.
  intros [Hlo Hhi]. unfold add_days.
  apply Z.ltb_lt in Hlo. apply Z.leb_le in Hhi.
  by rewrite Hlo, Hhi.
Qed.

Lemma add_days_inv (d e : datetime) (n : Z) :
  add_days d n = Ok e →
  ordinal e = ordinal d + n ∧ micros e = micros d
  ∧ 0 < ordinal d + n ≤ MAXORDINAL.
Proof.
  unfold add_days.
  destruct (0 <? ordinal d + n) eqn:Hlo; simpl; [|discriminate].
  destruct (ordinal d + n <=? MAXORDINAL) eqn:Hhi; [|discriminate].
  intros [= <-]. simpl.
  apply Z.ltb_lt in Hlo. apply Z.leb_le in Hhi. lia.
Qed.

Lemma add_days_overflow (d : datetime) (n : Z) :
  MAXORDINAL < ordinal d + n → add_days d n = Raise OverflowError.
Proof.
  intros H. unfold add_days.
  destruct (ordinal d + n <=? MAXORDINAL) eqn:Hhi.
  - apply Z.leb_le in Hhi. lia.
  - by rewrite andb_false_r.
Qed.

(** Two additions in a row are one addition of the sum, the overflow
    included: the second step fails exactly when the sum is out of
    range. *)
Lemma add_days_chain (d : datetime) (n m : Z) :
  valid d → 0 ≤ n → 0 ≤ m →
  (e ← add_days d n; add_days e m) = add_days d (n + m).
Proof.
  intros [[Hlo Hhi] _] Hn Hm.
  destruct (Z_le_gt_dec (ordinal d + n) MAXORDINAL) as [Hin|Hout].
  - rewrite add_days_ok by lia. simpl.
    unfold add_days. simpl. by rewrite Z.add_assoc.
  - rewrite (add_days_overflow d n) by lia.
    by rewrite (add_days_overflow d (n + m)) by lia.
Qed.

(** [OverflowError] is the only exception of the addition. *)
Lemma add_days_raises (d : datetime) (n : Z) (e : exn) :
  add_days d n = Raise e → e = OverflowError.
Proof.
  unfold add_days.
  destruct ((0 <? ordinal d + n) && (ordinal d + n <=? MAXORDINAL));
    [discriminate|]. by intros [= <-].
Qed.

End DateArithmetic.

(** ** The application: deadlines and fee *)

Section Application.
Import DateTime Generator.

(** C2.  For every filing date the draft-time deadlines are the filing
    date plus 30, plus 60 and plus 150 days, the second and third
    obtained by chaining day offsets; filed on 2026-01-01 they are
    2026-01-31, 2026-03-02 and 2026-05-31. *)
Theorem C2_deadline_chain (a : RTIApplication) :
  valid (filing_date a) →
  response_deadline a = add_days (filing_date a) 30
  ∧ first_appeal_deadline a = add_days (filing_date a) 60
  ∧ second_appeal_deadline a = add_days (filing_date a) 150
  ∧ (filing_date a = of_ymd 2026 1 1 →
     response_deadline a = Ok (of_ymd 2026 1 31)
     ∧ first_appeal_deadline a = Ok (of_ymd 2026 3 2)
     ∧ second_appeal_deadline a = Ok (of_ymd 2026 5 31)
     ∧ isoformat <$> [of_ymd 2026 1 31; of_ymd 2026 3 2; of_ymd 2026 5 31]
       = ["2026-01-31T00:00:00"; "2026-03-02T00:00:00"; "2026-05-31T00:00:00"]).
Proof.
  intros Hv.
  assert (H60 : first_appeal_deadline a = add_days (filing_date a) 60).
  { unfold first_appeal_deadline, response_deadline.
    by rewrite add_days_chain. }
  assert (H150 : second_appeal_deadline a = add_days (filing_date a) 150).
  { unfold second_appeal_deadline. rewrite H60.
    destruct Hv as [[Hlo Hhi] Hm].
    destruct (Z_le_gt_dec (ordinal (filing_date a) + 60) MAXORDINAL).
    - rewrite add_days_ok by lia. simpl.
      unfold add_days; simpl.
      by replace (ordinal (filing_date a) + 60 + 90)
        with (ordinal (filing_date a) + 150) by lia.
    - rewrite (add_days_overflow _ 60) by lia.
      by rewrite (add_days_overflow _ 150) by lia. }
  split; [done|]. split; [done|]. split; [done|].
  intros Hd. rewrite H60, H150. unfold response_deadline. rewrite Hd.
  by vm_compute.
Qed.

Lemma C2_deadline_chain_witness :
  response_deadline Sample.application = Ok (of_ymd 2026 1 31)
  ∧ first_appeal_deadline Sample.application = Ok (of_ymd 2026 3 2)
  ∧ second_appeal_deadline Sample.application = Ok (of_ymd 2026 5 31).
Proof.
  destruct (C2_deadline_chain Sample.application) as (_ & _ & _ & H).
  - by vm_compute.
  - destruct H as (H1 & H2 & H3 & _); [reflexivity|]. by repeat split.
Defined.

Lemma directory_central (code : string) (ag : Agency) :
  AGENCY_DIRECTORY !! code = Some ag → fee_category ag = "central".
Proof.
  intros E. apply elem_of_list_to_map_2 in E.
  unfold AGENCY_ITEMS in E.
  repeat (apply elem_of_cons in E as [E|E]; [by injection E as -> ->|]).
  by apply elem_of_nil in E.
Qed.

Lemma fees_central : FEES !! "central" = Some 10.
Proof. reflexivity. Qed.

Lemma category_fee_is_10 (a : RTIApplication) : category_fee a = 10.
Proof.
  unfold category_fee.
  destruct (AGENCY_DIRECTORY !! agency_code a) as [ag|] eqn:E;
    unfold agency_get.
  - by rewrite (directory_central _ _ E), fees_central.
  - by rewrite fees_central.
Qed.

Lemma listed_in_directory (code : string) :
  code ∈ list_agencies → is_Some (AGENCY_DIRECTORY !! code).
Proof.
  unfold list_agencies, AGENCY_ITEMS. cbn [fmap list_fmap fst]. intros E.
  repeat (apply elem_of_cons in E as [->|E];
          [by apply (bool_decide_unpack _); vm_compute|]).
  by apply elem_of_nil in E.
Qed.

(** C3.  Fee resolution: the exemption flag gives 0 whatever the agency
    and the state; otherwise a state that is given and listed in the fee
    table gives that state's fee, before any look at the agency;
    otherwise the fee of the agency's category, 10 by default; and
    without exemption and state every agency of the directory pays 10. *)
Theorem C3_fee_resolution (a : RTIApplication) :
  (is_bpl a = true → fee_amount a = 0)
  ∧ (∀ st fee, is_bpl a = false → state a = Some st → st ≠ "" →
       FEES !! state_key st = Some fee → fee_amount a = fee)
  ∧ (is_bpl a = false →
     (state a = None ∨ state a = Some ""
      ∨ ∃ st, state a = Some st ∧ FEES !! state_key st = None) →
     fee_amount a
     = default 10 (FEES !! agency_get (AGENCY_DIRECTORY !! agency_code a)
                             fee_category "central"))
  ∧ (is_bpl a = false → state a = None → agency_code a ∈ list_agencies →
     is_Some (AGENCY_DIRECTORY !! agency_code a) ∧ fee_amount a = 10).
Proof.
  unfold fee_amount. split; [|split; [|split]].
  - by intros ->.
  - intros st fee -> -> Hne Hfee. rewrite Hfee.
    by destruct st.
  - intros -> [->|[->|(st & -> & ->)]]; try done.
    by destruct (Py.truthy st).
  - intros -> -> Hin. split.
    + by apply listed_in_directory.
    + apply category_fee_is_10.
Qed.

Lemma C3_fee_resolution_witness :
  fee_amount (set_state (Some "Gujarat") Sample.application) = 20
  ∧ fee_amount (set_state (Some "Atlantis") Sample.application) = 10
  ∧ fee_amount Sample.application = 10.
Proof.
  split; [|split].
  - destruct (C3_fee_resolution (set_state (Some "Gujarat") Sample.application))
      as (_ & H & _).
    by apply (H "Gujarat" 20).
  - destruct (C3_fee_resolution (set_state (Some "Atlantis") Sample.application))
      as (_ & _ & H & _).
    rewrite H; [by vm_compute|done|].
    right; right. by exists "Atlantis".
  - destruct (C3_fee_resolution Sample.application) as (_ & _ & _ & H).
    apply H; [done|done|]. by vm_compute; left.
Defined.

Lemma map_chars_truthy (f : ascii → ascii) (s : string) :
  Py.truthy (Py.map_chars f s) = Py.truthy s.
Proof. by destruct s. Qed.

Lemma lower_truthy (s : string) : Py.truthy (Py.lower s) = Py.truthy s.
Proof.
  destruct s as [|a [|b [|c s3]]]; try reflexivity.
  cbn [Py.lower]. by destruct (Py.kelvin a b c).
Qed.

Lemma state_key_truthy (s : string) : Py.truthy (state_key s) = Py.truthy s.
Proof.
  unfold state_key, Py.replace_char. by rewrite map_chars_truthy, lower_truthy.
Qed.

Lemma fee_amount_set_state (s : string) (a : RTIApplication) :
  fee_amount (set_state (Some s) a)
  = if is_bpl a then 0
    else if Py.truthy s then
           match FEES !! state_key s with
           | Some fee => fee
           | None => category_fee a
           end
         else category_fee a.
Proof. reflexivity. Qed.

(** C10.  The state name is lowercased and its spaces become
    underscores before the fee table is consulted, and the table is
    consulted with nothing else: [Tamil Nadu] itself is no key of the
    table, its normal form [tamil_nadu] is.  Without exemption a
    non-empty name whose normal form is a key of the table pays the fee
    the table gives that key, so [GUJARAT] pays the 20 rupees of
    [gujarat]; [Tamil Nadu] and [tamil_nadu] cost the same, as do any
    two names with one normal form; and a name whose normal form is not
    in the table pays the fee of the agency's category. *)
Theorem C10_state_normalised (a : RTIApplication) :
  is_bpl a = false →
  state_key "Tamil Nadu" = "tamil_nadu"
  ∧ FEES !! "Tamil Nadu" = None
  ∧ FEES !! state_key "Tamil Nadu" = Some 10
  ∧ (∀ s fee, s ≠ "" → FEES !! state_key s = Some fee →
       fee_amount (set_state (Some s) a) = fee)
  ∧ fee_amount (set_state (Some "GUJARAT") a) = 20
  ∧ fee_amount (set_state (Some "Tamil Nadu") a)
    = fee_amount (set_state (Some "tamil_nadu") a)
  ∧ (∀ s1 s2, state_key s1 = state_key s2 →
       fee_amount (set_state (Some s1) a) = fee_amount (set_state (Some s2) a))
  ∧ (∀ s, FEES !! state_key s = None →
       fee_amount (set_state (Some s) a)
       = default 10 (FEES !! agency_get (AGENCY_DIRECTORY !! agency_code a)
                               fee_category "central")).
Proof.
  intros Hb.
  assert (Hkey : ∀ s1 s2, state_key s1 = state_key s2 →
            fee_amount (set_state (Some s1) a) = fee_amount (set_state (Some s2) a)).
  { intros s1 s2 E. rewrite !fee_amount_set_state, Hb.
    rewrite <- (state_key_truthy s1), <- (state_key_truthy s2), E.
    done. }
  assert (Hfound : ∀ s fee, s ≠ "" → FEES !! state_key s = Some fee →
            fee_amount (set_state (Some s) a) = fee).
  { intros s fee Hs Hfee. rewrite fee_amount_set_state, Hb, Hfee.
    by destruct s. }
  split; [reflexivity|]. split; [reflexivity|]. split; [reflexivity|].
  split; [exact Hfound|].
  split; [by apply Hfound|].
  split; [by apply Hkey|].
  split; [exact Hkey|].
  intros s Hs. rewrite fee_amount_set_state, Hb, Hs.
  by destruct (Py.truthy s).
Qed.

Lemma C10_state_normalised_witness :
  fee_amount (set_state (Some "GUJARAT") Sample.application) = 20
  ∧ fee_amount (set_state (Some "Gujarat") Sample.application) = 20
  ∧ fee_amount (set_state (Some "Tamil Nadu") Sample.application)
    = fee_amount (set_state (Some "tamil_nadu") Sample.application).
Proof.
  destruct (C10_state_normalised Sample.application)
    as (_ & _ & _ & Hf & Hg & Ht & _); [reflexivity|].
  split; [exact Hg|]. split; [|exact Ht].
  by apply Hf.
Defined.

End Application.

(** ** The tracker *)

Section TrackerProperties.
Import DateTime Tracker.

Lemma max_key_bound (st : store) (k : Z) :
  is_Some (st !! k) → ∃ m, max_key st = Some m ∧ k ≤ m.
Proof.
  unfold max_key. revert k.
  apply (map_fold_weak_ind
           (λ acc (m : store), ∀ k, is_Some (m !! k) → ∃ mx, acc = Some mx ∧ k ≤ mx)).
  - intros k [x Hx]. by rewrite lookup_empty in Hx.
  - intros i x m acc Hi IH k Hk.
    destruct (decide (i = k)) as [->|Hne].
    + destruct acc as [mx|]; eexists; split; try reflexivity; lia.
    + rewrite lookup_insert_ne in Hk by done.
      destruct (IH k Hk) as (mx & -> & Hle).
      eexists; split; [reflexivity|]. lia.
Qed.

(** The key of a new row is not in use. *)
Lemma sqlite_int_spec (n : Z) : sqlite_int n = true ↔ - 2 ^ 63 ≤ n < 2 ^ 63.
Proof.
  unfold sqlite_int. rewrite andb_true_iff, Z.leb_le, Z.ltb_lt. done.
Qed.

Lemma next_id_fresh (st : store) : st !! next_id st = None.
Proof.
  destruct (st !! next_id st) as [r|] eqn:E; [|done].
  destruct (max_key_bound st (next_id st)) as (m & Hm & Hle); [by eexists|].
  unfold next_id in Hle. rewrite Hm in Hle. lia.
Qed.

Lemma insert_row_inv (st st' : store) (o : option Z) (r : RTIRecord) (id : Z) :
  insert_row st o r = Ok (id, st') →
  st !! id = None ∧ st' = <[id := r]> st.
Proof.
  unfold insert_row.
  destruct (negb _); [discriminate|].
  destruct (reference_taken st (reference_number r)); [discriminate|].
  destruct o as [i|].
  - destruct (st !! i) eqn:E; [discriminate|]. by intros [= <- <-].
  - intros [= <- <-]. split; [apply next_id_fresh|done].
Qed.

(** The integers of a stored row went through the binding. *)
Lemma insert_row_bound (st st' : store) (o : option Z) (r : RTIRecord) (id : Z) :
  insert_row st o r = Ok (id, st') →
  sqlite_int (fee_amount r) = true ∧ (∀ i, o = Some i → sqlite_int i = true).
Proof.
  unfold insert_row.
  destruct (sqlite_int (fee_amount r)); [|discriminate].
  destruct (sqlite_int (default 0 o)) eqn:E; [|discriminate].
  intros _. split; [done|]. by intros i ->.
Qed.


(** What [add_rti] stores: the row of a successful call. *)
Lemma add_rti_inv (c : clock) (st st' : store)
    (ac an ap su : string) (qs : list string) (fd : option datetime)
    (fee : Z) (sta dis ft ref : option string) (kw : Kwargs) (id : Z) :
  add_rti c st ac an ap su qs fd fee sta dis ft ref kw = Ok (id, st') →
  ∃ r, st !! id = None ∧ st' = <[id := r]> st
       ∧ status r = FILED
       ∧ filing_date r = default (now c) fd
       ∧ add_days (filing_date r) 30 = Ok (response_deadline r)
       ∧ agency_code r = ac ∧ subject r = su ∧ questions_json r = qs
       ∧ reference_number r = ref.
Proof.
  unfold add_rti.
  destruct (add_days _ 30) as [dl|e] eqn:Hdl; [|discriminate].
  cbn [mbind result_bind rbind].
  intros H. apply insert_row_inv in H as [Hfresh ->].
  eexists. split; [done|]. split; [reflexivity|].
  cbn [status filing_date response_deadline agency_code subject
       questions_json reference_number DateTime.truthy].
  by destruct fd.
Qed.




(** C5.  On an id that is not in the store and that is a 64-bit
    integer, as every id of the [INTEGER] column is, every mutator
    returns [False] and leaves the store as it is, and the lookup
    returns [None]; none of them raises.  On an id outside that range
    each of them raises [OverflowError]. *)
Theorem C5_missing_id_not_found (c : clock) (st : store) (id : Z) :
  st !! id = None →
  (- 2 ^ 63 ≤ id < 2 ^ 63 →
   (∀ s n rs, update_status c st id s n rs = Ok (false, st))
   ∧ (∀ su docs rd,
        mark_response_received c st id su docs rd = Ok (false, st))
   ∧ (∀ au d n, file_first_appeal c st id au d n = Ok (false, st))
   ∧ (∀ d co n, file_second_appeal c st id d co n = Ok (false, st))
   ∧ get_by_id c st id = Ok None)
  ∧ (¬ (- 2 ^ 63 ≤ id < 2 ^ 63) →
     (∀ s n rs, update_status c st id s n rs = Raise OverflowError)
     ∧ (∀ su docs rd,
          mark_response_received c st id su docs rd = Raise OverflowError)
     ∧ (∀ au d n, file_first_appeal c st id au d n = Raise OverflowError)
     ∧ (∀ d co n, file_second_appeal c st id d co n = Raise OverflowError)
     ∧ get_by_id c st id = Raise OverflowError).
Proof.
  intros H.
  unfold update_status, mark_response_received, file_first_appeal,
    file_second_appeal, get_by_id, missing.
  rewrite H. split; intros Hid.
  - by rewrite (proj2 (sqlite_int_spec id) Hid).
  - destruct (sqlite_int id) eqn:E; [|done].
    by apply sqlite_int_spec in E.
Qed.

Lemma C5_missing_id_not_found_witness :
  update_status Sample.clock1 Sample.table 9999 ACKNOWLEDGED (Some "note") None
  = Ok (false, Sample.table)
  ∧ get_by_id Sample.clock1 Sample.table 9999 = Ok None.
Proof.
  destruct (C5_missing_id_not_found Sample.clock1 Sample.table 9999)
    as [H _]; [by vm_compute|].
  destruct H as (H1 & _ & _ & _ & H5); [lia|].
  split; [apply H1|apply H5].
Defined.

(** C5, as the specification words it, fails: for the missing id
    [2 ^ 63] the mutators and the lookup raise. *)
Lemma C5_counterexample :
  Sample.table !! (2 ^ 63) = None
  ∧ update_status Sample.clock1 Sample.table (2 ^ 63) ACKNOWLEDGED None None
    = Raise OverflowError
  ∧ mark_response_received Sample.clock1 Sample.table (2 ^ 63) "none" None None
    = Raise OverflowError
  ∧ file_first_appeal Sample.clock1 Sample.table (2 ^ 63) "FAA" None None
    = Raise OverflowError
  ∧ file_second_appeal Sample.clock1 Sample.table (2 ^ 63) None "CIC" None
    = Raise OverflowError
  ∧ get_by_id Sample.clock1 Sample.table (2 ^ 63) = Raise OverflowError
  ∧ update_status Sample.clock1 Sample.table (2 ^ 63) ACKNOWLEDGED None None
    ≠ Ok (false, Sample.table)
  ∧ get_by_id Sample.clock1 Sample.table (2 ^ 63) ≠ Ok None.
Proof.
  assert (H : Sample.table !! (2 ^ 63) = None) by by vm_compute.
  unfold update_status, mark_response_received, file_first_appeal,
    file_second_appeal, get_by_id.
  rewrite H. by vm_compute.
Qed.



Lemma awaiting_spec (s : RTIStatus) :
  awaiting s = true ↔ s = FILED ∨ s = ACKNOWLEDGED.
Proof. unfold awaiting. by rewrite orb_true_iff, !bool_decide_eq_true. Qed.

Lemma overdue_row_spec (c : clock) (r : RTIRecord) :
  overdue_row c r = true
  ↔ stamp (response_deadline r) < stamp (now c)
    ∧ (status r = FILED ∨ status r = ACKNOWLEDGED).
Proof.
  unfold overdue_row, ltb.
  by rewrite andb_true_iff, Z.ltb_lt, awaiting_spec.
Qed.

Lemma elem_of_select (c : clock) (st : store) (p : RTIRecord → bool) (d : RTIDict) :
  d ∈ select c st p
  ↔ ∃ id r, st !! id = Some r ∧ p r = true ∧ d = record_to_dict c id r.
Proof.
  unfold select. rewrite list_elem_of_fmap. split.
  - intros ([id r] & -> & Hin). apply list_elem_of_filter in Hin as [Hp Hin].
    apply elem_of_map_to_list in Hin. by exists id, r.
  - intros (id & r & Hr & Hp & ->). exists (id, r). split; [done|].
    apply list_elem_of_filter. split; [done|]. by apply elem_of_map_to_list.
Qed.

(** C6.  [get_overdue] returns exactly the records whose response
    deadline is strictly before the current time and whose status is
    [filed] or [acknowledged].  So a record filed 35 days ago and still
    [filed] is returned; a record filed today is not; a record whose
    status is [response_received] is not, however long ago it was
    filed. *)
Theorem C6_get_overdue (c : clock) (st : store) :
  (∀ d, d ∈ get_overdue c st
        ↔ ∃ id r, st !! id = Some r ∧ d = record_to_dict c id r
                  ∧ stamp (response_deadline r) < stamp (now c)
                  ∧ (status r = FILED ∨ status r = ACKNOWLEDGED))
  ∧ (∀ id r, st !! id = Some r →
       add_days (filing_date r) 30 = Ok (response_deadline r) →
       (sub_days (now c) 35 = Ok (filing_date r) → status r = FILED →
        record_to_dict c id r ∈ get_overdue c st)
       ∧ (ordinal (filing_date r) = ordinal (now c) →
          0 ≤ micros (filing_date r) → micros (now c) < DAY_MICROS →
          ∀ d, d ∈ get_overdue c st → d_id d ≠ id)
       ∧ (sub_days (now c) 35 = Ok (filing_date r) →
          status r = RESPONSE_RECEIVED →
          ∀ d, d ∈ get_overdue c st → d_id d ≠ id)).
Proof.
  assert (Hiff : ∀ d, d ∈ get_overdue c st
        ↔ ∃ id r, st !! id = Some r ∧ d = record_to_dict c id r
                  ∧ stamp (response_deadline r) < stamp (now c)
                  ∧ (status r = FILED ∨ status r = ACKNOWLEDGED)).
  { intros d. unfold get_overdue. rewrite elem_of_select.
    split; intros (id & r & Hr & H1 & H2); exists id, r.
    - apply overdue_row_spec in H1 as [Hlt Hs]. by rewrite H2.
    - destruct H2 as (Hlt & Hs). split; [done|]. split; [|done].
      by apply overdue_row_spec. }
  split; [exact Hiff|].
  intros id r Hr Hdl. apply add_days_inv in Hdl as (Ho & Hm & _).
  split; [|split].
  - intros Hago Hs. apply Hiff. exists id, r.
    apply add_days_inv in Hago as (Ho' & Hm' & _).
    split; [done|]. split; [done|]. split; [|by left].
    unfold stamp, DAY_MICROS. lia.
  - intros Hday Hlo Hhi d Hd Hid.
    apply Hiff in Hd as (id' & r' & Hr' & -> & Hlt & _).
    cbn [d_id record_to_dict] in Hid. subst id'.
    rewrite Hr in Hr'. injection Hr' as <-.
    unfold stamp, DAY_MICROS in *. lia.
  - intros _ Hs d Hd Hid.
    apply Hiff in Hd as (id' & r' & Hr' & -> & _ & Hst).
    cbn [d_id record_to_dict] in Hid. subst id'.
    rewrite Hr in Hr'. injection Hr' as <-.
    rewrite Hs in Hst. by destruct Hst.
Qed.

(** On 2026-03-01 at 10:00: the request filed 35 days earlier is
    overdue. *)
Lemma C6_get_overdue_witness :
  ∃ st id r,
    add_rti Sample.clock1 ∅ "awbi" "AWBI" "Test" "Overdue RTI" ["Q1"]
      (Some (mk_datetime (ymd2ord 2026 1 25) 36000000000))
      10 None None None None no_kwargs = Ok (id, st)
    ∧ st !! id = Some r
    ∧ record_to_dict Sample.clock1 id r ∈ get_overdue Sample.clock1 st.
Proof.
  eexists _, 1, _. split; [by vm_compute|]. split; [by vm_compute|].
  eapply (C6_get_overdue Sample.clock1).
  - by vm_compute.
  - by vm_compute.
  - by vm_compute.
  - by vm_compute.
Defined.

End TrackerProperties.


(** ** The renderers *)

Section Renderers.
Import DateTime Generator.

Lemma prefix_app_length (a b : string) : Py.prefix (String.length a) (a +:+ b) = a.
Proof.
  induction a as [|c a IH]; [by destruct b|].
  cbn [String.length String.append Py.prefix]. by f_equal.
Qed.

Lemma drop_chars_app_length (a b : string) :
  Spec.drop_chars (String.length a) (a +:+ b) = b.
Proof. induction a as [|c a IH]; [by destruct b|]. done. Qed.

Lemma cut_front (a b : string) : Spec.cut 0 (String.length a) (a +:+ b) = b.
Proof. unfold Spec.cut. cbn [Py.prefix Nat.add]. apply drop_chars_app_length. Qed.

Lemma drop_chars_add (n m : nat) (s : string) :
  Spec.drop_chars (n + m) s = Spec.drop_chars m (Spec.drop_chars n s).
Proof.
  revert s. induction n as [|n IH]; intros s; [done|].
  destruct s as [|c s]; cbn; [by destruct m|]. apply IH.
Qed.

Lemma cut_middle (a b d : string) :
  Spec.cut (String.length a) (String.length b) (a +:+ b +:+ d) = a +:+ d.
Proof.
  unfold Spec.cut.
  by rewrite prefix_app_length, drop_chars_add, !drop_chars_app_length.
Qed.

(** The context of an application differs with its language only in
    the application it carries, and neither renderer reads the
    language. *)
Lemma make_context_language (lang : string) (a : RTIApplication) :
  (make_context (set_language lang a) = Raise OverflowError
   ∧ make_context a = Raise OverflowError)
  ∨ (make_context (set_language lang a) = Raise KeyError
     ∧ make_context a = Raise KeyError)
  ∨ ∃ ctx ctx', make_context (set_language lang a) = Ok ctx'
                ∧ make_context a = Ok ctx
                ∧ generate_english ctx' = generate_english ctx
                ∧ generate_hindi ctx' = generate_hindi ctx.
Proof.
  unfold make_context, first_appeal_deadline, response_deadline, format_date_hindi.
  cbn [filing_date set_language].
  destruct (months_hi !! month (filing_date a)) as [m|];
    cbn [mbind result_bind rbind]; [|by right; left].
  destruct (add_days (filing_date a) 30) as [rd|[]] eqn:Hrd;
    cbn [mbind result_bind rbind]; try (apply add_days_raises in Hrd; done);
    [|by left].
  destruct (add_days rd 30) as [fad|[]] eqn:Hfad;
    cbn [mbind result_bind rbind]; try (apply add_days_raises in Hfad; done);
    [|by left].
  right; right. by eexists _, _.
Qed.

Lemma bilingual_layout (ctx : Context) :
  generate_bilingual ctx
  = Spec.english_banner +:+ generate_english ctx
    +:+ Spec.hindi_banner +:+ generate_hindi ctx.
Proof.
  unfold generate_bilingual.
  generalize (generate_english ctx) (generate_hindi ctx). intros e h.
  reflexivity.
Qed.

(** What [generate] returns for [a] in language [lang], from the context
    of [a] itself. *)
Lemma rendered_language (lang : string) (a : RTIApplication) :
  rendered (set_language lang a)
  = (ctx ← make_context a;
     Ok (if String.eqb lang "hindi" then generate_hindi ctx
         else if String.eqb lang "bilingual" then generate_bilingual ctx
         else generate_english ctx)).
Proof.
  unfold rendered, generate.
  destruct (make_context_language lang a)
    as [[-> ->]|[[-> ->]|(ctx & ctx' & -> & -> & He & Hh)]]; try done.
  cbn [mbind result_bind rbind fst language set_language].
  by rewrite !bilingual_layout, He, Hh.
Qed.

(** C7.  The bilingual rendering of an application is the English
    banner, the English rendering of the same application, the Hindi
    banner and its Hindi rendering, in this order; with the two banners
    cut out it is the English rendering followed by the Hindi one. *)
Theorem C7_bilingual_layout (a : RTIApplication) :
  rendered (set_language "bilingual" a)
  = (e ← rendered (set_language "english" a);
     h ← rendered (set_language "hindi" a);
     Ok (Spec.english_banner +:+ e +:+ Spec.hindi_banner +:+ h))
  ∧ (∀ t e h,
       rendered (set_language "bilingual" a) = Ok t →
       rendered (set_language "english" a) = Ok e →
       rendered (set_language "hindi" a) = Ok h →
       t = Spec.english_banner +:+ e +:+ Spec.hindi_banner +:+ h
       ∧ Spec.cut (String.length e) (String.length Spec.hindi_banner)
           (Spec.cut 0 (String.length Spec.english_banner) t)
         = e +:+ h).
Proof.
  assert (Heq : rendered (set_language "bilingual" a)
    = (e ← rendered (set_language "english" a);
       h ← rendered (set_language "hindi" a);
       Ok (Spec.english_banner +:+ e +:+ Spec.hindi_banner +:+ h))).
  { rewrite !rendered_language.
    destruct (make_context a) as [ctx|e]; [|done].
    cbn [mbind result_bind rbind].
    change (String.eqb "bilingual" "hindi") with false.
    change (String.eqb "bilingual" "bilingual") with true.
    change (String.eqb "english" "hindi") with false.
    change (String.eqb "english" "bilingual") with false.
    change (String.eqb "hindi" "hindi") with true.
    cbv iota. by rewrite bilingual_layout. }
  split; [exact Heq|].
  intros t e h Ht He Hh. rewrite Heq, He, Hh in Ht.
  cbn [mbind result_bind rbind] in Ht. injection Ht as <-.
  split; [done|]. by rewrite cut_front, cut_middle.
Qed.

Lemma C7_bilingual_layout_witness :
  ∃ t e h,
    rendered (set_language "bilingual" Sample.application) = Ok t
    ∧ rendered (set_language "english" Sample.application) = Ok e
    ∧ rendered (set_language "hindi" Sample.application) = Ok h
    ∧ t = Spec.english_banner +:+ e +:+ Spec.hindi_banner +:+ h.
Proof.
  eexists _, _, _.
  split; [by vm_compute|]. split; [by vm_compute|]. split; [by vm_compute|].
  eapply (C7_bilingual_layout Sample.application); by vm_compute.
Defined.

End Renderers.


(** ** Texts and their characters *)

Section Characters.
Import Chars.

Lemma text_cons (t : string) (cs : list string) :
  Py.text (t :: cs) = t +:+ Py.text cs.
Proof. reflexivity. Qed.

Lemma text_app (a b : list string) :
  Py.text (a ++ b) = Py.text a +:+ Py.text b.
Proof.
  induction a as [|t a IH]; [done|].
  cbn [app]. rewrite !text_cons, IH.
  induction t as [|c t IHt]; [done|].
  change (String c t +:+ Py.text a +:+ Py.text b)
    with (String c (t +:+ Py.text a +:+ Py.text b)).
  by rewrite IHt.
Qed.

Lemma text_chars (s : string) : Py.text (Py.chars s) = s.
Proof.
  induction s as [|c s IH]; [done|].
  cbn [Py.chars]. destruct (Py.chars s) as [|t ts]; [by rewrite <- IH|].
  destruct (Py.cont_head t && negb (Py.is_ascii c)); rewrite <- IH; reflexivity.
Qed.

Lemma chars_nil (s : string) : Py.chars s = [] → s = "".
Proof. intros H. by rewrite <- (text_chars s), H. Qed.

Lemma all_cont_head (t : string) :
  all_cont t = true → Py.truthy t = true → Py.cont_head t = true.
Proof. destruct t as [|c t]; [done|]. cbn. by intros [-> _]%andb_true_iff. Qed.

Lemma is_char_cont (t : string) :
  is_char t = true → Py.cont_head t = true → all_cont t = true.
Proof.
  destruct t as [|c u]; [done|]. cbn. intros Hc ->.
  by apply andb_true_iff in Hc as [-> _].
Qed.

Lemma cont_not_ascii (c : ascii) : Py.is_cont c = true → Py.is_ascii c = false.
Proof.
  unfold Py.is_cont, Py.is_ascii. intros [H _]%andb_true_iff.
  apply Z.leb_le in H. apply Z.ltb_ge. lia.
Qed.

Lemma chars_well_formed (s : string) : well_formed (Py.chars s).
Proof.
  induction s as [|c s IH]; [done|].
  cbn [Py.chars]. destruct (Py.chars s) as [|t ts] eqn:E.
  { cbn. by rewrite orb_true_r. }
  destruct IH as (Ht & Hadj & Hts).
  destruct (Py.cont_head t && negb (Py.is_ascii c)) eqn:Hm.
  - apply andb_true_iff in Hm as [Hc Ha].
    split; [|split; [|done]].
    + cbn [is_char]. rewrite (is_char_cont t Ht Hc), Ha. done.
    + destruct ts as [|t' ts']; [done|].
      intros Hc'. apply Hadj in Hc'.
      destruct t as [|d u]; [done|]. cbn in Hc, Hc'.
      apply cont_not_ascii in Hc. congruence.
  - split; [|split; [|done]].
    + cbn. by rewrite orb_true_r.
    + intros Hc. rewrite Hc in Hm. cbn in Hm |- *.
      by apply negb_false_iff in Hm.
Qed.

Lemma well_formed_app (a b : list string) :
  well_formed (a ++ b) → well_formed a ∧ well_formed b.
Proof.
  induction a as [|t a IH]; [done|].
  cbn [app well_formed]. intros (Ht & Hadj & Hr).
  destruct (IH Hr) as [Ha Hb]. split; [|done].
  split; [done|]. split; [|done].
  destruct a as [|t' a']; [done|]. exact Hadj.
Qed.

Lemma well_formed_take (n : nat) (cs : list string) :
  well_formed cs → well_formed (take n cs).
Proof.
  intros H. rewrite <- (take_drop n cs) in H.
  by apply well_formed_app in H as [H' _].
Qed.

Lemma well_formed_drop (n : nat) (cs : list string) :
  well_formed cs → well_formed (drop n cs).
Proof.
  intros H. rewrite <- (take_drop n cs) in H.
  by apply well_formed_app in H as [_ H'].
Qed.

(** Continuation octets before a character that does not start with
    one are a character of their own. *)
Lemma chars_cont_run (u s : string) :
  all_cont u = true → Py.truthy u = true →
  match Py.chars s with
  | [] => True
  | t :: _ => Py.cont_head t = false
  end →
  Py.chars (u +:+ s) = u :: Py.chars s.
Proof.
  intros Hu Hne Hs. induction u as [|d u IH]; [done|].
  cbn in Hu. apply andb_true_iff in Hu as [Hd Hu].
  change (String d u +:+ s) with (String d (u +:+ s)). cbn [Py.chars].
  destruct u as [|d' u'].
  - change ("" +:+ s) with s.
    destruct (Py.chars s) as [|t ts]; [done|]. by rewrite Hs.
  - rewrite IH by done.
    cbn in Hu. apply andb_true_iff in Hu as [Hd' _].
    cbn [Py.cont_head]. rewrite Hd', (cont_not_ascii d Hd). done.
Qed.

Lemma chars_text (cs : list string) :
  well_formed cs → Py.chars (Py.text cs) = cs.
Proof.
  induction cs as [|t r IH]; [done|].
  intros (Ht & Hadj & Hr). specialize (IH Hr).
  rewrite text_cons. destruct t as [|c u]; [done|].
  cbn [is_char] in Ht. apply andb_true_iff in Ht as [Hu Hc].
  change (String c u +:+ Py.text r) with (String c (u +:+ Py.text r)).
  cbn [Py.chars]. destruct u as [|d u'].
  - change ("" +:+ Py.text r) with (Py.text r). rewrite IH.
    destruct r as [|t' r']; [done|].
    destruct (Py.cont_head t') eqn:Hc'; [|done].
    cbn in Hadj. rewrite (Hadj eq_refl). done.
  - cbn in Hc. rewrite orb_false_r in Hc. apply negb_true_iff in Hc.
    rewrite chars_cont_run; [|exact Hu|reflexivity|].
    + cbn in Hu. apply andb_true_iff in Hu as [Hd _].
      cbn [Py.cont_head]. by rewrite Hd, Hc, IH.
    + rewrite IH. destruct r as [|t' r']; [done|].
      destruct (Py.cont_head t') eqn:Hc'; [|done].
      cbn in Hadj. specialize (Hadj eq_refl). congruence.
Qed.

End Characters.

Section Stripping.
Import Chars.

Lemma rstrip_chars_cons (t : string) (cs : list string) :
  Py.rstrip_chars (t :: cs)
  = match Py.rstrip_chars cs with
    | [] => if Py.isspace t then [] else [t]
    | r => t :: r
    end.
Proof. reflexivity. Qed.

Lemma rstrip_chars_idemp (cs : list string) :
  Py.rstrip_chars (Py.rstrip_chars cs) = Py.rstrip_chars cs.
Proof.
  induction cs as [|t cs IH]; [done|].
  rewrite rstrip_chars_cons.
  destruct (Py.rstrip_chars cs) as [|r rs] eqn:E.
  - destruct (Py.isspace t) eqn:Ht; [done|].
    by rewrite rstrip_chars_cons, Ht.
  - by rewrite rstrip_chars_cons, IH.
Qed.

Lemma lstrip_chars_idemp (cs : list string) :
  Py.lstrip_chars (Py.lstrip_chars cs) = Py.lstrip_chars cs.
Proof.
  induction cs as [|t cs IH]; [done|].
  cbn [Py.lstrip_chars]. destruct (Py.isspace t) eqn:Ht; [done|].
  cbn [Py.lstrip_chars]. by rewrite Ht.
Qed.

Lemma lstrip_rstrip_chars (cs : list string) :
  Py.lstrip_chars (Py.rstrip_chars cs) = Py.rstrip_chars (Py.lstrip_chars cs).
Proof.
  induction cs as [|t cs IH]; [done|].
  rewrite rstrip_chars_cons. cbn [Py.lstrip_chars].
  destruct (Py.isspace t) eqn:Ht.
  - rewrite <- IH.
    destruct (Py.rstrip_chars cs) as [|r rs] eqn:E; [done|].
    cbn [Py.lstrip_chars]. by rewrite Ht.
  - rewrite rstrip_chars_cons.
    destruct (Py.rstrip_chars cs); cbn [Py.lstrip_chars]; by rewrite Ht.
Qed.


Lemma strip_chars_rstrip (cs : list string) :
  strip_chars (Py.rstrip_chars cs) = strip_chars cs.
Proof.
  unfold strip_chars. by rewrite lstrip_rstrip_chars, rstrip_chars_idemp.
Qed.

Lemma strip_chars_fixed (cs : list string) :
  strip_chars cs = cs → Py.rstrip_chars cs = cs ∧ Py.lstrip_chars cs = cs.
Proof.
  intros H. split.
  - rewrite <- H at 1. unfold strip_chars. rewrite rstrip_chars_idemp. exact H.
  - rewrite <- H at 1. unfold strip_chars.
    rewrite lstrip_rstrip_chars, lstrip_chars_idemp. exact H.
Qed.

Lemma lstrip_chars_suffix (cs : list string) :
  ∃ ws, cs = ws ++ Py.lstrip_chars cs.
Proof.
  induction cs as [|t cs [ws IH]]; [by exists []|].
  cbn [Py.lstrip_chars]. destruct (Py.isspace t); [|by exists []].
  exists (t :: ws). cbn [app]. f_equal. exact IH.
Qed.

Lemma rstrip_chars_prefix (cs : list string) :
  ∃ ws, cs = Py.rstrip_chars cs ++ ws.
Proof.
  induction cs as [|t cs [ws IH]]; [by exists []|].
  rewrite rstrip_chars_cons.
  destruct (Py.rstrip_chars cs) as [|r rs] eqn:E.
  - destruct (Py.isspace t); [by exists (t :: cs)|].
    exists cs. reflexivity.
  - exists ws. cbn [app]. f_equal. exact IH.
Qed.

Lemma strip_chars_well_formed (cs : list string) :
  well_formed cs → well_formed (strip_chars cs).
Proof.
  intros H. unfold strip_chars.
  destruct (lstrip_chars_suffix cs) as [ws Hws]. rewrite Hws in H.
  apply well_formed_app in H as [_ H].
  destruct (rstrip_chars_prefix (Py.lstrip_chars cs)) as [ws' Hws'].
  rewrite Hws' in H. by apply well_formed_app in H as [H _].
Qed.

(** [strip] on the text of a list of characters. *)
Lemma strip_text (cs : list string) :
  well_formed cs → Py.strip (Py.text cs) = Py.text (strip_chars cs).
Proof. intros H. unfold Py.strip. by rewrite chars_text. Qed.

Lemma strip_chars_of (s : string) :
  Py.chars (Py.strip s) = strip_chars (Py.chars s).
Proof.
  unfold Py.strip. apply chars_text.
  apply strip_chars_well_formed, chars_well_formed.
Qed.


End Stripping.

(** ** Template questions *)

Section TemplateQuestions.
Import Generator Chars.

Lemma split_cons (sep : ascii) (s : string) :
  ∃ l ls, Py.split sep s = l :: ls.
Proof.
  destruct s as [|c s]; cbn; [by eexists _, _|].
  destruct (Ascii.eqb c sep); [by eexists _, _|].
  destruct (Py.split sep s); by eexists _, _.
Qed.

Lemma contains_app (c : ascii) (a b : string) :
  Py.contains c (a +:+ b) = Py.contains c a || Py.contains c b.
Proof.
  induction a as [|x a IH]; [done|].
  change (String x a +:+ b) with (String x (a +:+ b)).
  cbn [Py.contains]. by rewrite IH, orb_assoc.
Qed.

(** What is among the first characters of a text is in the text. *)
Lemma contains_first_chars (c : ascii) (n : nat) (s : string) :
  Py.contains c (Py.first_chars n s) = true → Py.contains c s = true.
Proof.
  intros H. rewrite <- (text_chars s), <- (take_drop n (Py.chars s)).
  rewrite text_app, contains_app. unfold Py.first_chars in H. by rewrite H.
Qed.

Lemma split1_second (sep : ascii) (s : string) :
  Py.contains sep s = true →
  Py.split1 sep s !! 1%nat = Some (Spec.after_first sep s).
Proof.
  induction s as [|c s IH]; cbn; [done|].
  destruct (Ascii.eqb c sep); cbn; [done|].
  intros H. specialize (IH H).
  destruct (Py.split1 sep s) as [|l ls]; [done|]. exact IH.
Qed.

(** The subscript of the loop body never raises. *)
Lemma index_split1 (line : string) :
  Spec.numbered_line line = true →
  Py.index (Py.split1 "." line) 1 = Ok (Spec.after_first "." line).
Proof.
  intros H. unfold Py.index. rewrite split1_second; [done|].
  unfold Spec.numbered_line in H.
  destruct (Py.chars line) as [|c0 cs]; [done|].
  apply andb_true_iff in H as [_ H]. by apply contains_first_chars in H.
Qed.

Lemma extract_lines_spec (lines acc : list string) :
  extract_lines lines acc = Ok (acc ++ omap Spec.question_of lines).
Proof.
  revert acc. induction lines as [|line lines IH]; intros acc;
    cbn [extract_lines omap list_omap].
  - by rewrite app_nil_r.
  - unfold Spec.question_of, Spec.question_in.
    fold (Spec.numbered_line (Py.strip line)).
    destruct (Spec.numbered_line (Py.strip line)) eqn:Hn.
    + rewrite index_split1 by done. cbn [mbind result_bind rbind].
      fold (Spec.text_after_dot (Py.strip line)).
      destruct (Py.truthy (Spec.text_after_dot (Py.strip line))).
      * rewrite IH. by rewrite <- app_assoc.
      * apply IH.
    + apply IH.
Qed.

(** *** The lines of a list of characters *)

Lemma lines_cons (cs : list string) : ∃ l ls, lines cs = l :: ls.
Proof.
  destruct cs as [|t r]; cbn; [by eexists _, _|].
  destruct (is_LF t); [by eexists _, _|].
  destruct (lines r); by eexists _, _.
Qed.

Lemma lines_step (t : string) (r : list string) :
  lines (t :: r)
  = if is_LF t then [] :: lines r
    else match lines r with
         | l :: ls => (t :: l) :: ls
         | [] => [[t]]
         end.
Proof. reflexivity. Qed.

Lemma is_LF_spec (t : string) : is_LF t = true ↔ t = Py.nl.
Proof. unfold is_LF. apply String.eqb_eq. Qed.

Lemma is_LF_space (t : string) : is_LF t = true → Py.isspace t = true.
Proof. intros ->%is_LF_spec. reflexivity. Qed.

Lemma all_cont_no_LF (u : string) :
  all_cont u = true → Py.contains Py.LF u = false.
Proof.
  induction u as [|c u IH]; [done|]. cbn [all_cont Py.contains].
  intros [Hc Hu]%andb_true_iff. rewrite (IH Hu), orb_false_r.
  apply Ascii.eqb_neq. intros ->. by vm_compute in Hc.
Qed.

(** A character other than the line break holds no line break. *)
Lemma char_no_LF (t : string) :
  is_char t = true → is_LF t = false → Py.contains Py.LF t = false.
Proof.
  destruct t as [|c u]; [done|]. cbn [is_char Py.contains].
  intros [Hu Hc]%andb_true_iff Hnl.
  rewrite (all_cont_no_LF u Hu), orb_false_r.
  apply Ascii.eqb_neq. intros ->.
  change (Py.is_ascii Py.LF) with true in Hc. cbn in Hc.
  destruct u; [|done]. by vm_compute in Hnl.
Qed.

Lemma split_app_no_sep (sep : ascii) (t s : string) :
  Py.contains sep t = false →
  Py.split sep (t +:+ s)
  = match Py.split sep s with
    | l :: ls => (t +:+ l) :: ls
    | [] => [t]
    end.
Proof.
  induction t as [|c t IH].
  - intros _. change ("" +:+ s) with s.
    by destruct (split_cons sep s) as (l & ls & ->).
  - cbn [Py.contains]. intros [Hc Ht]%orb_false_iff.
    change (String c t +:+ s) with (String c (t +:+ s)).
    cbn [Py.split]. rewrite Hc, (IH Ht).
    by destruct (split_cons sep s) as (l & ls & ->).
Qed.

(** The lines of a text are its lines of characters. *)
Lemma split_text (cs : list string) :
  well_formed cs → Py.split Py.LF (Py.text cs) = Py.text <$> lines cs.
Proof.
  induction cs as [|t r IH]; [done|].
  intros (Ht & _ & Hr). specialize (IH Hr).
  rewrite text_cons. cbn [lines].
  destruct (is_LF t) eqn:Hnl.
  - apply is_LF_spec in Hnl as ->.
    change (Py.nl +:+ Py.text r) with (String Py.LF (Py.text r)).
    cbn [Py.split]. rewrite Ascii.eqb_refl, IH. reflexivity.
  - rewrite split_app_no_sep by by apply char_no_LF.
    rewrite IH. by destruct (lines_cons r) as (l & ls & ->).
Qed.

Lemma lines_concat (cs : list string) :
  ∃ seps, length seps = length (lines cs)
          ∧ cs = concat (zip_with (λ l s, l ++ s) (lines cs) seps).
Proof.
  induction cs as [|t r (seps & Hlen & IH)].
  - exists [[]]. by split.
  - cbn [lines]. destruct (is_LF t).
    + exists ([t] :: seps). split; [cbn; by rewrite Hlen|].
      cbn. by rewrite <- IH.
    + destruct (lines r) as [|l ls] eqn:E.
      * exists [[]]. split; [done|]. cbn in *.
        destruct seps; [|done]. cbn in IH. by rewrite IH.
      * destruct seps as [|s seps]; [done|].
        exists (s :: seps). split; [done|].
        cbn in *. by rewrite IH.
Qed.

Lemma well_formed_concat (ls : list (list string)) :
  well_formed (concat ls) → Forall well_formed ls.
Proof.
  induction ls as [|l ls IH]; [done|]. cbn [concat].
  intros [Hl Hr]%well_formed_app. constructor; [done|]. by apply IH.
Qed.

Lemma lines_well_formed (cs : list string) :
  well_formed cs → Forall well_formed (lines cs).
Proof.
  intros H. destruct (lines_concat cs) as (seps & Hlen & Hcs).
  rewrite Hcs in H. apply well_formed_concat in H.
  apply Forall_forall. intros l Hl.
  apply list_elem_of_lookup in Hl as [i Hi].
  destruct (lookup_lt_is_Some_2 seps i) as [s Hs].
  { rewrite Hlen. by apply lookup_lt_Some in Hi. }
  rewrite Forall_forall in H.
  assert (Hin : l ++ s ∈ zip_with (λ l s, l ++ s) (lines cs) seps).
  { apply list_elem_of_lookup. exists i.
    by rewrite lookup_zip_with, Hi, Hs. }
  apply H in Hin. by apply well_formed_app in Hin as [Hin _].
Qed.

(** *** White space at the two ends of a template *)

Lemma question_of_text (l : list string) :
  well_formed l → Spec.question_of (Py.text l) = chars_question l.
Proof.
  intros H. unfold Spec.question_of, chars_question. by rewrite strip_text.
Qed.

Lemma chars_question_nil : chars_question [] = None.
Proof. reflexivity. Qed.

Lemma chars_question_space (t : string) (l : list string) :
  Py.isspace t = true → chars_question (t :: l) = chars_question l.
Proof.
  intros Ht. unfold chars_question, strip_chars.
  cbn [Py.lstrip_chars]. by rewrite Ht.
Qed.

Lemma chars_question_rstrip (l : list string) :
  chars_question (Py.rstrip_chars l) = chars_question l.
Proof. unfold chars_question. by rewrite strip_chars_rstrip. Qed.

Lemma omap_chars_question_rstrip (ls : list (list string)) :
  omap chars_question (Py.rstrip_chars <$> ls) = omap chars_question ls.
Proof.
  induction ls as [|l ls IH]; [done|].
  cbn [fmap list_fmap omap list_omap]. by rewrite chars_question_rstrip, IH.
Qed.

Lemma omap_chars_question_blank (k : nat) :
  omap chars_question (replicate k []) = [].
Proof. induction k as [|k IH]; [done|]. exact IH. Qed.

Lemma questions_lstrip_chars (cs : list string) :
  omap chars_question (lines (Py.lstrip_chars cs))
  = omap chars_question (lines cs).
Proof.
  induction cs as [|t r IH]; [done|].
  cbn [Py.lstrip_chars]. destruct (Py.isspace t) eqn:Ht; [|done].
  rewrite IH. cbn [lines].
  destruct (is_LF t); [done|].
  destruct (lines_cons r) as (l & ls & ->).
  cbn [omap list_omap]. by rewrite chars_question_space.
Qed.

(** Dropping the white space at the end of a template only removes
    white space at the end of its last line, and whole blank lines
    after it. *)
Lemma lines_rstrip_chars (cs : list string) :
  ∃ k, Py.rstrip_chars <$> lines cs
       = (Py.rstrip_chars <$> lines (Py.rstrip_chars cs)) ++ replicate k [].
Proof.
  induction cs as [|t r (k & IH)]; [by exists 0%nat|].
  rewrite rstrip_chars_cons.
  destruct (lines_cons r) as (l & ls & Hs).
  destruct (lines_cons (Py.rstrip_chars r)) as (l' & ls' & Hs').
  rewrite Hs, Hs' in IH. cbn [fmap list_fmap app] in IH.
  injection IH as Hl Hls.
  rewrite (lines_step t r), Hs.
  destruct (Py.rstrip_chars r) as [|x xs] eqn:Hr.
  - cbn [lines] in Hs'. injection Hs' as <- <-.
    cbn [fmap list_fmap app Py.rstrip_chars] in Hl, Hls.
    destruct (is_LF t) eqn:Hnl.
    + rewrite (is_LF_space t Hnl).
      exists (S k). cbn [fmap list_fmap app lines replicate Py.rstrip_chars].
      by rewrite Hl, Hls.
    + destruct (Py.isspace t) eqn:Hsp.
      * exists k. cbn [fmap list_fmap app lines].
        rewrite rstrip_chars_cons, Hl, Hls, Hsp. reflexivity.
      * exists k. rewrite (lines_step t []), Hnl.
        cbn [fmap list_fmap app lines].
        rewrite !rstrip_chars_cons, Hl, Hls, Hsp. reflexivity.
  - cbv beta iota. rewrite (lines_step t (x :: xs)), Hs'.
    destruct (is_LF t).
    + exists k. cbn [fmap list_fmap app]. by rewrite Hl, Hls.
    + exists k. cbn [fmap list_fmap app].
      by rewrite !rstrip_chars_cons, Hl, Hls.
Qed.

Lemma questions_rstrip_chars (cs : list string) :
  omap chars_question (lines (Py.rstrip_chars cs))
  = omap chars_question (lines cs).
Proof.
  destruct (lines_rstrip_chars cs) as (k & H).
  rewrite <- (omap_chars_question_rstrip (lines cs)), H.
  rewrite omap_app, omap_chars_question_blank, app_nil_r.
  symmetry. apply omap_chars_question_rstrip.
Qed.

Lemma omap_question_of_text (ls : list (list string)) :
  Forall well_formed ls →
  omap Spec.question_of (Py.text <$> ls) = omap chars_question ls.
Proof.
  induction 1 as [|l ls Hl _ IH]; [done|].
  cbn [fmap list_fmap omap list_omap]. by rewrite question_of_text, IH.
Qed.

Lemma questions_of_chars (cs : list string) :
  well_formed cs →
  omap Spec.question_of (Py.split Py.LF (Py.text cs))
  = omap chars_question (lines cs).
Proof.
  intros H. rewrite split_text by done.
  by apply omap_question_of_text, lines_well_formed.
Qed.

(** The lines of a text and of the stripped text give the same
    questions. *)
Lemma questions_strip (s : string) :
  omap Spec.question_of (Py.split Py.LF (Py.strip s))
  = omap Spec.question_of (Py.split Py.LF s).
Proof.
  rewrite <- (text_chars s) at 2.
  rewrite (questions_of_chars (Py.chars s)) by apply chars_well_formed.
  unfold Py.strip.
  rewrite questions_of_chars
    by apply strip_chars_well_formed, chars_well_formed.
  by rewrite questions_rstrip_chars, questions_lstrip_chars.
Qed.

Lemma extract_spec (template_text : string) :
  extract_template_questions template_text
  = Ok (omap Spec.question_of (Py.split Py.LF template_text)).
Proof.
  unfold extract_template_questions.
  by rewrite extract_lines_spec, questions_strip.
Qed.

Lemma omap_question_of (lines : list string) :
  omap Spec.question_of lines
  = filter (λ q, Py.truthy q = true)
      (Spec.text_after_dot
         <$> filter (λ line, Spec.numbered_line line = true) (Py.strip <$> lines)).
Proof.
  induction lines as [|l lines IH]; [done|].
  cbn [omap list_omap fmap list_fmap]. rewrite filter_cons.
  unfold Spec.question_of at 1. unfold Spec.question_in.
  destruct (Spec.numbered_line (Py.strip l)) eqn:Hn.
  - rewrite decide_True by done. cbn [fmap list_fmap]. rewrite filter_cons.
    destruct (Py.truthy (Spec.text_after_dot (Py.strip l))) eqn:Ht.
    + rewrite decide_True by done. by rewrite IH.
    + rewrite decide_False by done. exact IH.
  - rewrite decide_False by done. exact IH.
Qed.

(** *** Lines *)

Lemma split_app_sep (sep : ascii) (a b : string) :
  Py.split sep (a +:+ String sep b) = Py.split sep a ++ Py.split sep b.
Proof.
  induction a as [|c a IH].
  - change (EmptyString +:+ String sep b) with (String sep b).
    cbn [Py.split]. by rewrite Ascii.eqb_refl.
  - change (String c a +:+ String sep b) with (String c (a +:+ String sep b)).
    cbn [Py.split]. rewrite IH. destruct (Ascii.eqb c sep); [done|].
    by destruct (split_cons sep a) as (l & ls & ->).
Qed.

Lemma split_no_sep (sep : ascii) (s : string) :
  Py.contains sep s = false → Py.split sep s = [s].
Proof.
  induction s as [|c s IH]; [done|]. cbn [Py.contains Py.split].
  intros H. apply orb_false_iff in H as [-> H]. by rewrite IH.
Qed.

Lemma split_join (l : string) (lines : list string) :
  Forall (λ l, Py.contains Py.LF l = false) (l :: lines) →
  Py.split Py.LF (Py.join Py.nl (l :: lines)) = l :: lines.
Proof.
  revert l. induction lines as [|l' lines IH]; intros l Hall.
  - apply split_no_sep. by inversion Hall.
  - inversion Hall as [|? ? Hl Hrest]; subst.
    change (Py.join Py.nl (l :: l' :: lines))
      with (l +:+ String Py.LF (Py.join Py.nl (l' :: lines))).
    by rewrite split_app_sep, split_no_sep, IH.
Qed.

Lemma extract_join (lines : list string) :
  Forall (λ l, Py.contains Py.LF l = false) lines →
  extract_template_questions (Py.join Py.nl lines)
  = Ok (omap Spec.question_of lines).
Proof.
  intros Hall. rewrite extract_spec.
  destruct lines as [|l lines]; [done|]. by rewrite split_join.
Qed.

Lemma omap_skipped (lines : list string) :
  Forall Spec.skipped_line lines → omap Spec.question_of lines = [].
Proof.
  induction 1 as [|l lines [_ Hl] _ IH]; [done|].
  cbn [omap list_omap]. rewrite IH.
  unfold Spec.question_of, Spec.question_in.
  destruct Hl as [->| ->]; done.
Qed.

Lemma skipped_no_LF (lines : list string) :
  Forall Spec.skipped_line lines →
  Forall (λ l, Py.contains Py.LF l = false) lines.
Proof. induction 1 as [|l lines [H _] _ IH]; by constructor. Qed.

(** C8.  Question extraction reads the lines of the template in order,
    strips each, and skips the blank ones and those that fail its test
    for a numbered line: the first character a digit and a dot among the
    first four characters.  From each of the others it takes the
    stripped text after the first dot, and keeps that text unless it is
    empty.  The questions of two texts joined by a line break are those
    of the first followed by those of the second.  A template made of
    blank lines, non-numbered lines and the lines [1. foo] and [2. bar]
    yields [foo; bar]. *)
Theorem C8_template_questions :
  (∀ template_text,
     extract_template_questions template_text
     = Ok (filter (λ q, Py.truthy q = true)
             (Spec.text_after_dot <$> Spec.numbered_lines template_text)))
  ∧ (∀ t1 t2 q1 q2,
       extract_template_questions t1 = Ok q1 →
       extract_template_questions t2 = Ok q2 →
       extract_template_questions (t1 +:+ Py.nl +:+ t2) = Ok (q1 ++ q2))
  ∧ (∀ above between below,
       Forall Spec.skipped_line (above ++ between ++ below) →
       extract_template_questions
         (Py.join Py.nl (above ++ "1. foo" :: between ++ "2. bar" :: below))
       = Ok ["foo"; "bar"]).
Proof.
  split; [|split].
  - intros t. rewrite extract_spec. f_equal. apply omap_question_of.
  - intros t1 t2 q1 q2. rewrite !extract_spec. intros [= <-] [= <-].
    change (t1 +:+ Py.nl +:+ t2) with (t1 +:+ String Py.LF t2).
    by rewrite split_app_sep, omap_app.
  - intros above between below Hall.
    apply Forall_app in Hall as [Ha Hall]. apply Forall_app in Hall as [Hb Hc].
    rewrite extract_join.
    + rewrite omap_app. cbn [omap list_omap]. rewrite omap_app.
      cbn [omap list_omap].
      by rewrite !omap_skipped.
    + apply Forall_app. split; [by apply skipped_no_LF|].
      constructor; [done|]. apply Forall_app. split; [by apply skipped_no_LF|].
      constructor; [done|]. by apply skipped_no_LF.
Qed.

(** The second template has its numbers in Devanagari digits and
    no-break spaces around its lines. *)
Lemma C8_template_questions_witness :
  extract_template_questions
    (Py.join Py.nl ["Questions:"; ""; "1. foo"; "   "; "not numbered"; "  2. bar  "; ""])
  = Ok ["foo"; "bar"]
  ∧ extract_template_questions
      (Py.join Py.nl ["प्रश्न:"; " १. foo "; "२. bar"])
    = Ok ["foo"; "bar"]
  ∧ extract_template_questions
      (Py.join Py.nl (["Questions:"; ""] ++ "1. foo" :: ["not numbered"] ++ "2. bar" :: [""]))
    = Ok ["foo"; "bar"].
Proof.
  destruct C8_template_questions as (H1 & _ & H3).
  split; [rewrite H1; by vm_compute|].
  split; [rewrite H1; by vm_compute|].
  apply H3. repeat constructor; by vm_compute.
Defined.

(** C8, as the specification words it, fails three ways.  A numbered
    line with nothing after its dot is dropped, not kept as an empty
    question; a line without a digit-dot prefix is kept when a dot
    follows its leading digit within four characters; and a line whose
    number has four digits is dropped. *)
Lemma C8_counterexample :
  (extract_template_questions (Py.join Py.nl ["1. foo"; "2."; "3. bar"])
   = Ok ["foo"; "bar"]
   ∧ Spec.questions_as_stated (Py.join Py.nl ["1. foo"; "2."; "3. bar"])
     = ["foo"; ""; "bar"])
  ∧ (extract_template_questions "2 a.m. milking starts"
     = Ok ["m. milking starts"]
     ∧ Spec.questions_as_stated "2 a.m. milking starts" = [])
  ∧ (extract_template_questions "1000. foo" = Ok []
     ∧ Spec.questions_as_stated "1000. foo" = ["foo"])
  ∧ extract_template_questions (Py.join Py.nl ["1. foo"; "2."; "3. bar"])
    ≠ Ok (Spec.questions_as_stated (Py.join Py.nl ["1. foo"; "2."; "3. bar"]))
  ∧ extract_template_questions "2 a.m. milking starts"
    ≠ Ok (Spec.questions_as_stated "2 a.m. milking starts")
  ∧ extract_template_questions "1000. foo"
    ≠ Ok (Spec.questions_as_stated "1000. foo").
Proof. by vm_compute. Qed.

End TemplateQuestions.


(** ** Invoking a mutator twice *)

Section Repetition.
Import DateTime Tracker.

(** Rows in constructor form are computed by value: every setter and
    projection is unfolded, nothing else. *)
Ltac row_compute :=
  cbv beta iota zeta delta [
    set_status set_updated_at set_notes set_response_summary
    set_response_date set_documents_received set_first_appeal_date
    set_first_appeal_authority set_first_appeal_deadline
    set_second_appeal_date set_second_appeal_authority
    set_second_appeal_deadline reference_number agency_code agency_name
    pio_name pio_address applicant_name subject questions_json full_text
    state district filing_date fee_amount fee_mode fee_receipt status is_bpl
    acknowledgment_date response_date transfer_date transferred_to
    response_deadline first_appeal_deadline second_appeal_deadline
    first_appeal_date first_appeal_authority first_appeal_decision_date
    first_appeal_outcome second_appeal_date second_appeal_authority
    second_appeal_decision_date second_appeal_outcome notes response_summary
    documents_received created_at updated_at Spec.stamps
    Spec.same_but_stamps Spec.same_but_notes Spec.same_but_notes_and_update
    Spec.notes_after append_note ].

(** The row a successful mutator leaves is the one it inserted. *)
Ltac first_call H Hr1 :=
  match type of H with
  | context [?st !! ?id] =>
      let r0 := fresh "r0" in
      let E := fresh "E" in
      destruct (st !! id) as [r0|] eqn:E;
        [|unfold missing in H; destruct (sqlite_int id); discriminate H]
  end.

Lemma update_status_twice (c1 c2 : clock) (st st1 : store) (id : Z)
    (s : RTIStatus) (n rs : option string) (r1 : RTIRecord) :
  update_status c1 st id s n rs = Ok (true, st1) →
  st1 !! id = Some r1 →
  ∃ r2, Spec.row_after (update_status c2 st1 id s n rs) id r2
        ∧ Spec.same_but_stamps r1 r2
        ∧ Spec.stamps r2
          = (utcnow c2,
             if decide (s = RESPONSE_RECEIVED) then Some (now c2)
             else response_date r1,
             (first_appeal_date r1, first_appeal_deadline r1),
             (second_appeal_date r1, second_appeal_deadline r1))
        ∧ notes r2 = Spec.notes_after c2 "" n r1
        ∧ (s ≠ RESPONSE_RECEIVED → Spec.same_but_notes_and_update r1 r2)
        ∧ (c1 = c2 → Spec.same_but_notes r1 r2).
Proof.
  intros H Hr1. unfold update_status in H. first_call H Hr1.
  injection H as <-. rewrite lookup_insert_eq in Hr1. injection Hr1 as <-.
  unfold update_status. rewrite lookup_insert_eq.
  eexists. split; [eexists; split; [reflexivity|apply lookup_insert_eq]|].
  unfold Spec.notes_after.
  destruct r0, (Py.otruthy n), (Py.otruthy rs), (decide (s = RESPONSE_RECEIVED));
    row_compute;
    (split; [reflexivity|]); (split; [reflexivity|]); (split; [reflexivity|]);
    (split; [intros Hne; first [contradiction|reflexivity]
            |intros ->; reflexivity]).
Qed.

Lemma mark_response_received_twice (c1 c2 : clock) (st st1 : store) (id : Z)
    (su : string) (docs : option (list string)) (rd : option datetime)
    (r1 : RTIRecord) :
  mark_response_received c1 st id su docs rd = Ok (true, st1) →
  st1 !! id = Some r1 →
  ∃ r2, Spec.row_after (mark_response_received c2 st1 id su docs rd) id r2
        ∧ Spec.same_but_stamps r1 r2
        ∧ Spec.stamps r2
          = (utcnow c2, Some (default (now c2) rd),
             (first_appeal_date r1, first_appeal_deadline r1),
             (second_appeal_date r1, second_appeal_deadline r1))
        ∧ notes r2 = notes r1
        ∧ (is_Some rd → Spec.same_but_notes_and_update r1 r2)
        ∧ (c1 = c2 → Spec.same_but_notes r1 r2).
Proof.
  intros H Hr1. unfold mark_response_received in H. first_call H Hr1.
  injection H as <-. rewrite lookup_insert_eq in Hr1. injection Hr1 as <-.
  unfold mark_response_received. rewrite lookup_insert_eq.
  eexists. split; [eexists; split; [reflexivity|apply lookup_insert_eq]|].
  destruct r0, docs as [[|doc docs]|], rd as [d|];
    row_compute;
    (split; [reflexivity|]); (split; [reflexivity|]); (split; [reflexivity|]);
    (split; [intros [d0 Hd0]; first [discriminate Hd0|reflexivity]
            |intros ->; reflexivity]).
Qed.

Lemma file_first_appeal_twice (c1 c2 : clock) (st st1 : store) (id : Z)
    (au : string) (d : option datetime) (note : option string) (r1 : RTIRecord) :
  file_first_appeal c1 st id au d note = Ok (true, st1) →
  st1 !! id = Some r1 →
  returns (add_days (default (now c2) d) 30) →
  ∃ r2 dl, Spec.row_after (file_first_appeal c2 st1 id au d note) id r2
        ∧ add_days (default (now c2) d) 30 = Ok dl
        ∧ Spec.same_but_stamps r1 r2
        ∧ Spec.stamps r2
          = (utcnow c2, response_date r1,
             (Some (default (now c2) d), Some dl),
             (second_appeal_date r1, second_appeal_deadline r1))
        ∧ notes r2 = Spec.notes_after c2 "First appeal: " note r1
        ∧ (is_Some d → Spec.same_but_notes_and_update r1 r2)
        ∧ (c1 = c2 → Spec.same_but_notes r1 r2).
Proof.
  intros H Hr1 [dl Hdl]. unfold file_first_appeal in H. first_call H Hr1.
  destruct (add_days _ 30) as [dl1|] eqn:Hdl1 in H; [|discriminate H].
  cbn [mbind result_bind rbind] in H.
  injection H as <-. rewrite lookup_insert_eq in Hr1. injection Hr1 as <-.
  unfold file_first_appeal. rewrite lookup_insert_eq.
  replace (match d with Some d0 => d0 | None => now c2 end)
    with (default (now c2) d) by by destruct d.
  rewrite Hdl. cbn [mbind result_bind rbind].
  eexists _, dl. split; [eexists; split; [reflexivity|apply lookup_insert_eq]|].
  split; [done|].
  assert (Hsame : is_Some d ∨ c1 = c2 → dl1 = dl).
  { intros [[d0 ->]| ->]; [|destruct d]; unfold default in Hdl; cbn [from_option Datatypes.id] in Hdl, Hdl1;
      rewrite Hdl in Hdl1; by injection Hdl1. }
  unfold Spec.notes_after.
  destruct r0, (Py.otruthy note);
    row_compute;
    (split; [reflexivity|]); (split; [reflexivity|]); (split; [reflexivity|]);
    (split; [intros Hd; rewrite (Hsame (or_introl Hd));
             destruct Hd as [d0 ->]; reflexivity
            |intros Hc; rewrite (Hsame (or_intror Hc)), Hc; reflexivity]).
Qed.

Lemma file_second_appeal_twice (c1 c2 : clock) (st st1 : store) (id : Z)
    (d : option datetime) (co : string) (note : option string) (r1 : RTIRecord) :
  file_second_appeal c1 st id d co note = Ok (true, st1) →
  st1 !! id = Some r1 →
  returns (add_days (default (now c2) d) 90) →
  ∃ r2 dl, Spec.row_after (file_second_appeal c2 st1 id d co note) id r2
        ∧ add_days (default (now c2) d) 90 = Ok dl
        ∧ Spec.same_but_stamps r1 r2
        ∧ Spec.stamps r2
          = (utcnow c2, response_date r1,
             (first_appeal_date r1, first_appeal_deadline r1),
             (Some (default (now c2) d), Some dl))
        ∧ notes r2 = Spec.notes_after c2 "Second appeal: " note r1
        ∧ (is_Some d → Spec.same_but_notes_and_update r1 r2)
        ∧ (c1 = c2 → Spec.same_but_notes r1 r2).
Proof.
  intros H Hr1 [dl Hdl]. unfold file_second_appeal in H. first_call H Hr1.
  destruct (add_days _ 90) as [dl1|] eqn:Hdl1 in H; [|discriminate H].
  cbn [mbind result_bind rbind] in H.
  injection H as <-. rewrite lookup_insert_eq in Hr1. injection Hr1 as <-.
  unfold file_second_appeal. rewrite lookup_insert_eq.
  replace (match d with Some d0 => d0 | None => now c2 end)
    with (default (now c2) d) by by destruct d.
  rewrite Hdl. cbn [mbind result_bind rbind].
  eexists _, dl. split; [eexists; split; [reflexivity|apply lookup_insert_eq]|].
  split; [done|].
  assert (Hsame : is_Some d ∨ c1 = c2 → dl1 = dl).
  { intros [[d0 ->]| ->]; [|destruct d];
      unfold default in Hdl; cbn [from_option Datatypes.id] in Hdl, Hdl1;
      rewrite Hdl in Hdl1; by injection Hdl1. }
  unfold Spec.notes_after.
  destruct r0, (Py.otruthy note);
    row_compute;
    (split; [reflexivity|]); (split; [reflexivity|]); (split; [reflexivity|]);
    (split; [intros Hd; rewrite (Hsame (or_introl Hd));
             destruct Hd as [d0 ->]; reflexivity
            |intros Hc; rewrite (Hsame (or_intror Hc)), Hc; reflexivity]).
Qed.

(** C9.  A mutator invoked a second time with the same arguments
    succeeds again and leaves every column as the first invocation left
    it, except [notes] and the columns stamped from the clock:
    [updated_at] takes the time of the second call, and so do
    [response_date] ([update_status] to [response_received],
    [mark_response_received] without a date) and the appeal date with its
    deadline (an appeal filed without a date).  With a date in the
    arguments only [notes] and [updated_at] change, and under one clock
    reading only [notes].  Each invocation with a non-empty note appends
    one entry to [notes]. *)
Theorem C9_repeated_mutator (c1 c2 : clock) (st st1 : store) (id : Z)
    (r1 : RTIRecord) :
  st1 !! id = Some r1 →
  (∀ s n rs,
     update_status c1 st id s n rs = Ok (true, st1) →
     ∃ r2, Spec.row_after (update_status c2 st1 id s n rs) id r2
           ∧ Spec.same_but_stamps r1 r2
           ∧ Spec.stamps r2
             = (utcnow c2,
                if decide (s = RESPONSE_RECEIVED) then Some (now c2)
                else response_date r1,
                (first_appeal_date r1, first_appeal_deadline r1),
                (second_appeal_date r1, second_appeal_deadline r1))
           ∧ notes r2 = Spec.notes_after c2 "" n r1
           ∧ (s ≠ RESPONSE_RECEIVED → Spec.same_but_notes_and_update r1 r2)
           ∧ (c1 = c2 → Spec.same_but_notes r1 r2))
  ∧ (∀ su docs rd,
       mark_response_received c1 st id su docs rd = Ok (true, st1) →
       ∃ r2, Spec.row_after (mark_response_received c2 st1 id su docs rd) id r2
             ∧ Spec.same_but_stamps r1 r2
             ∧ Spec.stamps r2
               = (utcnow c2, Some (default (now c2) rd),
                  (first_appeal_date r1, first_appeal_deadline r1),
                  (second_appeal_date r1, second_appeal_deadline r1))
             ∧ notes r2 = notes r1
             ∧ (is_Some rd → Spec.same_but_notes_and_update r1 r2)
             ∧ (c1 = c2 → Spec.same_but_notes r1 r2))
  ∧ (∀ au d note,
       file_first_appeal c1 st id au d note = Ok (true, st1) →
       returns (add_days (default (now c2) d) 30) →
       ∃ r2 dl, Spec.row_after (file_first_appeal c2 st1 id au d note) id r2
             ∧ add_days (default (now c2) d) 30 = Ok dl
             ∧ Spec.same_but_stamps r1 r2
             ∧ Spec.stamps r2
               = (utcnow c2, response_date r1,
                  (Some (default (now c2) d), Some dl),
                  (second_appeal_date r1, second_appeal_deadline r1))
             ∧ notes r2 = Spec.notes_after c2 "First appeal: " note r1
             ∧ (is_Some d → Spec.same_but_notes_and_update r1 r2)
             ∧ (c1 = c2 → Spec.same_but_notes r1 r2))
  ∧ (∀ d co note,
       file_second_appeal c1 st id d co note = Ok (true, st1) →
       returns (add_days (default (now c2) d) 90) →
       ∃ r2 dl, Spec.row_after (file_second_appeal c2 st1 id d co note) id r2
             ∧ add_days (default (now c2) d) 90 = Ok dl
             ∧ Spec.same_but_stamps r1 r2
             ∧ Spec.stamps r2
               = (utcnow c2, response_date r1,
                  (first_appeal_date r1, first_appeal_deadline r1),
                  (Some (default (now c2) d), Some dl))
             ∧ notes r2 = Spec.notes_after c2 "Second appeal: " note r1
             ∧ (is_Some d → Spec.same_but_notes_and_update r1 r2)
             ∧ (c1 = c2 → Spec.same_but_notes r1 r2)).
Proof.
  intros Hr1. split; [|split; [|split]].
  - intros s n rs H. by eapply update_status_twice.
  - intros su docs rd H. by eapply mark_response_received_twice.
  - intros au d note H Hdl. by eapply file_first_appeal_twice.
  - intros d co note H Hdl. by eapply file_second_appeal_twice.
Qed.

(** The request of 2026-01-01 acknowledged twice with one note, on
    2026-03-01 and on 2026-06-04: the log holds two entries, and but for
    [notes] and [updated_at] the row is as after the first call. *)
Lemma C9_repeated_mutator_witness :
  ∃ r2,
    Spec.row_after
      (update_status Sample.clock2 Sample.table_acknowledged 1 ACKNOWLEDGED
         (Some "Received acknowledgment letter") None) 1 r2
    ∧ Spec.same_but_notes_and_update Sample.acknowledged r2
    ∧ notes r2
      = Spec.notes_after Sample.clock2 "" (Some "Received acknowledgment letter")
          Sample.acknowledged
    ∧ Spec.notes_after Sample.clock2 "" (Some "Received acknowledgment letter")
        Sample.acknowledged
      = Some (Py.join Py.nl
                ["[2026-03-01 10:00] Received acknowledgment letter";
                 "[2026-06-04 10:00] Received acknowledgment letter"]).
Proof.
  destruct (C9_repeated_mutator Sample.clock1 Sample.clock2 Sample.table
              Sample.table_acknowledged 1 Sample.acknowledged) as [H _].
  - by vm_compute.
  - destruct (H ACKNOWLEDGED (Some "Received acknowledgment letter") None)
      as (r2 & Hrow & _ & _ & Hnotes & Hsame & _); [by vm_compute|].
    exists r2. split; [exact Hrow|]. split; [apply Hsame; discriminate|].
    split; [exact Hnotes|]. by vm_compute.
Defined.

(** C9, as the specification words it, fails: the second of two
    identical [update_status] calls changes [updated_at], a column other
    than [notes]. *)
Lemma C9_counterexample :
  ∃ st1 st2 r1 r2,
    update_status Sample.clock1 Sample.table 1 ACKNOWLEDGED None None
    = Ok (true, st1)
    ∧ st1 !! 1 = Some r1
    ∧ update_status Sample.clock2 st1 1 ACKNOWLEDGED None None = Ok (true, st2)
    ∧ st2 !! 1 = Some r2
    ∧ updated_at r1 ≠ updated_at r2
    ∧ ¬ Spec.same_but_notes r1 r2.
Proof.
  eexists _, _, _, _.
  split; [by vm_compute|]. split; [by vm_compute|].
  split; [by vm_compute|]. split; [by vm_compute|].
  split; [by vm_compute|].
  intros H. apply (f_equal updated_at) in H. by vm_compute in H.
Qed.

End Repetition.


(** ** The store: adding and looking up *)

Section StoreAdd.
Import DateTime Tracker.

(** X1.  What [add_rti] stores, [get_by_id] returns: the dict of the new
    id carries the supplied fields unchanged, status [filed], the filing
    date and the response deadline 30 days after it. *)
Theorem add_rti_get_by_id (c c' : clock) (st st' : store)
    (ac an ap su : string) (qs : list string) (fd : option datetime)
    (fee : Z) (sta dis ft ref : option string) (kw : Kwargs) (id : Z) :
  add_rti c st ac an ap su qs fd fee sta dis ft ref kw = Ok (id, st') →
  ∃ d dl,
    get_by_id c' st' id = Ok (Some d)
    ∧ add_days (default (now c) fd) 30 = Ok dl
    ∧ d_id d = id
    ∧ (d_agency_code d, d_agency_name d, d_applicant_name d, d_subject d)
      = (ac, an, ap, su)
    ∧ d_questions d = qs
    ∧ (d_state d, d_district d, d_reference_number d) = (sta, dis, ref)
    ∧ d_fee_amount d = fee
    ∧ d_status d = Some "filed"
    ∧ d_filing_date d = Some (isoformat (default (now c) fd))
    ∧ d_response_deadline d = Some (isoformat dl)
    ∧ d_response_date d = isoformat <$> kw_response_date kw
    ∧ d_notes d = kw_notes kw.
Proof.
  unfold add_rti.
  replace (match fd with Some d => d | None => now c end)
    with (default (now c) fd) by by destruct fd.
  destruct (add_days _ 30) as [dl|e] eqn:Hdl; [|discriminate].
  cbn [mbind result_bind rbind].
  intros H. apply insert_row_inv in H as [_ ->].
  unfold get_by_id. rewrite lookup_insert_eq.
  eexists _, dl. split; [reflexivity|]. split; [done|].
  cbn [record_to_dict d_id d_agency_code d_agency_name d_applicant_name
       d_subject d_questions d_state d_district d_reference_number
       d_fee_amount d_status d_filing_date d_response_deadline
       d_response_date d_notes
       reference_number agency_code agency_name applicant_name subject
       questions_json state district fee_amount status filing_date
       response_deadline response_date notes DateTime.truthy status_value].
  done.
Qed.

Lemma add_rti_get_by_id_witness :
  ∃ d, get_by_id Sample.clock2
         (<[ 2 := Sample.record ]> Sample.table) 2 = Ok (Some d)
       ∧ d_subject d = "Test" ∧ d_status d = Some "filed"
       ∧ d_response_deadline d = Some "2026-01-31T00:00:00".
Proof.
  destruct (add_rti_get_by_id Sample.clock1 Sample.clock2 Sample.table
              (<[ 2 := Sample.record ]> Sample.table)
              "awbi" "AWBI" "Test" "Test" ["Q1"] (Some (of_ymd 2026 1 1))
              10 None None None None Sample.kwargs_created 2)
    as (d & dl & Hget & Hdl & _ & Hs & _ & _ & _ & Hst & _ & Hrd & _).
  - by vm_compute.
  - exists d. split; [exact Hget|].
    injection Hs as _ _ _ Hsu. split; [exact Hsu|]. split; [exact Hst|].
    rewrite Hrd. vm_compute in Hdl. injection Hdl as <-. by vm_compute.
Defined.

(** The id of the row [insert_row] adds. *)
Lemma insert_row_id (st st' : store) (o : option Z) (r : RTIRecord) (id : Z) :
  insert_row st o r = Ok (id, st') → id = default (next_id st) o.
Proof.
  unfold insert_row.
  destruct (negb _); [discriminate|].
  destruct (reference_taken st (reference_number r)); [discriminate|].
  destruct o as [i|]; [|by intros [= <- _]].
  destruct (st !! i); [discriminate|]. by intros [= <- _].
Qed.

(** X2.  [add_rti] never touches an existing row: the id it returns was
    free, every other id keeps its row, and the table grows by one.  An
    explicit id is a 64-bit integer and is the id returned.  Without an
    explicit id, and while every id in use is below [2 ^ 63 - 1], the
    new id is above every id in use. *)
Theorem add_rti_frame (c : clock) (st st' : store)
    (ac an ap su : string) (qs : list string) (fd : option datetime)
    (fee : Z) (sta dis ft ref : option string) (kw : Kwargs) (id : Z) :
  add_rti c st ac an ap su qs fd fee sta dis ft ref kw = Ok (id, st') →
  st !! id = None
  ∧ (∀ j, j ≠ id → st' !! j = st !! j)
  ∧ size st' = S (size st)
  ∧ (kw_id kw = None →
     (∀ j, is_Some (st !! j) → j < 2 ^ 63 - 1) →
     ∀ j, is_Some (st !! j) → j < id)
  ∧ (∀ i, kw_id kw = Some i → id = i ∧ - 2 ^ 63 ≤ i < 2 ^ 63).
Proof.
  unfold add_rti.
  destruct (add_days _ 30) as [dl|e]; [|discriminate].
  cbn [mbind result_bind rbind]. intros H.
  pose proof (insert_row_inv _ _ _ _ _ H) as [Hfresh ->].
  pose proof (insert_row_id _ _ _ _ _ H) as Hid.
  pose proof (insert_row_bound _ _ _ _ _ H) as [_ Hint].
  split; [done|]. split; [|split; [|split]].
  - intros j Hj. by rewrite lookup_insert_ne.
  - by rewrite map_size_insert_None.
  - intros Hkw _ j Hj. rewrite Hkw in Hid. cbn in Hid.
    destruct (max_key_bound st j Hj) as (m & Hm & Hle).
    rewrite Hid. unfold next_id. rewrite Hm. lia.
  - intros i Hkw. rewrite Hkw in Hid. cbn in Hid.
    split; [done|]. apply sqlite_int_spec. by apply Hint.
Qed.

Lemma add_rti_frame_witness :
  Sample.table !! 2 = None
  ∧ size (<[ 2 := Sample.record ]> Sample.table) = 2%nat.
Proof.
  destruct (add_rti_frame Sample.clock1 Sample.table
              (<[ 2 := Sample.record ]> Sample.table)
              "awbi" "AWBI" "Test" "Test" ["Q1"] (Some (of_ymd 2026 1 1))
              10 None None None None Sample.kwargs_created 2)
    as (H1 & _ & H3 & _).
  - by vm_compute.
  - by split.
Defined.

Lemma reference_taken_spec (st : store) (x : string) :
  reference_taken st (Some x) = true
  ↔ ∃ i r, st !! i = Some r ∧ reference_number r = Some x.
Proof.
  unfold reference_taken. rewrite bool_decide_eq_true.
  by rewrite map_Exists_lookup.
Qed.



End StoreAdd.


(** ** The store: what the mutators keep *)

Section StoreMutators.
Import DateTime Tracker.

(** A row in constructor form under setters and projections, computed
    by value. *)
Ltac rows :=
  cbv beta iota zeta delta [
    set_status set_updated_at set_notes set_response_summary
    set_response_date set_documents_received set_first_appeal_date
    set_first_appeal_authority set_first_appeal_deadline
    set_second_appeal_date set_second_appeal_authority
    set_second_appeal_deadline reference_number agency_code agency_name
    pio_name pio_address applicant_name subject questions_json full_text
    state district filing_date fee_amount fee_mode fee_receipt status is_bpl
    acknowledgment_date response_date transfer_date transferred_to
    response_deadline first_appeal_deadline second_appeal_deadline
    first_appeal_date first_appeal_authority first_appeal_decision_date
    first_appeal_outcome second_appeal_date second_appeal_authority
    second_appeal_decision_date second_appeal_outcome notes response_summary
    documents_received created_at updated_at Store.filing Store.target
    append_note ].

(** On an existing row a mutator that returns has written one row, with
    the filing columns as they were and its own status. *)
Lemma run_row (c : clock) (st st' : store) (id : Z) (k : Store.call)
    (b : bool) (r : RTIRecord) :
  st !! id = Some r →
  Store.run c st id k = Ok (b, st') →
  b = true
  ∧ ∃ r', st' = <[id := r']> st
          ∧ Store.filing r' = Store.filing r
          ∧ status r' = Store.target k.
Proof.
  intros Hr H.
  destruct k as [s n rs|su docs rd|au d n|d co n]; cbn [Store.run] in H.
  - unfold update_status in H. rewrite Hr in H. injection H as <- <-.
    split; [done|]. eexists. split; [reflexivity|].
    destruct r, (Py.otruthy n), (Py.otruthy rs), (decide (s = RESPONSE_RECEIVED));
      rows; by split.
  - unfold mark_response_received in H. rewrite Hr in H. injection H as <- <-.
    split; [done|]. eexists. split; [reflexivity|].
    destruct r, docs as [[|doc docs]|]; rows; by split.
  - unfold file_first_appeal in H. rewrite Hr in H.
    destruct (add_days _ 30) as [dl|] in H; [|discriminate H].
    cbn [mbind result_bind rbind] in H. injection H as <- <-.
    split; [done|]. eexists. split; [reflexivity|].
    destruct r, (Py.otruthy n); rows; by split.
  - unfold file_second_appeal in H. rewrite Hr in H.
    destruct (add_days _ 90) as [dl|] in H; [|discriminate H].
    cbn [mbind result_bind rbind] in H. injection H as <- <-.
    split; [done|]. eexists. split; [reflexivity|].
    destruct r, (Py.otruthy n); rows; by split.
Qed.

Lemma run_missing (c : clock) (st : store) (id : Z) (k : Store.call) :
  st !! id = None → Store.run c st id k = missing id (false, st).
Proof.
  intros H. destruct k; cbn [Store.run];
    unfold update_status, mark_response_received, file_first_appeal,
      file_second_appeal; by rewrite H.
Qed.

(** X4.  A mutator changes at most the row it is called on: it reports
    [True] exactly when the id has a row, the set of ids stays as it is,
    every other row is untouched, and in the row itself the filing
    columns keep their values while the status becomes the one of the
    call. *)
Theorem mutator_frame (c : clock) (st st' : store) (id : Z) (k : Store.call)
    (b : bool) :
  Store.run c st id k = Ok (b, st') →
  (b = true ↔ is_Some (st !! id))
  ∧ dom st' = dom st
  ∧ (∀ j, j ≠ id → st' !! j = st !! j)
  ∧ (∀ r, st !! id = Some r →
       ∃ r', st' !! id = Some r'
             ∧ Store.filing r' = Store.filing r
             ∧ status r' = Store.target k).
Proof.
  intros H. destruct (st !! id) as [r|] eqn:Hr.
  - destruct (run_row c st st' id k b r Hr H) as (-> & r' & -> & Hf & Hs).
    split; [by split; [eexists|]|]. split; [|split].
    + apply dom_insert_lookup_L. by eexists.
    + intros j Hj. by rewrite lookup_insert_ne.
    + intros r0 [= <-]. exists r'. by rewrite lookup_insert_eq.
  - rewrite (run_missing c st id k Hr) in H. unfold missing in H.
    destruct (sqlite_int id); [|discriminate H]. injection H as <- <-.
    split; [split; [done|by intros [x [=]]]|].
    split; [done|]. split; [done|]. by intros r [=].
Qed.

Lemma mutator_frame_witness :
  dom Sample.table_responded = dom Sample.table
  ∧ ∃ r', Sample.table_responded !! 1 = Some r'
          ∧ Store.filing r' = Store.filing Sample.record
          ∧ status r' = RESPONSE_RECEIVED.
Proof.
  destruct (mutator_frame Sample.clock1 Sample.table Sample.table_responded 1
              (Store.MarkResponseReceived "Received partial data" None None)
              true) as (_ & Hd & _ & Hrow).
  - by vm_compute.
  - split; [exact Hd|]. apply (Hrow Sample.record). by vm_compute.
Defined.





Lemma add_rti_reference_free (c : clock) (st st' : store)
    (ac an ap su : string) (qs : list string) (fd : option datetime)
    (fee : Z) (sta dis ft ref : option string) (kw : Kwargs) (id : Z) :
  add_rti c st ac an ap su qs fd fee sta dis ft ref kw = Ok (id, st') →
  reference_taken st ref = false.
Proof.
  unfold add_rti. destruct (add_days _ 30) as [dl|]; [|discriminate].
  cbn [mbind result_bind rbind]. unfold insert_row. cbn [reference_number].
  destruct (negb _); [discriminate|].
  by destruct (reference_taken st ref).
Qed.

Lemma reachable_deadlines_kept (st : store) :
  Store.reachable st → Store.deadlines_kept st.
Proof.
  induction 1 as [|c st st' ac an ap su qs fd fee sta dis ft ref kw id _ IHd Hadd
                  |c st st' id k b _ IHd Hrun].
  - intros id r. by rewrite lookup_empty.
  - apply add_rti_inv in Hadd as (r0 & Hnone & -> & _ & _ & Hdl & _).
    intros j r. rewrite lookup_insert. case_decide as Hj.
    + by intros [= <-].
    + apply IHd.
  - destruct (st !! id) as [r|] eqn:Hr.
    + destruct (run_row c st st' id k b r Hr Hrun) as (_ & r' & -> & Hf & _).
      assert (Hfd : filing_date r' = filing_date r
                    ∧ response_deadline r' = response_deadline r).
      { unfold Store.filing in Hf. by injection Hf as _ _ _ _ _ _ _ _ _ -> -> _ _. }
      destruct Hfd as (Hfd & Hrd).
      intros j r0. rewrite lookup_insert. case_decide as Hj.
      * intros [= <-]. rewrite Hfd, Hrd. subst j. by apply (IHd id).
      * apply IHd.
    + rewrite (run_missing c st id k Hr) in Hrun. unfold missing in Hrun.
      destruct (sqlite_int id); [|discriminate Hrun].
      by injection Hrun as _ <-.
Qed.

(** X6.  In every store the tracker can reach, each row's response
    deadline is its filing date plus 30 days, and no two rows share a
    reference number. *)
Theorem reachable_invariants (st : store) :
  Store.reachable st →
  Store.deadlines_kept st ∧ Store.references_unique st.
Proof.
  induction 1 as [|c st st' ac an ap su qs fd fee sta dis ft ref kw id _ [IHd IHu] Hadd
                  |c st st' id k b _ [IHd IHu] Hrun].
  - split; [intros id r|intros i j r r' x]; by rewrite lookup_empty.
  - pose proof (add_rti_reference_free _ _ _ _ _ _ _ _ _ _ _ _ _ _ _ _ Hadd) as Hfree.
    apply add_rti_inv in Hadd
      as (r0 & Hnone & -> & _ & _ & Hdl & _ & _ & _ & Href).
    assert (Hclash : ∀ j r' x, st !! j = Some r' → reference_number r' = Some x →
                       ref ≠ Some x).
    { intros j r' x Hj Hx ->.
      assert (reference_taken st (Some x) = true); [|congruence].
      apply reference_taken_spec. by exists j, r'. }
    split.
    + intros j r. rewrite lookup_insert. case_decide as Hj.
      * by intros [= <-].
      * apply IHd.
    + intros i j r r' x. rewrite !lookup_insert.
      case_decide as Hi; case_decide as Hj; try congruence.
      * intros [= <-] Hj' Hx Hx'. rewrite Href in Hx.
        by destruct (Hclash j r' x Hj' Hx').
      * intros Hi' [= <-] Hx Hx'. rewrite Href in Hx'.
        by destruct (Hclash i r x Hi' Hx).
      * apply IHu.
  - destruct (st !! id) as [r|] eqn:Hr.
    + destruct (run_row c st st' id k b r Hr Hrun) as (_ & r' & -> & Hf & _).
      assert (Hfd : filing_date r' = filing_date r
                    ∧ response_deadline r' = response_deadline r
                    ∧ reference_number r' = reference_number r).
      { unfold Store.filing in Hf. by injection Hf as -> _ _ _ _ _ _ _ _ -> -> _ _. }
      destruct Hfd as (Hfd & Hrd & Hrn).
      split.
      * intros j r0. rewrite lookup_insert. case_decide as Hj.
        -- intros [= <-]. rewrite Hfd, Hrd. subst j. by apply (IHd id).
        -- apply IHd.
      * intros i j r1 r2 x. rewrite !lookup_insert.
        case_decide as Hi; case_decide as Hj; try congruence.
        -- intros [= <-] Hj' Hx Hx'. rewrite Hrn in Hx. subst i.
           by apply (IHu id j r r2 x).
        -- intros Hi' [= <-] Hx Hx'. rewrite Hrn in Hx'. subst j.
           by apply (IHu i id r1 r x).
        -- apply IHu.
    + rewrite (run_missing c st id k Hr) in Hrun. unfold missing in Hrun.
      destruct (sqlite_int id); [|discriminate Hrun].
      by injection Hrun as _ <-.
Qed.

Lemma reachable_invariants_witness :
  Store.deadlines_kept Sample.table ∧ Store.references_unique Sample.table.
Proof.
  apply reachable_invariants.
  eapply (Store.reach_add Sample.clock1 ∅ Sample.table
            "awbi" "AWBI" "Test" "Test" ["Q1"] (Some (of_ymd 2026 1 1))
            10 None None None None Sample.kwargs_first 1).
  - apply Store.reach_empty.
  - by vm_compute.
Defined.

End StoreMutators.


(** ** The queries *)

Section Queries.
Import DateTime Tracker.

Lemma upcoming_row_spec (c : clock) (cutoff : datetime) (r : RTIRecord) :
  upcoming_row c cutoff r = true
  ↔ stamp (now c) ≤ stamp (response_deadline r) ≤ stamp cutoff
    ∧ (status r = FILED ∨ status r = ACKNOWLEDGED).
Proof.
  unfold upcoming_row, leb.
  rewrite !andb_true_iff, !Z.leb_le, awaiting_spec. tauto.
Qed.

Lemma elem_of_get_overdue (c : clock) (st : store) (d : RTIDict) :
  d ∈ get_overdue c st
  ↔ ∃ id r, st !! id = Some r ∧ d = record_to_dict c id r
            ∧ stamp (response_deadline r) < stamp (now c)
            ∧ (status r = FILED ∨ status r = ACKNOWLEDGED).
Proof.
  unfold get_overdue. rewrite elem_of_select.
  split; intros (id & r & Hr & H1 & H2); exists id, r.
  - apply overdue_row_spec in H1 as [Hlt Hs]. by rewrite H2.
  - destruct H2 as (Hlt & Hs). split; [done|]. split; [|done].
    by apply overdue_row_spec.
Qed.

Lemma upcoming_returns (c : clock) (st : store) (days : Z) :
  returns (get_upcoming_deadlines c st days)
  ↔ 0 < ordinal (now c) + days ≤ MAXORDINAL.
Proof.
  unfold get_upcoming_deadlines.
  destruct (add_days (now c) days) as [cutoff|e] eqn:Hc;
    cbn [mbind result_bind rbind].
  - apply add_days_inv in Hc as (_ & _ & Hrange).
    split; [done|by eexists].
  - split; [by intros [l [=]]|].
    intros Hrange. by rewrite add_days_ok in Hc.
Qed.

Lemma elem_of_upcoming (c : clock) (st : store) (days : Z)
    (l : list RTIDict) (d : RTIDict) :
  get_upcoming_deadlines c st days = Ok l →
  d ∈ l
  ↔ ∃ id r, st !! id = Some r ∧ d = record_to_dict c id r
            ∧ stamp (now c) ≤ stamp (response_deadline r)
              ≤ stamp (now c) + days * DAY_MICROS
            ∧ (status r = FILED ∨ status r = ACKNOWLEDGED).
Proof.
  unfold get_upcoming_deadlines.
  destruct (add_days (now c) days) as [cutoff|e] eqn:Hc;
    cbn [mbind result_bind rbind]; [|discriminate].
  apply add_days_inv in Hc as (Ho & Hm & Hrange).
  assert (Hcut : stamp cutoff = stamp (now c) + days * DAY_MICROS).
  { unfold stamp. rewrite Ho, Hm. lia. }
  intros [= <-]. rewrite elem_of_select. rewrite <- Hcut.
  split; intros (id & r & Hr & H1 & H2); exists id, r.
  - apply upcoming_row_spec in H1. by destruct H1.
  - destruct H2 as [H2 H3]. split; [done|]. split; [|done].
    by apply upcoming_row_spec.
Qed.

(** X7.  [get_upcoming_deadlines(days)] returns exactly the records that
    still wait for a response ([filed] or [acknowledged]) and whose
    deadline lies between now and now plus [days], both ends included.
    A negative [days] gives the empty list, and the call raises
    [OverflowError] exactly when now plus [days] is outside the
    calendar. *)
Theorem upcoming_deadlines_exact (c : clock) (st : store) (days : Z) :
  (returns (get_upcoming_deadlines c st days)
   ↔ 0 < ordinal (now c) + days ≤ MAXORDINAL)
  ∧ (∀ e, get_upcoming_deadlines c st days = Raise e → e = OverflowError)
  ∧ (∀ l, get_upcoming_deadlines c st days = Ok l →
       (∀ d, d ∈ l
             ↔ ∃ id r, st !! id = Some r ∧ d = record_to_dict c id r
                 ∧ stamp (now c) ≤ stamp (response_deadline r)
                   ≤ stamp (now c) + days * DAY_MICROS
                 ∧ (status r = FILED ∨ status r = ACKNOWLEDGED))
       ∧ (days < 0 → l = [])).
Proof.
  unfold get_upcoming_deadlines.
  destruct (add_days (now c) days) as [cutoff|e] eqn:Hc;
    cbn [mbind result_bind rbind].
  - apply add_days_inv in Hc as (Ho & Hm & Hrange).
    assert (Hcut : stamp cutoff = stamp (now c) + days * DAY_MICROS).
    { unfold stamp. rewrite Ho, Hm. lia. }
    split; [split; [done|by eexists]|]. split; [done|].
    intros l [= <-].
    assert (Hiff : ∀ d, d ∈ select c st (upcoming_row c cutoff)
             ↔ ∃ id r, st !! id = Some r ∧ d = record_to_dict c id r
                 ∧ stamp (now c) ≤ stamp (response_deadline r)
                   ≤ stamp (now c) + days * DAY_MICROS
                 ∧ (status r = FILED ∨ status r = ACKNOWLEDGED)).
    { intros d. rewrite elem_of_select. rewrite <- Hcut.
      split; intros (id & r & Hr & H1 & H2); exists id, r.
      - apply upcoming_row_spec in H1. by destruct H1.
      - destruct H2 as [H2 H3]. split; [done|]. split; [|done].
        by apply upcoming_row_spec. }
    split; [exact Hiff|].
    intros Hneg. apply elem_of_nil_inv. intros d Hd.
    apply Hiff in Hd as (id & r & _ & _ & Hd & _).
    unfold DAY_MICROS in Hd. lia.
  - pose proof (add_days_raises _ _ _ Hc) as ->.
    split; [|split; [by intros e [= <-]|done]].
    split; [by intros [l [=]]|].
    intros Hrange. by rewrite add_days_ok in Hc.
Qed.

(** The request filed 25 days before [clock1] is due within 7 days. *)
Lemma upcoming_deadlines_exact_witness :
  ∃ l d, get_upcoming_deadlines Sample.clock1 Sample.table_recent 7 = Ok l
         ∧ d ∈ l ∧ d_id d = 1
         ∧ get_upcoming_deadlines Sample.clock1 Sample.table_recent (-1) = Ok [].
Proof.
  destruct (upcoming_deadlines_exact Sample.clock1 Sample.table_recent 7)
    as (Hret & _ & Hl).
  destruct (upcoming_deadlines_exact Sample.clock1 Sample.table_recent (-1))
    as (Hret' & _ & Hl').
  destruct Hret as [_ [l El]]; [by vm_compute|].
  destruct Hret' as [_ [l' El']]; [by vm_compute|].
  exists l, (record_to_dict Sample.clock1 1 Sample.recent).
  split; [exact El|]. split; [|split; [done|]].
  - apply (Hl l El). exists 1, Sample.recent.
    split; [by vm_compute|]. split; [done|].
    split; [by vm_compute|by left].
  - rewrite El'. f_equal. by apply (Hl' l' El').
Defined.

(** X8.  The [is_overdue] entry of a record's dict and the list of
    [get_overdue] agree across readings of the clock.  A record whose
    dict says overdue at one reading is listed by [get_overdue] at every
    reading that is not earlier; a record [get_overdue] lists is
    reported overdue by every dict built at a reading that is not
    earlier; and a record listed as upcoming at one reading is not
    listed as overdue at any reading up to it. *)
Theorem overdue_flag (c c' : clock) (st : store) :
  stamp (now c) ≤ stamp (now c') →
  (∀ id d, get_by_id c st id = Ok (Some d) → d_is_overdue d = true →
     ∃ d', d' ∈ get_overdue c' st ∧ d_id d' = id)
  ∧ (∀ d, d ∈ get_overdue c st →
       ∃ d', get_by_id c' st (d_id d) = Ok (Some d')
             ∧ d_is_overdue d' = true)
  ∧ (∀ days l d, get_upcoming_deadlines c' st days = Ok l → d ∈ l →
       ∀ d', d' ∈ get_overdue c st → d_id d' ≠ d_id d).
Proof.
  intros Hlater. split; [|split].
  - intros id d. unfold get_by_id.
    destruct (st !! id) as [r|] eqn:Hr;
      [|unfold missing; by destruct (sqlite_int id)].
    intros [= <-]. cbn [d_is_overdue record_to_dict]. intros Hp.
    apply overdue_row_spec in Hp as [Hlt Hs].
    exists (record_to_dict c' id r). split; [|done].
    apply elem_of_get_overdue. exists id, r.
    split; [done|]. split; [done|]. split; [lia|done].
  - intros d Hd.
    apply elem_of_get_overdue in Hd as (id & r & Hr & -> & Hlt & Hs).
    exists (record_to_dict c' id r). cbn [d_id record_to_dict].
    unfold get_by_id. rewrite Hr. split; [done|].
    apply overdue_row_spec. split; [lia|done].
  - intros days l d Hl Hd d' Hd' Hid.
    apply (elem_of_upcoming c' st days l d Hl) in Hd
      as (id & r & Hr & -> & [Hlo _] & _).
    apply elem_of_get_overdue in Hd' as (id' & r' & Hr' & -> & Hlt & _).
    cbn [d_id record_to_dict] in Hid. subst id'.
    assert (r' = r) by congruence. subst r'. lia.
Qed.

(** The request filed on 2026-01-01 is overdue on 2026-03-01 and still
    so on 2026-06-04. *)
Lemma overdue_flag_witness :
  ∃ d', d' ∈ get_overdue Sample.clock2 Sample.table ∧ d_id d' = 1.
Proof.
  destruct (overdue_flag Sample.clock1 Sample.clock2 Sample.table)
    as (H & _ & _); [by vm_compute|].
  apply (H 1 (record_to_dict Sample.clock1 1 Sample.record));
    by vm_compute.
Defined.

(** X9.  In a store the tracker can reach, a record that [get_overdue]
    lists was filed at least 30 whole days ago, so the days overdue the
    command line prints ([days_since_filing - 30]) are never negative; a
    record listed as upcoming was filed at most 30 days ago. *)
Theorem overdue_days (c : clock) (st : store) :
  Store.reachable st →
  (∀ d, d ∈ get_overdue c st →
     ∃ n, d_days_since_filing d = Some n ∧ 0 ≤ n - 30)
  ∧ (∀ days l d, get_upcoming_deadlines c st days = Ok l → d ∈ l →
       ∃ n, d_days_since_filing d = Some n ∧ n ≤ 30).
Proof.
  intros Hreach. apply reachable_deadlines_kept in Hreach as Hkept.
  split.
  - intros d Hd. apply elem_of_get_overdue in Hd as (id & r & Hr & -> & Hlt & _).
    eexists. split; [reflexivity|].
    apply Hkept in Hr. apply add_days_inv in Hr as (Ho & Hm & _).
    unfold days_between. revert Hlt. unfold stamp. rewrite Ho, Hm.
    unfold DAY_MICROS. intros Hlt.
    assert (30 ≤ (ordinal (now c) * 86400000000 + micros (now c)
                  - (ordinal (filing_date r) * 86400000000
                     + micros (filing_date r))) / 86400000000); [|lia].
    apply Z.div_le_lower_bound; lia.
  - intros days l d Hl Hd.
    apply (elem_of_upcoming c st days l d Hl) in Hd
      as (id & r & Hr & -> & [Hlo _] & _).
    eexists. split; [reflexivity|].
    apply Hkept in Hr. apply add_days_inv in Hr as (Ho & Hm & _).
    unfold days_between. revert Hlo. unfold stamp. rewrite Ho, Hm.
    unfold DAY_MICROS. intros Hlo.
    apply Z.div_le_upper_bound; lia.
Qed.

Lemma overdue_days_witness :
  ∃ n, d_days_since_filing (record_to_dict Sample.clock1 1 Sample.record) = Some n
       ∧ 0 ≤ n - 30.
Proof.
  destruct (overdue_days Sample.clock1 Sample.table) as [H _].
  - eapply (Store.reach_add Sample.clock1 ∅ Sample.table
              "awbi" "AWBI" "Test" "Test" ["Q1"] (Some (of_ymd 2026 1 1))
              10 None None None None Sample.kwargs_first 1).
    + apply Store.reach_empty.
    + by vm_compute.
  - apply H. apply elem_of_get_overdue. exists 1, Sample.record.
    split; [by vm_compute|]. split; [done|]. split; [by vm_compute|by left].
Defined.



(** *** Ordered queries *)

#[local] Instance newer_first_total : Total newer_first.
Proof. intros a b. unfold newer_first. lia. Qed.

#[local] Instance newer_first_trans : Transitive newer_first.
Proof. intros a b d. unfold newer_first. lia. Qed.

Lemma newer_first_days (c : clock) (a b : Z * RTIRecord) :
  newer_first a b →
  Store.days_since (record_to_dict c a.1 a.2)
  ≤ Store.days_since (record_to_dict c b.1 b.2).
Proof.
  unfold newer_first, Store.days_since.
  cbn [d_days_since_filing record_to_dict from_option Datatypes.id].
  unfold days_between, DAY_MICROS. intros H. apply Z.div_le_mono; lia.
Qed.

Lemma elem_of_select_ordered (c : clock) (st : store) (p : RTIRecord → bool)
    (d : RTIDict) :
  d ∈ select_ordered c st p
  ↔ ∃ id r, st !! id = Some r ∧ p r = true ∧ d = record_to_dict c id r.
Proof.
  unfold select_ordered. rewrite list_elem_of_fmap. split.
  - intros ([id r] & -> & Hin). rewrite merge_sort_Permutation in Hin.
    apply list_elem_of_filter in Hin as [Hp Hin].
    apply elem_of_map_to_list in Hin. by exists id, r.
  - intros (id & r & Hr & Hp & ->). exists (id, r). split; [done|].
    rewrite merge_sort_Permutation.
    apply list_elem_of_filter. split; [done|]. by apply elem_of_map_to_list.
Qed.

Lemma select_ordered_sorted (c : clock) (st : store) (p : RTIRecord → bool) :
  StronglySorted (λ a b, Store.days_since a ≤ Store.days_since b)
    (select_ordered c st p).
Proof.
  unfold select_ordered.
  apply (StronglySorted_fmap _ newer_first); [apply newer_first_days|].
  apply StronglySorted_merge_sort; apply _.
Qed.

Lemma select_ordered_length (c : clock) (st : store) (p : RTIRecord → bool) :
  (length (select_ordered c st p) ≤ size st)%nat
  ∧ ((∀ r, p r = true) → length (select_ordered c st p) = size st).
Proof.
  unfold select_ordered. rewrite length_fmap, merge_sort_Permutation.
  rewrite <- (length_map_to_list st). split; [apply length_filter|].
  intros Hp. f_equal. induction (map_to_list st) as [|row l IH]; [done|].
  rewrite filter_cons, decide_True by apply Hp. by rewrite IH.
Qed.

(** X11.  [get_all] returns every record once when no status is given
    and exactly the records of the given status otherwise, the most
    recently filed first: down the list the age in days never
    decreases. *)
Theorem get_all_ordered (c : clock) (st : store) (status : option RTIStatus) :
  (∀ d, d ∈ get_all c st status
        ↔ ∃ id r, st !! id = Some r ∧ d = record_to_dict c id r
                  ∧ (∀ s, status = Some s → Tracker.status r = s))
  ∧ StronglySorted (λ a b, Store.days_since a ≤ Store.days_since b)
      (get_all c st status)
  ∧ (length (get_all c st status) ≤ size st)%nat
  ∧ length (get_all c st None) = size st
  ∧ (∀ s d, status = Some s → d ∈ get_all c st status →
       d_status d = Some (status_value s) ∧ d ∈ get_all c st None).
Proof.
  assert (Hmem : ∀ status d, d ∈ get_all c st status
        ↔ ∃ id r, st !! id = Some r ∧ d = record_to_dict c id r
                  ∧ (∀ s, status = Some s → Tracker.status r = s)).
  { intros o d. unfold get_all. rewrite elem_of_select_ordered.
    split; intros (id & r & Hr & H1 & H2); exists id, r.
    - split; [done|]. split; [done|]. intros s ->.
      by apply bool_decide_eq_true in H1.
    - split; [done|]. split; [|done]. destruct o as [s|]; [|done].
      apply bool_decide_eq_true. by apply H2. }
  split; [apply Hmem|]. split; [apply select_ordered_sorted|].
  split; [apply select_ordered_length|].
  split; [by apply select_ordered_length|].
  intros s d -> Hd. apply Hmem in Hd as (id & r & Hr & -> & Hs).
  split.
  - cbn [d_status record_to_dict]. by rewrite (Hs s eq_refl).
  - apply Hmem. by exists id, r.
Qed.

(** X12.  [get_by_agency] returns exactly the records of the agency,
    all of them records [get_all] returns, the most recently filed
    first. *)
Theorem get_by_agency_ordered (c : clock) (st : store) (code : string) :
  (∀ d, d ∈ get_by_agency c st code
        ↔ ∃ id r, st !! id = Some r ∧ d = record_to_dict c id r
                  ∧ agency_code r = code)
  ∧ (∀ d, d ∈ get_by_agency c st code
          ↔ d ∈ get_all c st None ∧ d_agency_code d = code)
  ∧ StronglySorted (λ a b, Store.days_since a ≤ Store.days_since b)
      (get_by_agency c st code).
Proof.
  assert (Hmem : ∀ d, d ∈ get_by_agency c st code
        ↔ ∃ id r, st !! id = Some r ∧ d = record_to_dict c id r
                  ∧ agency_code r = code).
  { intros d. unfold get_by_agency. rewrite elem_of_select_ordered.
    split; intros (id & r & Hr & H1 & H2); exists id, r.
    - split; [done|]. split; [done|]. by apply bool_decide_eq_true in H1.
    - split; [done|]. split; [|done]. by apply bool_decide_eq_true. }
  split; [exact Hmem|]. split; [|apply select_ordered_sorted].
  intros d. rewrite Hmem. unfold get_all. rewrite elem_of_select_ordered.
  split.
  - intros (id & r & Hr & -> & Hc). split; [by exists id, r|exact Hc].
  - intros [(id & r & Hr & _ & ->) Hc]. by exists id, r.
Qed.

Lemma get_by_agency_ordered_witness :
  record_to_dict Sample.clock1 1 Sample.record
  ∈ get_by_agency Sample.clock1 Sample.table "awbi".
Proof.
  destruct (get_by_agency_ordered Sample.clock1 Sample.table "awbi")
    as (H & _ & _).
  apply H. exists 1, Sample.record. by split.
Defined.

Lemma get_all_ordered_witness :
  length (get_all Sample.clock1 Sample.table_responded (Some FILED)) = 0%nat
  ∧ length (get_all Sample.clock1 Sample.table_responded None) = 1%nat.
Proof.
  destruct (get_all_ordered Sample.clock1 Sample.table_responded (Some FILED))
    as (Hmem & _ & _ & Hall & _).
  split; [|by rewrite Hall].
  destruct (get_all Sample.clock1 Sample.table_responded (Some FILED))
    as [|d l] eqn:E; [done|].
  destruct (proj1 (Hmem d)) as (id & r & Hr & _ & Hs); [by left|].
  specialize (Hs FILED eq_refl).
  destruct (decide (id = 1)) as [->|Hne].
  - vm_compute in Hr. injection Hr as <-. discriminate Hs.
  - unfold Sample.table_responded, Sample.table in Hr.
    rewrite lookup_insert_ne, lookup_singleton_ne in Hr by done. discriminate Hr.
Defined.

(** *** Statistics *)

Lemma status_listed (x : RTIStatus) : x ∈ ALL_STATUSES.
Proof. destruct x; by apply (bool_decide_unpack _). Qed.

Lemma count_sum (rows : list (Z * RTIRecord)) :
  foldr Z.add 0
    ((λ s, Z.of_nat (length (filter (λ row : Z * RTIRecord, status row.2 = s) rows)))
       <$> ALL_STATUSES)
  = Z.of_nat (length rows).
Proof.
  induction rows as [|row rows IH]; [done|].
  unfold ALL_STATUSES in *. cbn [fmap list_fmap foldr] in *.
  rewrite !filter_cons.
  destruct (status row.2);
    repeat (first [rewrite decide_True by reflexivity
                  |rewrite decide_False by discriminate]);
    cbn [length]; lia.
Qed.

Lemma total_of_positive {A : Type} (g : A → Z) (k : A → string) (xs : list A) :
  (∀ x, 0 ≤ g x) →
  Store.total_of (omap (λ x, if 0 <? g x then Some (k x, g x) else None) xs)
  = foldr Z.add 0 (g <$> xs).
Proof.
  intros Hg. unfold Store.total_of.
  induction xs as [|x xs IH]; [done|].
  cbn [omap list_omap fmap list_fmap foldr].
  destruct (0 <? g x) eqn:E.
  - cbn [fmap list_fmap foldr snd]. by rewrite <- IH.
  - apply Z.ltb_ge in E. specialize (Hg x). rewrite <- IH.
    assert (g x = 0) as -> by lia. done.
Qed.

Lemma keys_sublist {A : Type} (g : A → Z) (k : A → string) (xs : list A) :
  (omap (λ x, if 0 <? g x then Some (k x, g x) else None) xs).*1
  `sublist_of` (k <$> xs).
Proof.
  induction xs as [|x xs IH]; [done|].
  cbn [omap list_omap fmap list_fmap].
  destruct (0 <? g x); cbn [fmap list_fmap fst]; by constructor.
Qed.

Lemma awaiting_rows (rows : list (Z * RTIRecord)) (P Q : Z * RTIRecord → Prop)
    `{∀ row, Decision (P row)} `{∀ row, Decision (Q row)} :
  (∀ row, P row → status row.2 = FILED ∨ status row.2 = ACKNOWLEDGED) →
  (∀ row, Q row → status row.2 = FILED ∨ status row.2 = ACKNOWLEDGED) →
  (∀ row, P row → Q row → False) →
  (length (filter P rows) + length (filter Q rows)
   ≤ length (filter (λ row : Z * RTIRecord, status row.2 = FILED) rows)
     + length (filter (λ row : Z * RTIRecord, status row.2 = ACKNOWLEDGED) rows)
   ≤ length rows)%nat.
Proof.
  intros HP HQ HPQ.
  induction rows as [|row rows IH]; [done|].
  rewrite !filter_cons.
  specialize (HP row). specialize (HQ row). specialize (HPQ row).
  repeat case_decide; cbn [length]; try lia; exfalso;
    intuition congruence.
Qed.

(** X13.  [get_stats]: the counts by status add up to the total, which
    is the number of stored records; a status is listed exactly when it
    has records, under its own name and once; the overdue and upcoming
    counts together never exceed the records that are [filed] or
    [acknowledged].  The call raises exactly when seven days from now is
    outside the calendar. *)
Theorem get_stats_consistent (c : clock) (st : store) :
  (returns (get_stats c st) ↔ 0 < ordinal (now c) + 7 ≤ MAXORDINAL)
  ∧ (∀ s, get_stats c st = Ok s →
       s_total s = Z.of_nat (size st)
       ∧ Store.total_of (s_by_status s) = s_total s
       ∧ (∀ key n, (key, n) ∈ s_by_status s
                   ↔ ∃ x, key = status_value x ∧ n = count_status st x ∧ 0 < n)
       ∧ NoDup (s_by_status s).*1
       ∧ s_overdue s = Z.of_nat (length (get_overdue c st))
       ∧ 0 ≤ s_upcoming_deadlines_7d s
       ∧ s_overdue s + s_upcoming_deadlines_7d s
         ≤ count_status st FILED + count_status st ACKNOWLEDGED
         ≤ s_total s).
Proof.
  pose proof (upcoming_returns c st 7) as Hret.
  unfold get_stats, get_upcoming_deadlines in *.
  destruct (add_days (now c) 7) as [cutoff|e] eqn:Hc;
    cbn [mbind result_bind rbind] in *.
  - split; [split; [intros _; apply Hret; by eexists|by eexists]|].
    intros s Hs.
    pose proof (f_equal (λ x, match x with Ok y => y | Raise _ => s end) Hs)
      as Es.
    cbv beta iota in Es. subst s. clear Hs.
    cbv beta iota zeta delta
      [s_total s_by_status s_overdue s_upcoming_deadlines_7d].
    split; [done|]. split; [|split; [|split; [|split; [done|split; [lia|]]]]].
    + rewrite (total_of_positive (count_status st) status_value)
        by (intros x; unfold count_status; lia).
      unfold count_status. rewrite count_sum. by rewrite length_map_to_list.
    + intros key n. rewrite list_elem_of_omap. split.
      * intros (x & _ & Hx). destruct (0 <? count_status st x) eqn:E; [|done].
        injection Hx as <- <-. apply Z.ltb_lt in E. by exists x.
      * intros (x & -> & -> & Hpos). exists x. split; [apply status_listed|].
        apply Z.ltb_lt in Hpos. by rewrite Hpos.
    + eapply sublist_NoDup; [|apply (keys_sublist (count_status st) status_value)].
      by apply (bool_decide_unpack _).
    + unfold get_overdue, select, count_status. rewrite !length_fmap.
      rewrite <- (length_map_to_list st).
      pose proof (awaiting_rows (map_to_list st)
                    (λ row, overdue_row c row.2 = true)
                    (λ row, upcoming_row c cutoff row.2 = true)) as H.
      destruct H as [H1 H2]; [| | |lia].
      * intros row Hp. by apply overdue_row_spec in Hp as [_ Hp].
      * intros row Hq. by apply upcoming_row_spec in Hq as [_ Hq].
      * intros row Hp Hq. apply overdue_row_spec in Hp as [Hp _].
        apply upcoming_row_spec in Hq as [[Hq _] _]. lia.
  - split; [|done]. split; [by intros [s [=]]|].
    intros Hrange. apply Hret in Hrange as [l [=]].
Qed.

(** One answered request: one record, listed under [response_received],
    none overdue. *)
Lemma get_stats_consistent_witness :
  ∃ s, get_stats Sample.clock1 Sample.table_responded = Ok s
       ∧ s_total s = 1
       ∧ Store.total_of (s_by_status s) = 1
       ∧ s_by_status s = [("response_received", 1)].
Proof.
  destruct (get_stats_consistent Sample.clock1 Sample.table_responded)
    as [Hret Hs].
  destruct Hret as [_ [s E]]; [by vm_compute|].
  exists s. split; [exact E|].
  destruct (Hs s E) as (Ht & Hsum & _).
  rewrite Hsum, Ht.
  split; [by vm_compute|]. split; [by vm_compute|].
  vm_compute in E. by injection E as <-.
Defined.

End Queries.


(** ** Rendering: errors, cache, language *)

Section Rendering.
Import DateTime Generator.

(** The month [_ord2ymd] computes is a month. *)
Lemma ord2ymd_month (n : Z) : 1 ≤ (ord2ymd n).1.2 ≤ 12.
Proof.
  unfold ord2ymd. cbv zeta.
  set (r := ((((n - 1) mod DI400Y) mod DI100Y) mod DI4Y) mod 365).
  assert (Hr : 0 ≤ r < 365) by (apply Z.mod_pos_bound; lia).
  destruct ((_ =? 4) || (_ =? 4)); [cbn [fst snd]; lia|].
  rewrite Z.shiftr_div_pow2 by lia. change (2 ^ 5) with 32.
  set (m := (r + 50) / 32).
  assert (Hm : 1 ≤ m ≤ 12).
  { unfold m. split; [apply Z.div_le_lower_bound; lia|].
    apply Z.lt_succ_r. apply Z.div_lt_upper_bound; lia. }
  match goal with |- context [if ?b then _ else _] => destruct b eqn:E end;
    cbn [fst snd]; [|lia].
  assert (m ≠ 1); [|lia].
  intros Hm1. rewrite Hm1 in E. cbn in E.
  change (table DAYS_BEFORE_MONTH 1) with 0 in E. apply Z.ltb_lt in E. lia.
Qed.

Lemma format_date_hindi_ok (d : datetime) : returns (format_date_hindi d).
Proof.
  unfold format_date_hindi, month.
  pose proof (ord2ymd_month (ordinal d)) as Hm.
  set (m := (ord2ymd (ordinal d)).1.2) in *.
  assert (Hcase : m = 1 ∨ m = 2 ∨ m = 3 ∨ m = 4 ∨ m = 5 ∨ m = 6 ∨ m = 7
                  ∨ m = 8 ∨ m = 9 ∨ m = 10 ∨ m = 11 ∨ m = 12) by lia.
  assert (Hname : ∃ name, months_hi !! m = Some name).
  { clearbody m.
    repeat (destruct Hcase as [->|Hcase]; [by eexists|]).
    rewrite Hcase. by eexists. }
  destruct Hname as [name ->]. by eexists.
Qed.

Lemma make_context_inv (a : RTIApplication) (ctx : Context) :
  make_context a = Ok ctx →
  ctx_app ctx = a
  ∧ ctx_agency ctx = AGENCY_DIRECTORY !! agency_code a
  ∧ ctx_fee ctx = fee_amount a
  ∧ ctx_date ctx = strftime_dmy (filing_date a)
  ∧ ∃ rd fad, add_days (filing_date a) 30 = Ok rd
              ∧ add_days rd 30 = Ok fad
              ∧ ctx_response_deadline ctx = strftime_dmy rd
              ∧ ctx_first_appeal_deadline ctx = strftime_dmy fad.
Proof.
  unfold make_context, first_appeal_deadline, response_deadline.
  destruct (format_date_hindi (filing_date a)) as [hi|];
    cbn [mbind result_bind rbind]; [|discriminate].
  destruct (add_days (filing_date a) 30) as [rd|];
    cbn [mbind result_bind rbind]; [|discriminate].
  destruct (add_days rd 30) as [fad|] eqn:Hfad;
    cbn [mbind result_bind rbind]; [|discriminate].
  intros R.
  pose proof (f_equal (λ x, match x with Ok y => y | Raise _ => ctx end) R) as E.
  cbv beta iota in E. subst ctx.
  cbn [ctx_app ctx_agency ctx_fee ctx_date ctx_response_deadline
       ctx_first_appeal_deadline].
  do 4 (split; [reflexivity|]). by exists rd, fad.
Qed.

(** X14.  [generate] fails only on the calendar: for a valid filing date
    it returns a text, whatever the agency code, the language and the
    questions, exactly when the first-appeal deadline (60 days after
    filing) is on or before 9999-12-31; otherwise it raises
    [OverflowError] and nothing else. *)
Theorem generate_total (a : RTIApplication) :
  valid (filing_date a) →
  (returns (generate a) ↔ ordinal (filing_date a) + 60 ≤ MAXORDINAL)
  ∧ (∀ e, generate a = Raise e → e = OverflowError).
Proof.
  intros [[Hlo Hhi] _].
  unfold generate, make_context, first_appeal_deadline, response_deadline.
  destruct (format_date_hindi_ok (filing_date a)) as [hi ->].
  cbn [mbind result_bind rbind].
  destruct (add_days (filing_date a) 30) as [rd|e] eqn:Hrd;
    cbn [mbind result_bind rbind].
  - apply add_days_inv in Hrd as (Ho & _ & _).
    destruct (add_days rd 30) as [fad|e] eqn:Hfad;
      cbn [mbind result_bind rbind].
    + apply add_days_inv in Hfad as (_ & _ & Hrange).
      split; [|done]. split; [lia|by eexists].
    + pose proof (add_days_raises _ _ _ Hfad) as ->.
      split; [|by intros e [= <-]].
      split; [by intros [x [=]]|].
      intros Hr. rewrite add_days_ok in Hfad by lia. discriminate.
  - pose proof (add_days_raises _ _ _ Hrd) as ->.
    split; [|by intros e [= <-]].
    split; [by intros [x [=]]|].
    intros Hr. rewrite add_days_ok in Hrd by lia. discriminate.
Qed.

Lemma generate_total_witness :
  returns (generate (set_language "hindi" Sample.application))
  ∧ generate (Sample.late_application) = Raise OverflowError.
Proof.
  split.
  - apply (generate_total (set_language "hindi" Sample.application));
      by vm_compute.
  - destruct (generate (Sample.late_application))
      as [p|e] eqn:E.
    + assert (Hret : returns (generate (Sample.late_application)))
        by by eexists.
      apply (generate_total (Sample.late_application)) in Hret;
        [|by vm_compute].
      by vm_compute in Hret.
    + f_equal.
      by apply (generate_total (Sample.late_application));
        [vm_compute|].
Defined.

(** The fees of the table are 10 and 20 rupees. *)
Lemma fees_values (k : string) (fee : Z) :
  FEES !! k = Some fee → fee = 10 ∨ fee = 20.
Proof.
  intros E. apply elem_of_list_to_map_2 in E.
  repeat (apply elem_of_cons in E as [E|E];
          [injection E as _ ->; (by left) || by right|]).
  by apply elem_of_nil in E.
Qed.

Lemma fee_amount_cases (a : RTIApplication) :
  (is_bpl a = true ∧ fee_amount a = 0)
  ∨ (is_bpl a = false ∧ (fee_amount a = 10 ∨ fee_amount a = 20)).
Proof.
  unfold fee_amount. destruct (is_bpl a); [by left|right].
  split; [done|].
  pose proof (category_fee_is_10 a) as Hc.
  destruct (state a) as [st|]; [|by left].
  destruct (Py.truthy st); [|by left].
  destruct (FEES !! state_key st) as [fee|] eqn:E; [|by left].
  by apply fees_values in E.
Qed.

(** X15.  The fee of an application is 0, 10 or 20 rupees, it is 0
    exactly for an applicant below the poverty line, and the English
    letter always spells it out in words: [Zero], [Ten] or [Twenty],
    never the digits [_number_to_words] falls back to. *)
Theorem fee_amount_in_words (a : RTIApplication) :
  (fee_amount a = 0 ↔ is_bpl a = true)
  ∧ ((fee_amount a = 0 ∧ number_to_words (fee_amount a) = "Zero")
     ∨ (fee_amount a = 10 ∧ number_to_words (fee_amount a) = "Ten")
     ∨ (fee_amount a = 20 ∧ number_to_words (fee_amount a) = "Twenty")).
Proof.
  destruct (fee_amount_cases a) as [[Hb ->]|[Hb [-> | ->]]]; rewrite Hb.
  - split; [done|]. by left.
  - split; [done|]. right; by left.
  - split; [done|]. right; by right.
Qed.

Lemma fee_amount_in_words_witness :
  number_to_words (fee_amount Sample.application) = "Ten".
Proof.
  destruct (fee_amount_in_words Sample.application)
    as [_ [[H _]|[[_ H]|[H _]]]]; [discriminate H|exact H|discriminate H].
Defined.

(** [generate] is [rendered] with the text written back. *)
Lemma generate_rendered (a : RTIApplication) :
  generate a = (t ← rendered a; Ok (t, set_generated_text t a)).
Proof.
  unfold rendered, generate.
  by destruct (make_context a) as [ctx|e].
Qed.

(** The text depends on the fields of [letter_fields] only. *)
Lemma rendered_letter_fields (a b : RTIApplication) :
  Requests.letter_fields a = Requests.letter_fields b →
  rendered a = rendered b.
Proof.
  destruct a, b. unfold Requests.letter_fields.
  cbn [agency_code questions applicant_name applicant_address
       applicant_phone applicant_email is_bpl bpl_certificate_number
       language state subject filing_date custom_pio_address].
  intros E. injection E as -> -> -> -> -> -> -> -> -> -> -> -> ->.
  unfold rendered, generate, make_context, first_appeal_deadline,
    response_deadline.
  cbn [filing_date].
  destruct (format_date_hindi _) as [hi|]; cbn [mbind result_bind rbind];
    [|done].
  destruct (add_days _ 30) as [rd|]; cbn [mbind result_bind rbind]; [|done].
  destruct (add_days rd 30) as [fad|]; cbn [mbind result_bind rbind]; [|done].
  reflexivity.
Qed.

(** X16.  When [generate] returns a text, the application it leaves
    behind is the one given with that text in [generated_text];
    generating again from it, or from the application with any other
    earlier text, gives the same text and the same application. *)
Theorem generate_cached (a a' : RTIApplication) (t : string) :
  generate a = Ok (t, a') →
  a' = set_generated_text t a
  ∧ generated_text a' = t
  ∧ generate a' = Ok (t, a')
  ∧ ∀ s, generate (set_generated_text s a) = Ok (t, a').
Proof.
  rewrite generate_rendered.
  destruct (rendered a) as [t0|e] eqn:Hr; cbn [mbind result_bind rbind];
    [|discriminate].
  intros E.
  assert (Ht : t0 = t) by congruence. subst t0.
  assert (Ha : a' = set_generated_text t a) by congruence.
  assert (Hs : ∀ s, generate (set_generated_text s a) = Ok (t, a')).
  { intros s. rewrite generate_rendered.
    rewrite (rendered_letter_fields (set_generated_text s a) a) by reflexivity.
    rewrite Hr. cbn [mbind result_bind rbind]. by rewrite Ha. }
  split; [exact Ha|]. split; [by rewrite Ha|].
  split; [|exact Hs]. rewrite Ha at 1. apply Hs.
Qed.

Lemma generate_cached_witness :
  ∃ t a', generate Sample.application = Ok (t, a')
          ∧ generate a' = Ok (t, a')
          ∧ generate Sample.annotated_application
            = Ok (t, set_generated_text t Sample.annotated_application).
Proof.
  destruct (generate Sample.application) as [[t a']|e] eqn:E;
    [|by vm_compute in E].
  exists t, a'. split; [done|].
  destruct (generate_cached Sample.application a' t E) as (_ & _ & H & _).
  split; [exact H|].
  rewrite generate_rendered.
  rewrite (rendered_letter_fields Sample.annotated_application
             Sample.application) by reflexivity.
  rewrite generate_rendered in E.
  destruct (rendered Sample.application) as [t0|]; [|done].
  cbn [mbind result_bind rbind] in E |- *. congruence.
Defined.

(** X17.  No renderer reads [district], [custom_pio_name] or
    [generated_text]: two applications that agree on every other field
    have the same fee and the same text, in every language and from
    every template. *)
Theorem rendering_ignores (a b : RTIApplication) :
  Requests.letter_fields a = Requests.letter_fields b →
  fee_amount a = fee_amount b
  ∧ rendered a = rendered b
  ∧ ∀ template,
      Requests.rendered_from_template template a
      = Requests.rendered_from_template template b.
Proof.
  intros E. split; [|split].
  - unfold Requests.letter_fields in E.
    injection E as Hac _ _ _ _ _ Hb _ _ Hs _ _ _.
    unfold fee_amount, category_fee. by rewrite Hac, Hb, Hs.
  - by apply rendered_letter_fields.
  - intros [text|]; [|done].
    unfold Requests.rendered_from_template, generate_from_template.
    rewrite extract_spec. cbn [mbind result_bind rbind].
    fold (rendered
            match omap Spec.question_of (Py.split Py.LF text) with
            | [] => a
            | _ :: _ =>
                set_questions (omap Spec.question_of (Py.split Py.LF text)) a
            end).
    fold (rendered
            match omap Spec.question_of (Py.split Py.LF text) with
            | [] => b
            | _ :: _ =>
                set_questions (omap Spec.question_of (Py.split Py.LF text)) b
            end).
    apply rendered_letter_fields.
    destruct (omap Spec.question_of (Py.split Py.LF text)); [exact E|].
    unfold Requests.letter_fields in *.
    cbn [agency_code questions applicant_name applicant_address
         applicant_phone applicant_email is_bpl bpl_certificate_number
         language state subject filing_date custom_pio_address
         set_questions].
    injection E as -> _ -> -> -> -> -> -> -> -> -> -> ->. reflexivity.
Qed.

Lemma rendering_ignores_witness :
  rendered Sample.annotated_application = rendered Sample.application.
Proof.
  by apply (rendering_ignores Sample.annotated_application Sample.application).
Defined.

(** X18.  The language is matched literally: every language other than
    [hindi] and [bilingual], whatever its case, gives the English
    letter. *)
Theorem language_fallback (lang : string) (a : RTIApplication) :
  lang ≠ "hindi" → lang ≠ "bilingual" →
  rendered (set_language lang a) = rendered (set_language "english" a).
Proof.
  intros Hh Hb. rewrite !rendered_language.
  apply String.eqb_neq in Hh, Hb. by rewrite Hh, Hb.
Qed.

Lemma language_fallback_witness :
  rendered (set_language "Hindi" Sample.application)
  = rendered (set_language "english" Sample.application).
Proof. by apply (language_fallback "Hindi" Sample.application). Defined.

End Rendering.

(** ** Templates and numbered questions *)

Section TemplateRoundTrip.
Import DateTime Generator Chars Numbering.






Lemma chars_ascii (c : ascii) (s : string) :
  Py.is_ascii c = true →
  Py.chars (String c s) = String c "" :: Py.chars s.
Proof.
  intros Hc. cbn [Py.chars]. destruct (Py.chars s) as [|t ts]; [done|].
  by rewrite Hc, andb_false_r.
Qed.

Lemma ascii_digit_facts (c : ascii) :
  Spec.ascii_digit c = true →
  Py.is_ascii c = true
  ∧ Py.isdigit (String c "") = true
  ∧ Py.isspace (String c "") = false
  ∧ Ascii.eqb c "." = false
  ∧ Ascii.eqb c Py.LF = false.
Proof.
  destruct c as [[] [] [] [] [] [] [] []]; intros H;
    first [discriminate H | by vm_compute].
Qed.

Lemma rstrip_chars_app (a cs : list string) :
  Py.rstrip_chars cs ≠ [] →
  Py.rstrip_chars (a ++ cs) = a ++ Py.rstrip_chars cs.
Proof.
  intros H. induction a as [|t a IH]; [done|].
  cbn [app]. rewrite rstrip_chars_cons, IH.
  destruct a as [|t' a']; [|done].
  cbn [app]. by destruct (Py.rstrip_chars cs).
Qed.

Lemma after_first_app (sep : ascii) (s t : string) :
  Py.contains sep s = false →
  Spec.after_first sep (s +:+ String sep t) = t.
Proof.
  induction s as [|c s IH].
  - intros _. change (EmptyString +:+ String sep t) with (String sep t).
    cbn [Spec.after_first]. by rewrite Ascii.eqb_refl.
  - cbn [Py.contains]. intros H. apply orb_false_iff in H as [Hc H].
    change (String c s +:+ String sep t) with (String c (s +:+ String sep t)).
    cbn [Spec.after_first]. rewrite Hc. by apply IH.
Qed.

Lemma short_numerals (i : Z) :
  1 ≤ i ≤ 999 → short_numeral (Py.str i) = true.
Proof.
  assert (H : forallb (λ n, short_numeral (Py.str (Z.of_nat n)))
                (seq 1 999) = true) by (vm_compute; reflexivity).
  intros Hi. rewrite forallb_forall in H.
  specialize (H (Z.to_nat i)). rewrite Z2Nat.id in H by lia.
  apply H. apply in_seq. lia.
Qed.

(** What a stripped, non-empty question is as a list of characters. *)
Lemma one_line_chars (q : string) :
  one_line q →
  Py.chars q ≠ []
  ∧ Py.rstrip_chars (Py.chars q) = Py.chars q
  ∧ Py.lstrip_chars (Py.chars q) = Py.chars q.
Proof.
  intros (Hne & Hs & _). split.
  - intros H. by apply chars_nil in H.
  - apply strip_chars_fixed. rewrite <- strip_chars_of. by rewrite Hs.
Qed.

(** A line made of a short numeral, a dot, a space and a question. *)
Lemma numeral_line (n q : string) :
  short_numeral n = true → one_line q →
  ∃ d ds,
    Py.chars (n +:+ ". " +:+ q) = d :: ds ++ Py.chars q
    ∧ Py.isdigit d = true ∧ Py.isspace d = false
    ∧ Py.contains "." (Py.text (take 4 (d :: ds ++ Py.chars q))) = true
    ∧ Py.contains "." n = false ∧ Py.contains Py.LF n = false.
Proof.
  unfold short_numeral. intros Hn Hq.
  apply andb_true_iff in Hn as [Hn Hlen].
  apply andb_true_iff in Hn as [Hne Hd]. apply Nat.leb_le in Hlen.
  destruct n as [|c1 [|c2 [|c3 [|c4 n]]]]; cbn [String.length] in Hlen;
    [done| | | |lia]; cbn [ascii_digits] in Hd.
  - apply andb_true_iff in Hd as [H1 _].
    apply ascii_digit_facts in H1 as (A1 & D1 & S1 & P1 & L1).
    exists (String c1 ""), ["."; " "].
    change (String c1 "" +:+ ". " +:+ q)
      with (String c1 (String "." (String " " q))).
    rewrite !chars_ascii by done.
    split; [done|]. split; [done|]. split; [done|].
    split; [|split]; cbn [Py.contains]; [|by rewrite P1|by rewrite L1].
    cbn [take app]. rewrite !text_cons.
    rewrite !contains_app. cbn [Py.contains].
    change (Ascii.eqb "." ".") with true. by rewrite !orb_true_r.
  - apply andb_true_iff in Hd as [H1 Hd].
    apply andb_true_iff in Hd as [H2 _].
    apply ascii_digit_facts in H1 as (A1 & D1 & S1 & P1 & L1).
    apply ascii_digit_facts in H2 as (A2 & D2 & S2 & P2 & L2).
    exists (String c1 ""), [String c2 ""; "."; " "].
    change (String c1 (String c2 "") +:+ ". " +:+ q)
      with (String c1 (String c2 (String "." (String " " q)))).
    rewrite !chars_ascii by done.
    split; [done|]. split; [done|]. split; [done|].
    split; [|split]; cbn [Py.contains];
      [|by rewrite P1, P2|by rewrite L1, L2].
    cbn [take app]. rewrite !text_cons.
    rewrite !contains_app. cbn [Py.contains].
    change (Ascii.eqb "." ".") with true. by rewrite !orb_true_r.
  - apply andb_true_iff in Hd as [H1 Hd].
    apply andb_true_iff in Hd as [H2 Hd].
    apply andb_true_iff in Hd as [H3 _].
    apply ascii_digit_facts in H1 as (A1 & D1 & S1 & P1 & L1).
    apply ascii_digit_facts in H2 as (A2 & D2 & S2 & P2 & L2).
    apply ascii_digit_facts in H3 as (A3 & D3 & S3 & P3 & L3).
    exists (String c1 ""), [String c2 ""; String c3 ""; "."; " "].
    change (String c1 (String c2 (String c3 "")) +:+ ". " +:+ q)
      with (String c1 (String c2 (String c3 (String "." (String " " q))))).
    rewrite !chars_ascii by done.
    split; [done|]. split; [done|]. split; [done|].
    split; [|split]; cbn [Py.contains];
      [|by rewrite P1, P2, P3|by rewrite L1, L2, L3].
    cbn [take app]. rewrite !text_cons.
    rewrite !contains_app. cbn [Py.contains].
    change (Ascii.eqb "." ".") with true. by rewrite !orb_true_r.
Qed.

(** The line [generate] writes for a question is read back as that
    question. *)
Lemma numbered_question (i : Z) (q : string) :
  1 ≤ i ≤ 999 → one_line q →
  Spec.question_of (Py.str i +:+ ". " +:+ q) = Some q
  ∧ Py.contains Py.LF (Py.str i +:+ ". " +:+ q) = false.
Proof.
  intros Hi Hq.
  destruct (numeral_line (Py.str i) q (short_numerals i Hi) Hq)
    as (d & ds & Hchars & Hd & Hsp & Hdot & Hnodot & Hnolf).
  destruct (one_line_chars q Hq) as (Hne & Hr & Hl).
  destruct Hq as (Hqne & Hstrip & Hlf).
  split.
  - assert (Hline : Py.strip (Py.str i +:+ ". " +:+ q)
                    = Py.str i +:+ ". " +:+ q).
    { unfold Py.strip. rewrite Hchars. cbn [Py.lstrip_chars]. rewrite Hsp.
      change (d :: ds ++ Py.chars q) with ((d :: ds) ++ Py.chars q).
      rewrite (rstrip_chars_app (d :: ds)) by by rewrite Hr.
      rewrite Hr. cbn [app]. rewrite <- Hchars. apply text_chars. }
    unfold Spec.question_of, Spec.question_in. rewrite Hline.
    assert (Hn : Spec.numbered_line (Py.str i +:+ ". " +:+ q) = true).
    { unfold Spec.numbered_line, Py.first_chars. rewrite Hchars, Hd.
      exact Hdot. }
    rewrite Hn. unfold Spec.text_after_dot.
    change (Py.str i +:+ ". " +:+ q)
      with (Py.str i +:+ String "." (String " " q)).
    rewrite after_first_app by done.
    assert (Hq' : Py.strip (String " " q) = q).
    { unfold Py.strip. rewrite chars_ascii by done.
      cbn [Py.lstrip_chars].
      change (Py.isspace " ") with true. cbv iota.
      fold (Py.strip q). exact Hstrip. }
    rewrite Hq'. by destruct q.
  - rewrite !contains_app, Hnolf, Hlf. reflexivity.
Qed.

Lemma numbered_read_back (i : Z) (qs : list string) :
  1 ≤ i → i + Z.of_nat (length qs) ≤ 1000 →
  Forall one_line qs →
  omap Spec.question_of (numbered i qs) = qs
  ∧ Forall (λ l, Py.contains Py.LF l = false) (numbered i qs).
Proof.
  intros Hi Hlen Hall. revert i Hi Hlen.
  induction Hall as [|q qs Hq _ IH]; intros i Hi Hlen; [done|].
  cbn [length] in Hlen. cbn [numbered omap list_omap].
  destruct (numbered_question i q) as [Hqo Hqlf]; [lia|done|].
  destruct (IH (i + 1)) as [IH1 IH2]; [lia|lia|].
  rewrite Hqo. change (Spec.question_of "") with (@None string).
  cbn [option_bind from_option]. split.
  - by rewrite IH1.
  - by repeat constructor.
Qed.

(** X20.  The numbered lines [generate] writes for the questions of an
    application are read back by the template extraction as the same
    questions, in the same order, as long as there are at most 999 of
    them and each is one non-empty stripped line. *)
Theorem numbered_round_trip (qs : list string) :
  (length qs ≤ 999)%nat →
  Forall Numbering.one_line qs →
  extract_template_questions (Py.join Py.nl (numbered 1 qs)) = Ok qs.
Proof.
  intros Hlen Hall.
  destruct (numbered_read_back 1 qs) as [H1 H2]; [lia|lia|done|].
  by rewrite extract_join, H1.
Qed.

Lemma numbered_round_trip_witness :
  extract_template_questions
    (Py.join Py.nl (numbered 1 ["How many inspections?"; "At what cost?"]))
  = Ok ["How many inspections?"; "At what cost?"].
Proof.
  apply (numbered_round_trip ["How many inspections?"; "At what cost?"]).
  - cbn [length]. lia.
  - repeat constructor; by vm_compute.
Defined.

End TemplateRoundTrip.

(** ** The directory and the factory methods *)

Section Factories.
Import DateTime Generator.

Lemma list_agencies_codes :
  list_agencies = ["awbi"; "fssai"; "cpcb"; "dahd"; "nlm"; "rgm"].
Proof. reflexivity. Qed.

(** X21.  [list_agencies] lists, without repetition, exactly the codes
    [get_agency_info] knows; every agency it knows is in the [central]
    fee category, whose fee is 10 rupees. *)
Theorem directory_listed (code : string) :
  (is_Some (get_agency_info code) ↔ code ∈ list_agencies)
  ∧ NoDup list_agencies
  ∧ (∀ ag, get_agency_info code = Some ag →
       fee_category ag = "central"
       ∧ FEES !! fee_category ag = Some 10).
Proof.
  unfold get_agency_info. split; [|split].
  - split; [|apply listed_in_directory].
    intros [ag E]. apply elem_of_list_to_map_2 in E.
    unfold list_agencies. apply list_elem_of_fmap. by exists (code, ag).
  - rewrite list_agencies_codes. apply (bool_decide_unpack _). by vm_compute.
  - intros ag E. by rewrite (directory_central _ _ E).
Qed.

Lemma append_nonempty (c : ascii) (s x : string) : String c s +:+ x ≠ "".
Proof. done. Qed.

Lemma init_fee (c : clock) (code : string) (qs : list string)
    (n ad su : string) (st di : option string) (kw : AppKwargs) :
  fee_amount (init c code qs n ad su st di kw)
  = if default false (akw_is_bpl kw) then 0
    else match st with
         | Some s =>
             if Py.truthy s then default 10 (FEES !! state_key s) else 10
         | None => 10
         end.
Proof.
  unfold fee_amount.
  rewrite (category_fee_is_10 (init c code qs n ad su st di kw)).
  cbn [init is_bpl state].
  destruct (default false (akw_is_bpl kw)); [done|].
  destruct st as [s|]; [|done].
  destruct (Py.truthy s); [|done].
  by destruct (FEES !! state_key s).
Qed.

(** X22.  The scheme of [subsidy_data_request] is matched literally.
    [nlm] and [rgm] address their own agency with four questions each;
    [both] addresses [dahd] with the three questions on each scheme and
    the closing one; any other scheme also addresses [dahd], with the
    closing question alone. *)
Theorem subsidy_scheme_routing (c : clock)
    (st n ad scheme : string) (di : option string) (kw : AppKwargs) :
  let request s := subsidy_data_request c st n ad s di kw in
  (agency_code (request "nlm") = "nlm"
   ∧ length (questions (request "nlm")) = 4%nat)
  ∧ (agency_code (request "rgm") = "rgm"
     ∧ length (questions (request "rgm")) = 4%nat)
  ∧ (agency_code (request "both") = "dahd"
     ∧ questions (request "both")
       = take 3 (questions (request "nlm")) ++ questions (request "rgm"))
  ∧ (scheme ≠ "nlm" → scheme ≠ "rgm" → scheme ≠ "both" →
     agency_code (request scheme) = "dahd"
     ∧ questions (request scheme) = drop 3 (questions (request "nlm"))).
Proof.
  cbv zeta. split; [by split|]. split; [by split|]. split; [by split|].
  intros H1 H2 H3. apply String.eqb_neq in H1, H2, H3.
  unfold subsidy_data_request. rewrite H1, H2, H3.
  by split.
Qed.

Lemma subsidy_scheme_routing_witness :
  agency_code
    (subsidy_data_request Sample.clock1 "Kerala" "Asha" "Kochi" "NLM" None
       no_app_kwargs) = "dahd"
  ∧ length
      (questions
         (subsidy_data_request Sample.clock1 "Kerala" "Asha" "Kochi" "NLM"
            None no_app_kwargs)) = 1%nat.
Proof.
  destruct (subsidy_scheme_routing Sample.clock1 "Kerala" "Asha" "Kochi"
              "NLM" None no_app_kwargs) as (_ & _ & _ & H).
  destruct H as [Ha Hq]; [done..|].
  split; [exact Ha|]. by rewrite Hq.
Defined.

(** X23.  Whatever the arguments, each factory method builds an
    application for an agency of the directory, with at least one
    question, no empty question and a subject; applicant, state and
    filing date are the ones given, the filing date being the current
    time when none is given; and the fee follows the state named in the
    call, although every agency of the directory is a central one. *)
Theorem factory_application (c : clock) (q : Requests.request)
    (n ad : string) (kw : AppKwargs) :
  let a := Requests.build c q n ad kw in
  agency_code a ∈ list_agencies
  ∧ questions a ≠ []
  ∧ Forall (λ x, x ≠ "") (questions a)
  ∧ subject a ≠ ""
  ∧ applicant_name a = n ∧ applicant_address a = ad
  ∧ state a = Requests.state_of q
  ∧ filing_date a = default (now c) (akw_filing_date kw)
  ∧ fee_amount a
    = if default false (akw_is_bpl kw) then 0
      else match Requests.state_of q with
           | Some s =>
               if Py.truthy s then default 10 (FEES !! state_key s) else 10
           | None => 10
           end.
Proof.
  cbv zeta. rewrite list_agencies_codes.
  assert (Hd : ∀ o, post_init c o = default (now c) o) by by intros [d|].
  destruct q as [fname floc st di|st di year|st di|st scheme di|di st];
    cbn [Requests.build Requests.state_of];
    unfold awbi_inspection_request, fssai_violations_request,
      pollution_board_request, subsidy_data_request,
      slaughterhouse_license_request;
    rewrite init_fee;
    cbn [init agency_code questions subject applicant_name
         applicant_address state filing_date];
    rewrite Hd.
  1-3,5: (split; [eauto 8 using list_elem_of_here, list_elem_of_further|];
          split; [done|];
          split; [repeat constructor;
                  first [apply append_nonempty|discriminate]|];
          split; [apply append_nonempty|]; done).
  split.
  { destruct (String.eqb scheme "nlm"), (String.eqb scheme "rgm");
      eauto 8 using list_elem_of_here, list_elem_of_further. }
  split.
  { by destruct (String.eqb scheme "nlm" || String.eqb scheme "both"),
         (String.eqb scheme "rgm" || String.eqb scheme "both"). }
  split.
  { destruct (String.eqb scheme "nlm" || String.eqb scheme "both"),
      (String.eqb scheme "rgm" || String.eqb scheme "both");
      cbn [app]; repeat constructor; apply append_nonempty. }
  split; [apply append_nonempty|]. done.
Qed.

(** Sixty days after a valid filing date within the calendar,
    [generate] returns. *)
Lemma generate_returns (a : RTIApplication) :
  valid (filing_date a) →
  ordinal (filing_date a) + 60 ≤ MAXORDINAL →
  returns (generate a).
Proof.
  intros [[Hlo Hhi] _] Hr.
  unfold generate, make_context, first_appeal_deadline, response_deadline.
  destruct (format_date_hindi_ok (filing_date a)) as [hi ->].
  cbn [mbind result_bind rbind].
  rewrite add_days_ok by lia. cbn [mbind result_bind rbind].
  rewrite add_days_ok by (cbn [ordinal]; lia).
  cbn [mbind result_bind rbind]. by eexists.
Qed.

(** X24.  With a clock that shows a date up to sixty days before the
    end of year 9999 and no filing date given, every factory method
    builds an application that [generate] turns into a text, in every
    language; the application it leaves behind is the one built, with
    that text in [generated_text]. *)
Theorem factory_generates (c : clock) (q : Requests.request)
    (n ad : string) (kw : AppKwargs) :
  valid (now c) → ordinal (now c) + 60 ≤ MAXORDINAL →
  akw_filing_date kw = None →
  ∃ t, generate (Requests.build c q n ad kw)
       = Ok (t, set_generated_text t (Requests.build c q n ad kw)).
Proof.
  intros Hv Hr Hk.
  assert (Hd : filing_date (Requests.build c q n ad kw) = now c).
  { destruct q; cbn [Requests.build];
      unfold awbi_inspection_request, fssai_violations_request,
        pollution_board_request, subsidy_data_request,
        slaughterhouse_license_request;
      cbn [init filing_date]; by rewrite Hk. }
  destruct (generate_returns (Requests.build c q n ad kw)) as [[t a'] E];
    [by rewrite Hd..|].
  exists t. rewrite E. rewrite generate_rendered in E.
  destruct (rendered (Requests.build c q n ad kw)) as [t0|];
    cbn [mbind result_bind rbind] in E; congruence.
Qed.

Lemma factory_generates_witness :
  returns
    (generate
       (Requests.build Sample.clock1
          (Requests.SlaughterhouseLicense "Pune" "Maharashtra")
          "Asha" "Pune" no_app_kwargs)).
Proof.
  destruct (factory_generates Sample.clock1
              (Requests.SlaughterhouseLicense "Pune" "Maharashtra")
              "Asha" "Pune" no_app_kwargs) as [t E];
    [by vm_compute|by vm_compute|reflexivity|].
  by eexists.
Defined.

Lemma directory_listed_witness :
  (∃ ag, get_agency_info "awbi" = Some ag ∧ fee_category ag = "central")
  ∧ get_agency_info "AWBI" = None.
Proof.
  destruct (directory_listed "awbi") as (H & _ & Hc).
  destruct (directory_listed "AWBI") as (H' & _ & _).
  split.
  - destruct (proj2 H) as [ag E]; [rewrite list_agencies_codes; by left|].
    exists ag. split; [exact E|]. by apply Hc.
  - destruct (get_agency_info "AWBI") as [ag|] eqn:E; [|done].
    assert (Hin : "AWBI" ∈ list_agencies) by by apply H'.
    rewrite list_agencies_codes in Hin.
    exfalso. revert Hin.
    change (¬ "AWBI" ∈ ["awbi"; "fssai"; "cpcb"; "dahd"; "nlm"; "rgm"]).
    apply (bool_decide_unpack _). by vm_compute.
Defined.

Lemma factory_application_witness :
  fee_amount
    (fssai_violations_request Sample.clock1 "Gujarat" "Surat" "Asha" "Surat"
       2025 no_app_kwargs) = 20.
Proof.
  destruct (factory_application Sample.clock1
              (Requests.FssaiViolations "Gujarat" "Surat" 2025)
              "Asha" "Surat" no_app_kwargs) as (_ & _ & _ & _ & _ & _ & _ & _ & H).
  exact H.
Defined.

End Factories.

(** ** The letter and the tracker *)

Section LetterAndTracker.
Import DateTime Tracker.

(** X25.  When an application is entered in the tracker with its own
    filing date and fee, the row keeps both, and the response deadline
    the row stores is the one the application computes and the letter
    prints; the first-appeal deadline of the letter is 30 days after
    it. *)
Theorem tracked_deadline (c : clock) (st st' : store)
    (a : Generator.RTIApplication) (an : string) (ft ref : option string)
    (kw : Kwargs) (id : Z) :
  add_rti c st (Generator.agency_code a) an (Generator.applicant_name a)
    (Generator.subject a) (Generator.questions a)
    (Some (Generator.filing_date a)) (Generator.fee_amount a)
    (Generator.state a) (Generator.district a) ft ref kw = Ok (id, st') →
  ∃ r, st' !! id = Some r
       ∧ filing_date r = Generator.filing_date a
       ∧ fee_amount r = Generator.fee_amount a
       ∧ Generator.response_deadline a = Ok (response_deadline r)
       ∧ Generator.first_appeal_deadline a
         = add_days (response_deadline r) 30
       ∧ ∀ ctx, Generator.make_context a = Ok ctx →
           Generator.ctx_response_deadline ctx
           = strftime_dmy (response_deadline r).
Proof.
  unfold add_rti.
  destruct (add_days (Generator.filing_date a) 30) as [dl|e] eqn:Hdl;
    [|discriminate].
  cbn [mbind result_bind rbind].
  intros H. apply insert_row_inv in H as [Hfresh ->].
  eexists. split; [apply lookup_insert_eq|].
  cbn [filing_date fee_amount response_deadline].
  split; [done|]. split; [done|].
  unfold Generator.first_appeal_deadline, Generator.response_deadline.
  rewrite Hdl. cbn [mbind result_bind rbind].
  split; [done|]. split; [done|].
  intros ctx Hctx.
  apply make_context_inv in Hctx as (_ & _ & _ & _ & rd & fad & Hrd & _ & -> & _).
  congruence.
Qed.

Lemma tracked_deadline_witness :
  ∃ id st' r,
    add_rti Sample.clock1 Sample.table "awbi" "AWBI" "Test" "" ["Test"]
      (Some (of_ymd 2026 1 1)) 10 None None None None no_kwargs
    = Ok (id, st')
    ∧ st' !! id = Some r
    ∧ Generator.response_deadline Sample.application
      = Ok (response_deadline r).
Proof.
  destruct (add_rti Sample.clock1 Sample.table "awbi" "AWBI" "Test" "" ["Test"]
              (Some (of_ymd 2026 1 1)) 10 None None None None no_kwargs)
    as [[id st']|e] eqn:E; [|by vm_compute in E].
  destruct (tracked_deadline Sample.clock1 Sample.table st' Sample.application
              "AWBI" None None no_kwargs id E) as (r & Hr & _ & _ & Hd & _).
  by exists id, st', r.
Defined.

End LetterAndTracker.
